(** * Walden ingestion scripts: freshness check and snapshot protocol

    A shallow embedding of [ingests/faostat.py] and
    [ingests/wb_income_groups.py].  Python dictionaries are finite maps
    from string keys, exceptions are an explicit error result, and the
    calls that leave the process (HTTP requests, the walden index, the
    clock, the log) go through an explicit state that records a trace of
    what was done. *)

From Stdlib Require Import ZArith Ascii String List Lia Bool.
From stdpp Require Import base option list strings pretty gmap.

Local Open Scope string_scope.
Local Open Scope list_scope.
Local Open Scope Z_scope.

(** ** Python values, exceptions and results *)

(** Calendar date, as [datetime.date]: ordered by (year, month, day). *)
Record date := mkdate { year : Z; month : Z; day : Z }.

(** [datetime.datetime]; [tzoffset] is the UTC offset in seconds when the
    string carried one. *)
Record datetime := mkdatetime {
  dt_date : date;
  hour : Z; minute : Z; second : Z; microsecond : Z;
  tzoffset : option Z }.

(** The values stored in the dictionaries of the two scripts. *)
Inductive value :=
| VStr (s : string)
| VInt (n : Z)
| VDate (d : date).

(** Exception classes that the code can raise or let through. *)
Inductive exn :=
| ValueError
| TypeError
| KeyError (key : string)
| RequestException (what : string).

Inductive result (A : Type) :=
| Ok (a : A)
| Raise (e : exn).
Arguments Ok {A} a.
Arguments Raise {A} e.

#[global] Instance date_eq_dec : EqDecision date.
Proof. solve_decision. Defined.
#[global] Instance value_eq_dec : EqDecision value.
Proof. solve_decision. Defined.

(** ** Dates *)

Definition is_leap (y : Z) : bool :=
  (y mod 4 =? 0) && (negb (y mod 100 =? 0) || (y mod 400 =? 0)).

Definition days_in_month (y m : Z) : Z :=
  if m =? 2 then (if is_leap y then 29 else 28)
  else if (m =? 4) || (m =? 6) || (m =? 9) || (m =? 11) then 30
  else 31.

(** The check made by the [date] constructor (MINYEAR = 1, MAXYEAR = 9999). *)
Definition valid_date (d : date) : bool :=
  (1 <=? year d) && (year d <=? 9999) &&
  (1 <=? month d) && (month d <=? 12) &&
  (1 <=? day d) && (day d <=? days_in_month (year d) (month d)).

(** [a > b] on dates. *)
Definition date_gt (a b : date) : bool :=
  (year b <? year a) ||
  ((year b =? year a) &&
   ((month b <? month a) || ((month b =? month a) && (day b <? day a)))).

(** Strictly later, as a proposition: lexicographic on (year, month, day). *)
Definition later (a b : date) : Prop :=
  year b < year a \/
  (year b = year a /\ (month b < month a \/ (month b = month a /\ day b < day a))).

(** ** Characters and decimal digits *)

Definition is_digit (c : ascii) : bool :=
  let n := nat_of_ascii c in (48 <=? n)%nat && (n <=? 57)%nat.

Definition digit_val (c : ascii) : Z := Z.of_nat (nat_of_ascii c) - 48.

Definition digit_char (k : Z) : ascii := ascii_of_nat (Z.to_nat (48 + k)).

(** Value of a string of decimal digits, [None] when a character is not a
    digit ([int(s)] restricted to what the parsers below feed it). *)
Fixpoint digits_val_from (acc : Z) (s : string) : option Z :=
  match s with
  | EmptyString => Some acc
  | String c r =>
      if is_digit c then digits_val_from (10 * acc + digit_val c) r else None
  end.

Definition digits_val (s : string) : option Z :=
  match s with
  | EmptyString => None
  | _ => digits_val_from 0 s
  end.

(** [str.lower()] on ASCII text: A-Z go to a-z, everything else stays. *)
Definition lower_char (c : ascii) : ascii :=
  let n := nat_of_ascii c in
  if (65 <=? n)%nat && (n <=? 90)%nat then ascii_of_nat (n + 32) else c.

Fixpoint lower (s : string) : string :=
  match s with
  | EmptyString => EmptyString
  | String c r => String (lower_char c) (lower r)
  end.

(** [needle in haystack] on strings. *)
Fixpoint contains (needle haystack : string) : bool :=
  String.prefix needle haystack ||
  match haystack with
  | EmptyString => false
  | String _ r => contains needle r
  end.

(** ** [str(date)], i.e. [date.isoformat()]: [%04d-%02d-%02d] *)

Definition pad2 (n : Z) : string :=
  String (digit_char (n / 10 mod 10)) (String (digit_char (n mod 10)) "").

Definition pad4 (n : Z) : string :=
  String (digit_char (n / 1000 mod 10))
    (String (digit_char (n / 100 mod 10)) (pad2 n)).

Definition date_str (d : date) : string :=
  pad4 (year d) +:+ "-" +:+ pad2 (month d) +:+ "-" +:+ pad2 (day d).

(** [str(n)] for the publication year. *)
Definition int_str (n : Z) : string := pretty n.

(** ** [datetime.strptime(s, "%Y-%m-%d")]

    Strings are strings of bytes: ASCII text, as the index files hold.
    The format compiles to the regular expression
    [(\d\d\d\d)-(1[0-2]|0[1-9]|[1-9])-(3[0-1]|[1-2]\d|0[1-9]|[1-9]| [1-9])];
    the whole string has to be consumed and the three numbers have to be a
    real calendar date.  [None] stands for the [ValueError]. *)

Definition in_range (lo hi : ascii) (c : ascii) : bool :=
  let n := nat_of_ascii c in
  (nat_of_ascii lo <=? n)%nat && (n <=? nat_of_ascii hi)%nat.

Definition strptime_month (s : string) : option (Z * string) :=
  match s with
  | String a (String b (String "-" r)) =>
      if (Ascii.eqb a "1" && in_range "0" "2" b) ||
         (Ascii.eqb a "0" && in_range "1" "9" b)
      then Some (10 * digit_val a + digit_val b, r) else None
  | String a (String "-" r) =>
      if in_range "1" "9" a then Some (digit_val a, r) else None
  | _ => None
  end.

Definition strptime_day (s : string) : option Z :=
  match s with
  | String a (String b EmptyString) =>
      if (Ascii.eqb a "3" && in_range "0" "1" b) ||
         (in_range "1" "2" a && is_digit b) ||
         (Ascii.eqb a "0" && in_range "1" "9" b)
      then Some (10 * digit_val a + digit_val b)
      else if Ascii.eqb a " " && in_range "1" "9" b then Some (digit_val b)
      else None
  | String a EmptyString =>
      if in_range "1" "9" a then Some (digit_val a) else None
  | _ => None
  end.

Definition checked_date (y m d : Z) : option date :=
  let r := mkdate y m d in if valid_date r then Some r else None.

Definition strptime_ymd (s : string) : option date :=
  match s with
  | String y1 (String y2 (String y3 (String y4 (String "-" r)))) =>
      if is_digit y1 && is_digit y2 && is_digit y3 && is_digit y4 then
        match strptime_month r with
        | Some (m, r') =>
            match strptime_day r' with
            | Some d =>
                checked_date
                  (1000 * digit_val y1 + 100 * digit_val y2 +
                   10 * digit_val y3 + digit_val y4) m d
            | None => None
            end
        | None => None
        end
      else None
  | _ => None
  end.

(** ** [datetime.fromisoformat(s)]

    The documented input format of the interpreters this script was written
    for (Python 3.7 to 3.10), the output of [isoformat()]:
    [YYYY-MM-DD[*HH[:MM[:SS[.fff[fff]]]][+HH:MM[:SS[.ffffff]]]]], where [*]
    is any one character; the numbers then go through the range checks of
    the [datetime] constructor.  [None] stands for the [ValueError]. *)

Definition two_digits (s : string) : option (Z * string) :=
  match s with
  | String a (String b r) =>
      if is_digit a && is_digit b
      then Some (10 * digit_val a + digit_val b, r) else None
  | _ => None
  end.

Definition parse_isoformat_date (s : string) : option (date * string) :=
  match s with
  | String y1 (String y2 (String y3 (String y4 (String "-" r)))) =>
      if is_digit y1 && is_digit y2 && is_digit y3 && is_digit y4 then
        match two_digits r with
        | Some (m, String "-" r') =>
            match two_digits r' with
            | Some (d, rest) =>
                Some (mkdate (1000 * digit_val y1 + 100 * digit_val y2 +
                              10 * digit_val y3 + digit_val y4) m d, rest)
            | None => None
            end
        | _ => None
        end
      else None
  | _ => None
  end.

(** [HH[:MM[:SS[.fff[fff]]]]], as (hour, minute, second, microsecond). *)
Definition parse_hh_mm_ss_ff (s : string) : option (Z * Z * Z * Z) :=
  match two_digits s with
  | Some (h, EmptyString) => Some (h, 0, 0, 0)
  | Some (h, String ":" r1) =>
      match two_digits r1 with
      | Some (m, EmptyString) => Some (h, m, 0, 0)
      | Some (m, String ":" r2) =>
          match two_digits r2 with
          | Some (sec, EmptyString) => Some (h, m, sec, 0)
          | Some (sec, String "." r3) =>
              match digits_val r3 with
              | Some f =>
                  if (String.length r3 =? 3)%nat then Some (h, m, sec, f * 1000)
                  else if (String.length r3 =? 6)%nat then Some (h, m, sec, f)
                  else None
              | None => None
              end
          | _ => None
          end
      | _ => None
      end
  | _ => None
  end.

(** Split a time string at its first [+] or [-]. *)
Fixpoint split_tz (s : string) : string * option (bool * string) :=
  match s with
  | EmptyString => (EmptyString, None)
  | String c r =>
      if Ascii.eqb c "+" then (EmptyString, Some (false, r))
      else if Ascii.eqb c "-" then (EmptyString, Some (true, r))
      else let '(t, z) := split_tz r in (String c t, z)
  end.

(** The UTC offset [HH:MM[:SS[.ffffff]]] after the sign, in microseconds. *)
Definition parse_tz (negative : bool) (s : string) : option Z :=
  let n := String.length s in
  if (n =? 5)%nat || (n =? 8)%nat || (n =? 15)%nat then
    match parse_hh_mm_ss_ff s with
    | Some (h, m, sec, us) =>
        let off := ((h * 3600 + m * 60 + sec) * 1000000 + us) in
        if off <? 86400 * 1000000
        then Some (if negative then - off else off) else None
    | None => None
    end
  else None.

Definition parse_isoformat_time (s : string)
  : option (Z * Z * Z * Z * option Z) :=
  let '(t, z) := split_tz s in
  match parse_hh_mm_ss_ff t with
  | Some (h, m, sec, us) =>
      if (h <? 24) && (m <? 60) && (sec <? 60) then
        match z with
        | None => Some (h, m, sec, us, None)
        | Some (neg, zs) =>
            match parse_tz neg zs with
            | Some off => Some (h, m, sec, us, Some off)
            | None => None
            end
        end
      else None
  | None => None
  end.

Definition fromisoformat (s : string) : option datetime :=
  match parse_isoformat_date s with
  | Some (d, rest) =>
      if valid_date d then
        match rest with
        | EmptyString => Some (mkdatetime d 0 0 0 0 None)
        | String _ tstr =>
            match parse_isoformat_time tstr with
            | Some (h, m, sec, us, tz) => Some (mkdatetime d h m sec us tz)
            | None => None
            end
        end
      else None
  | None => None
  end.

(** ** The world outside the scripts *)

(** A Python dictionary with string keys: an index document, or the
    metadata a script hands to [add_to_catalog]. *)
Abbreviation dict := (gmap string value).

(** The walden index: for each namespace, the documents under
    [INDEX_DIR/namespace] as [iter_docs] yields them, (file name, document). *)
Abbreviation walden_index := (gmap string (list (string * gmap string value))).

(** One entry of the FAO catalog listing.  The script reads these five keys
    of the JSON object and no other. *)
Record descriptor := mkdescriptor {
  DatasetCode : string;
  DatasetName : string;
  DatasetDescription : string;
  DateUpdate : string;
  FileLocation : string }.

(** Response headers of [requests]: a case-insensitive dictionary, kept
    under lower-cased names. *)
Abbreviation headers := (gmap string string).

(** What the process did to the outside, each call with its outcome. *)
Inductive event :=
| CatalogGet (url : string) (r : result (list descriptor))
| Head (url : string) (r : result (gmap string string))
| IterDocs (namespace : string) (docs : list (string * gmap string value))
| Download (url : string) (r : result unit)
| AddToCatalog (metadata : gmap string value) (r : result unit)
| ApiGet (domain category : string) (r : result (option string))
| ReadExcel (url sheet_name : string) (r : result (list string))
| Log (level message : string).

(** The answers of the outside world.  Each may depend on everything that
    happened before (the trace so far).

    [add_to_catalog_response] stands for [owid.walden.add_to_catalog] with
    [upload=True]: it may fail, and it leaves the index in some new state.
    [api_response] is [requests.get] on the API: [Ok None] when [resp.ok]
    is false, [Ok (Some body)] for [resp.json()].
    [parser_parse] is [dateutil.parser.parse] and [normalize_NFKD] is
    [unicodedata.normalize("NFKD", _)]: pure library functions that are
    left open here. *)
Record world := mkworld {
  initial_index : walden_index;
  clock : list event -> date;
  catalog_response : list event -> result (list descriptor);
  head_response : list event -> string -> result (gmap string string);
  download_response : list event -> string -> result unit;
  add_to_catalog_response :
    list event -> gmap string value -> walden_index -> result unit * walden_index;
  api_response : list event -> string -> string -> result (option string);
  read_excel_response : list event -> string -> string -> result (list string);
  parser_parse : string -> option datetime;
  normalize_NFKD : string -> string }.

Record state := mkstate { index : walden_index; trace : list event }.

Definition initial (w : world) : state := mkstate (initial_index w) [].

(** ** State and exception monad *)

Definition M (A : Type) : Type := state -> result A * state.

Definition ret {A} (a : A) : M A := fun s => (Ok a, s).

Definition bind {A B} (m : M A) (k : A -> M B) : M B :=
  fun s => match m s with
           | (Ok a, s') => k a s'
           | (Raise e, s') => (Raise e, s')
           end.

Definition lift {A} (r : result A) : M A := fun s => (r, s).

Definition emit (ev : event) : M unit :=
  fun s => (Ok tt, mkstate (index s) (trace s ++ [ev])).

(** A call to the outside: the answer is a function of the trace so far,
    and the call is recorded together with its answer. *)
Definition call {A} (ev : result A -> event) (resp : list event -> result A)
  : M A :=
  fun s => let r := resp (trace s) in
           (r, mkstate (index s) (trace s ++ [ev r])).

Declare Scope M_scope.
Delimit Scope M_scope with M.
Notation "x <- m ;; k" := (bind m (fun x => k))
  (at level 100, m at next level, right associativity) : M_scope.
Notation "m ;; k" := (bind m (fun _ => k))
  (at level 100, right associativity) : M_scope.

(** [bind] on plain results, for the code that raises without touching the
    outside. *)
Definition rbind {A B} (r : result A) (k : A -> result B) : result B :=
  match r with Ok a => k a | Raise e => Raise e end.

(** Modelled from the spec: [owid.walden.files.iter_docs] is not among the
    sources.  As the index reader of the spec, [iter_docs(INDEX_DIR /
    namespace)] lists the records of one namespace, each as the pair (file
    name, document) that the loop unpacks, and lists nothing when the
    namespace has no directory. *)
Definition iter_docs (namespace : string) : M (list (string * dict)) :=
  fun s => let docs := default [] (index s !! namespace) in
           (Ok docs, mkstate (index s) (trace s ++ [IterDocs namespace docs])).

(** Modelled from the spec: [owid.walden.ui.log] is not among the sources;
    it reports one line, informational or not, and does nothing else. *)
Definition log (level message : string) : M unit := emit (Log level message).

(** [owid.walden.files.download] and [owid.walden.add_to_catalog] are not
    among the sources either: what they answer, and what the second does to
    the index, is taken from the world. *)

Definition files_download (w : world) (url : string) : M unit :=
  call (Download url) (fun t => download_response w t url).

Definition add_to_catalog (w : world) (metadata : dict) : M unit :=
  fun s => let '(r, idx) := add_to_catalog_response w (trace s) metadata (index s) in
           (r, mkstate idx (trace s ++ [AddToCatalog metadata r])).

(** * [ingests/faostat.py] *)

Module faostat.

Local Open Scope M_scope.

Definition NAMESPACE : string := "faostat".
Definition FAO_DATA_URL : string := "http://www.fao.org/faostat/en/#data".
Definition SOURCE_NAME : string :=
  "Food and Agriculture Organization of the United Nations".
Definition LICENSE_URL : string :=
  "http://www.fao.org/contact-us/terms/db-terms-of-use/en".
Definition LICENSE_NAME : string := "CC BY-NC-SA 3.0 IGO".

(** Codes of datasets to download from FAO and upload to walden bucket. *)
Definition INCLUDED_DATASETS_CODES : list string :=
  [ "ae"; "af"; "ef"; "ei"; "emn"; "ep"; "fbs"; "fbsh"; "fo"; "fs"; "lc";
    "oe"; "qa"; "qc"; "qcl"; "qd"; "qi"; "ql"; "qp"; "qv"; "rfb"; "rfn";
    "rl"; "rp"; "rt" ].

Definition FAO_CATALOG_URL : string :=
  "http://fenixservices.fao.org/faostat/static/bulkdownloads/datasets_E.json".

(** Categories to be fetched using the API for each domain. *)
Definition CATEGORIES : list string :=
  [ "itemgroup"; "itemsgroup"; "area"; "element"; "unit"; "flag" ].

Definition GIT_URL_TO_WALDEN : string := "https://github.com/owid/walden/".
Definition GIT_URL_TO_THIS_FILE : string :=
  GIT_URL_TO_WALDEN +:+ "blob/master/ingests/faostat.py".

(** [class FAODataset]: the raw catalog entry and the headers of the file
    on the server. *)
Record FAODataset := mkFAODataset {
  _dataset_metadata : descriptor;
  _dataset_server_metadata : headers }.

(** [class FAOAdditionalMetadata]. *)
Record FAOAdditionalMetadata := mkFAOAdditionalMetadata {
  am_publication_date : date;
  am_publication_year : Z }.

Section Run.

Variable w : world.

(** Version tag to assign to walden folders: [str(dt.date.today())], read
    once, when the module is loaded. *)
Definition VERSION : string := date_str (clock w []).

Definition source_data_url (self : FAODataset) : string :=
  FileLocation (_dataset_metadata self).

Definition _load_dataset_server_metadata (self : FAODataset) : M headers :=
  call (Head (source_data_url self))
       (fun t => head_response w t (source_data_url self)).

(** [FAODataset.__init__] *)
Definition FAODataset_init (dataset_metadata : descriptor) : M FAODataset :=
  let self := mkFAODataset dataset_metadata ∅ in
  server_metadata <- _load_dataset_server_metadata self ;;
  ret (mkFAODataset dataset_metadata server_metadata).

Definition publication_date (self : FAODataset) : result date :=
  match fromisoformat (DateUpdate (_dataset_metadata self)) with
  | Some t => Ok (dt_date t)
  | None => Raise ValueError
  end.

Definition publication_year (self : FAODataset) : result Z :=
  rbind (publication_date self) (fun d => Ok (year d)).

(** [dateutil]'s [ParserError] is a [ValueError]. *)
Definition modification_date (self : FAODataset) : result date :=
  match _dataset_server_metadata self !! lower "Last-modified" with
  | Some last_update_date_str =>
      match parser_parse w last_update_date_str with
      | Some last_update_date => Ok (dt_date last_update_date)
      | None => Raise ValueError
      end
  | None => Raise (KeyError "last-modified")
  end.

Definition short_name (self : FAODataset) : string :=
  NAMESPACE +:+ "_" +:+ lower (DatasetCode (_dataset_metadata self)).

(** Walden-compatible view of this dataset's metadata.  The values are
    computed in the order of the dictionary display. *)
Definition metadata (self : FAODataset) : result dict :=
  rbind (publication_year self) (fun name_year =>
  rbind (publication_year self) (fun pub_year =>
  rbind (publication_date self) (fun pub_date =>
  Ok (list_to_map
    [ ("namespace", VStr NAMESPACE);
      ("short_name", VStr (short_name self));
      ("name", VStr (DatasetName (_dataset_metadata self) +:+ " - FAO" +:+
                     " (" +:+ int_str name_year +:+ ")"));
      ("description", VStr (DatasetDescription (_dataset_metadata self)));
      ("source_name", VStr SOURCE_NAME);
      ("publication_year", VInt pub_year);
      ("publication_date", VStr (date_str pub_date));
      ("date_accessed", VStr VERSION);
      ("version", VStr VERSION);
      ("url", VStr FAO_DATA_URL);
      ("source_data_url", VStr (source_data_url self));
      ("file_extension", VStr "zip");
      ("license_url", VStr LICENSE_URL);
      ("license_name", VStr LICENSE_NAME) ] : dict)))).

(** Run faostat -> walden pipeline for one dataset. *)
Definition to_walden (self : FAODataset) : M unit :=
  files_download w (source_data_url self) ;;
  md <- lift (metadata self) ;;
  add_to_catalog w md.

Definition load_faostat_catalog : M (list descriptor) :=
  call (CatalogGet FAO_CATALOG_URL) (catalog_response w).

(** [dt.datetime.strptime(x, "%Y-%m-%d").date()] on what [dict.get]
    returned: [TypeError] unless [x] is a string. *)
Definition strptime_date (x : option value) : result date :=
  match x with
  | Some (VStr s) =>
      match strptime_ymd s with
      | Some d => Ok d
      | None => Raise ValueError
      end
  | _ => Raise TypeError
  end.

(** The loop of [is_dataset_already_up_to_date] over the documents that
    remain, [dataset_up_to_date] being the flag so far. *)
Fixpoint scan_index (source_data_url : string) (source_modification_date : date)
    (docs : list (string * dict)) (dataset_up_to_date : bool) : M bool :=
  match docs with
  | [] => ret dataset_up_to_date
  | (filename, index_file) :: docs' =>
      let index_file_source_data_url := index_file !! "source_data_url" in
      index_file_date_accessed <-
        lift (strptime_date (index_file !! "date_accessed")) ;;
      if bool_decide (index_file_source_data_url = Some (VStr source_data_url))
         && date_gt index_file_date_accessed source_modification_date
      then
        log "INFO" ("Dataset is already up-to-date (index file: " +:+
                    filename +:+ ").") ;;
        scan_index source_data_url source_modification_date docs' true
      else
        scan_index source_data_url source_modification_date docs'
                   dataset_up_to_date
  end.

(** Check if a dataset is already up-to-date in the walden index. *)
Definition is_dataset_already_up_to_date (source_data_url : string)
    (source_modification_date : date) : M bool :=
  docs <- iter_docs NAMESPACE ;;
  scan_index source_data_url source_modification_date docs false.

(** [FAOAdditionalMetadata.__init__]: assign current date. *)
Definition FAOAdditionalMetadata_init : M FAOAdditionalMetadata :=
  fun s => let today := clock w (trace s) in
           (Ok (mkFAOAdditionalMetadata today (year today)), s).

(** [FAOAdditionalMetadata.create_metadata]: the fields given to
    [catalog.Dataset]. *)
Definition create_metadata (self : FAOAdditionalMetadata) : dict :=
  list_to_map
    [ ("namespace", VStr NAMESPACE);
      ("short_name", VStr (NAMESPACE +:+ "_metadata"));
      ("name", VStr ("Metadata and identifiers - FAO (" +:+
                     int_str (am_publication_year self) +:+ ")"));
      ("source_name", VStr SOURCE_NAME);
      ("url", VStr FAO_DATA_URL);
      ("description", VStr "Metadata and identifiers used in FAO datasets");
      ("date_accessed", VStr VERSION);
      ("version", VStr VERSION);
      ("publication_year", VInt (am_publication_year self));
      ("publication_date", VDate (am_publication_date self));
      ("file_extension", VStr "json");
      ("license_name", VStr LICENSE_NAME);
      ("license_url", VStr LICENSE_URL);
      ("access_notes", VStr ("API snapshot captured by script at " +:+
                             GIT_URL_TO_THIS_FILE)) ].

(** The inner loop of [_fetch_additional_metadata]. *)
Fixpoint fetch_categories (domain : string) (categories : list string)
    (domain_meta : gmap string string) : M (gmap string string) :=
  match categories with
  | [] => ret domain_meta
  | category :: categories' =>
      resp <- call (ApiGet domain category)
                   (fun t => api_response w t domain category) ;;
      match resp with
      | Some json => fetch_categories domain categories'
                       (<[category := json]> domain_meta)
      | None => fetch_categories domain categories' domain_meta
      end
  end.

(** The outer loop of [_fetch_additional_metadata]. *)
Fixpoint fetch_domains (domains : list string)
    (metadata_combined : gmap string (gmap string string))
  : M (gmap string (gmap string string)) :=
  match domains with
  | [] => ret metadata_combined
  | domain :: domains' =>
      log "INFO" ("Fetching additional metadata for domain " +:+ domain +:+ ".") ;;
      domain_meta <- fetch_categories domain CATEGORIES ∅ ;;
      fetch_domains domains' (<[domain := domain_meta]> metadata_combined)
  end.

Definition _fetch_additional_metadata : M (gmap string (gmap string string)) :=
  fetch_domains INCLUDED_DATASETS_CODES ∅.

Definition FAOAdditionalMetadata_to_walden (self : FAOAdditionalMetadata)
  : M unit :=
  _fetch_additional_metadata ;;
  add_to_catalog w (create_metadata self).

(** One turn of the loop of [main]; [any_dataset_was_updated] is the flag
    before the turn, the result is the flag after it. *)
Definition main_body (any_dataset_was_updated : bool) (description : descriptor)
  : M bool :=
  if bool_decide (lower (DatasetCode description) ∈ INCLUDED_DATASETS_CODES)
  then
    faostat_dataset <- FAODataset_init description ;;
    let url := source_data_url faostat_dataset in
    mdate <- lift (modification_date faostat_dataset) ;;
    up_to_date <- is_dataset_already_up_to_date url mdate ;;
    if up_to_date then ret any_dataset_was_updated
    else (to_walden faostat_dataset ;; ret true)
  else ret any_dataset_was_updated.

Fixpoint main_loop (faostat_catalog : list descriptor)
    (any_dataset_was_updated : bool) : M bool :=
  match faostat_catalog with
  | [] => ret any_dataset_was_updated
  | description :: rest =>
      any <- main_body any_dataset_was_updated description ;;
      main_loop rest any
  end.

(** The message of the last [log] of [main]. *)
Definition NO_NEED : string :=
  "No need to fetch additional metadata, since all datasets are up-to-date.".

Definition main : M unit :=
  faostat_catalog <- load_faostat_catalog ;;
  any_dataset_was_updated <- main_loop faostat_catalog false ;;
  if any_dataset_was_updated then
    additional_metadata <- FAOAdditionalMetadata_init ;;
    FAOAdditionalMetadata_to_walden additional_metadata
  else log "INFO" NO_NEED.

End Run.

End faostat.

(** * [ingests/wb_income_groups.py] *)

Module wb_income_groups.

Local Open Scope M_scope.

Definition SOURCE_DATA_URL : string :=
  "http://databank.worldbank.org/data/download/site-content/CLASS.xlsx".

(** [sep.join(l)] *)
Fixpoint join (sep : string) (l : list string) : string :=
  match l with
  | [] => ""
  | [x] => x
  | x :: r => x +:+ sep +:+ join sep r
  end.

Definition NEWLINE : string := String "010"%char "".

(** The sentence [check_date] looks for. *)
Definition SENTENCE : string :=
  "Income classifications set on 1 July 2021 remain in effect until 1 July 2022".

(** [d[key]] where a string is expected. *)
Definition getitem_str (d : dict) (key : string) : result string :=
  match d !! key with
  | Some (VStr s) => Ok s
  | Some _ => Raise TypeError
  | None => Raise (KeyError key)
  end.

Definition check_date (metadata : dict) : result unit :=
  rbind (getitem_str metadata "description") (fun description =>
  if negb (contains SENTENCE description) then Raise ValueError else Ok tt).

Section Run.

Variable w : world.

(** The non-empty cells of the Notes sheet, joined and normalised. *)
Definition load_metadata_description : M string :=
  notes <- call (ReadExcel SOURCE_DATA_URL "Notes")
                (fun t => read_excel_response w t SOURCE_DATA_URL "Notes") ;;
  let s := join (NEWLINE +:+ NEWLINE) notes in
  ret (normalize_NFKD w s).

(** [datetime.now().date().strftime("%Y-%m-%d")] *)
Definition date_accessed_now : M string :=
  fun s => (Ok (date_str (clock w (trace s))), s).

Definition create_metadata_dict : M dict :=
  description <- load_metadata_description ;;
  date_accessed <- date_accessed_now ;;
  ret (list_to_map
    [ ("namespace", VStr "wb");
      ("short_name", VStr "wb_income");
      ("name", VStr "World Bank list of economies (June 2021)");
      ("source_name", VStr "World Bank");
      ("url", VStr "https://datahelpdesk.worldbank.org/knowledgebase/articles/906519-world-bank-country-and-lending-groups");
      ("source_data_url", VStr SOURCE_DATA_URL);
      ("description", VStr description);
      ("date_accessed", VStr date_accessed);
      ("publication_year", VInt 2021);
      ("publication_date", VStr "2021-07-01");
      ("owid_data_url", VStr "https://walden.nyc3.digitaloceanspaces.com/wb/2021-07-01/wb_income.xlsx");
      ("file_extension", VStr "xlsx");
      ("license_name", VStr "CC BY 4.0");
      ("license_url", VStr "https://www.worldbank.org/en/about/legal/terms-of-use-for-datasets") ]
    : dict).

Definition main : M unit :=
  metadata <- create_metadata_dict ;;
  lift (check_date metadata) ;;
  url <- lift (getitem_str metadata "source_data_url") ;;
  files_download w url ;;
  add_to_catalog w metadata.

End Run.

End wb_income_groups.

(** * Vocabulary of the properties *)

Import faostat.

(** ** The freshness check *)

(** The documents of the faostat partition in a state of the index. *)
Definition namespace_partition (s : state) : list (string * dict) :=
  default [] (index s !! NAMESPACE).

(** The date a document of the index was accessed, when its
    [date_accessed] field is a string in the [%Y-%m-%d] format. *)
Definition date_accessed_of (doc : dict) : option date :=
  match doc !! "date_accessed" with
  | Some (VStr s) => strptime_ymd s
  | _ => None
  end.

(** The exception [strptime] raises on a document without such a date. *)
Definition malformed_error (doc : dict) : exn :=
  match doc !! "date_accessed" with
  | Some (VStr _) => ValueError
  | _ => TypeError
  end.

(** A document that makes the candidate up to date: same URL, accessed
    strictly later than the source was modified. *)
Definition fresh_for (url : string) (m : date) (doc : dict) : Prop :=
  doc !! "source_data_url" = Some (VStr url) /\
  exists d, date_accessed_of doc = Some d /\ later d m.

Definition fresh_forb (url : string) (m : date) (doc : dict) : bool :=
  bool_decide (doc !! "source_data_url" = Some (VStr url)) &&
  match date_accessed_of doc with
  | Some d => date_gt d m
  | None => false
  end.

(** The log lines of a scan: one for each document that makes the
    candidate up to date. *)
Definition up_to_date_log (filename : string) : event :=
  Log "INFO" ("Dataset is already up-to-date (index file: " +:+ filename +:+ ").").

Definition scan_logs (url : string) (m : date) (docs : list (string * dict))
  : list event :=
  map (fun fd => up_to_date_log (fst fd))
      (List.filter (fun fd => fresh_forb url m (snd fd)) docs).

(** ** Reading a trace *)

(** The state after some more events. *)
Definition after (s : state) (evs : list event) : state :=
  mkstate (index s) (trace s ++ evs).

Definition is_log (ev : event) : Prop :=
  match ev with Log _ _ => True | _ => False end.

(** Events of the auxiliary refresh before its commit: log lines and API
    calls. *)
Definition quiet (ev : event) : Prop :=
  match ev with Log _ _ | ApiGet _ _ _ => True | _ => False end.

(** The URLs probed with a header request, in order. *)
Definition probes (t : list event) : list string :=
  flat_map (fun ev => match ev with Head url _ => [url] | _ => [] end) t.

(** The (domain, category) pairs asked from the API, in order. *)
Definition api_calls (t : list event) : list (string * string) :=
  flat_map (fun ev => match ev with
                      | ApiGet domain category _ => [(domain, category)]
                      | _ => []
                      end) t.

(** The metadata handed to [add_to_catalog], in order. *)
Definition records (t : list event) : list dict :=
  flat_map (fun ev => match ev with AddToCatalog md _ => [md] | _ => [] end) t.

(** The metadata of the commits that went through, in order. *)
Definition committed (t : list event) : list dict :=
  flat_map (fun ev => match ev with
                      | AddToCatalog md (Ok _) => [md]
                      | _ => []
                      end) t.

(** The URLs given to [files.download], in order. *)
Definition downloads (t : list event) : list string :=
  flat_map (fun ev => match ev with Download url _ => [url] | _ => [] end) t.

(** The namespaces whose index partition was scanned, in order. *)
Definition scans (t : list event) : list string :=
  flat_map (fun ev => match ev with IterDocs ns _ => [ns] | _ => [] end) t.

(** Every (domain, category) pair, in the order of the two loops of
    [_fetch_additional_metadata]. *)
Definition all_pairs (domains : list string) : list (string * string) :=
  flat_map (fun domain => map (pair domain) CATEGORIES) domains.

Definition fetching_log (domain : string) : event :=
  Log "INFO" ("Fetching additional metadata for domain " +:+ domain +:+ ".").

(** ** Runs of the loop body and of [main] *)

(** The descriptor passes the filter of the loop. *)
Definition listed (d : descriptor) : Prop :=
  lower (DatasetCode d) ∈ INCLUDED_DATASETS_CODES.

#[global] Instance listed_dec d : Decision (listed d).
Proof. unfold listed. apply _. Defined.

(** What one turn of the loop of [main] can do, case by case. *)
Inductive body_run (w : world) (any : bool) (d : descriptor) (s : state)
  : result bool -> state -> Prop :=
| body_unlisted :
    ~ listed d ->
    body_run w any d s (Ok any) s
| body_probe_fails e :
    listed d ->
    head_response w (trace s) (FileLocation d) = Raise e ->
    body_run w any d s (Raise e) (after s [Head (FileLocation d) (Raise e)])
| body_no_modification_date hs e :
    listed d ->
    head_response w (trace s) (FileLocation d) = Ok hs ->
    modification_date w (mkFAODataset d hs) = Raise e ->
    body_run w any d s (Raise e) (after s [Head (FileLocation d) (Ok hs)])
| body_scan_fails hs mdate e s2 :
    listed d ->
    head_response w (trace s) (FileLocation d) = Ok hs ->
    modification_date w (mkFAODataset d hs) = Ok mdate ->
    is_dataset_already_up_to_date (FileLocation d) mdate
      (after s [Head (FileLocation d) (Ok hs)]) = (Raise e, s2) ->
    body_run w any d s (Raise e) s2
| body_up_to_date hs mdate s2 :
    listed d ->
    head_response w (trace s) (FileLocation d) = Ok hs ->
    modification_date w (mkFAODataset d hs) = Ok mdate ->
    is_dataset_already_up_to_date (FileLocation d) mdate
      (after s [Head (FileLocation d) (Ok hs)]) = (Ok true, s2) ->
    body_run w any d s (Ok any) s2
| body_download_fails hs mdate s2 e :
    listed d ->
    head_response w (trace s) (FileLocation d) = Ok hs ->
    modification_date w (mkFAODataset d hs) = Ok mdate ->
    is_dataset_already_up_to_date (FileLocation d) mdate
      (after s [Head (FileLocation d) (Ok hs)]) = (Ok false, s2) ->
    download_response w (trace s2) (FileLocation d) = Raise e ->
    body_run w any d s (Raise e) (after s2 [Download (FileLocation d) (Raise e)])
| body_metadata_fails hs mdate s2 e :
    listed d ->
    head_response w (trace s) (FileLocation d) = Ok hs ->
    modification_date w (mkFAODataset d hs) = Ok mdate ->
    is_dataset_already_up_to_date (FileLocation d) mdate
      (after s [Head (FileLocation d) (Ok hs)]) = (Ok false, s2) ->
    download_response w (trace s2) (FileLocation d) = Ok tt ->
    metadata w (mkFAODataset d hs) = Raise e ->
    body_run w any d s (Raise e) (after s2 [Download (FileLocation d) (Ok tt)])
| body_commit hs mdate s2 md rc idx :
    listed d ->
    head_response w (trace s) (FileLocation d) = Ok hs ->
    modification_date w (mkFAODataset d hs) = Ok mdate ->
    is_dataset_already_up_to_date (FileLocation d) mdate
      (after s [Head (FileLocation d) (Ok hs)]) = (Ok false, s2) ->
    download_response w (trace s2) (FileLocation d) = Ok tt ->
    metadata w (mkFAODataset d hs) = Ok md ->
    add_to_catalog_response w (trace s2 ++ [Download (FileLocation d) (Ok tt)])
      md (index s2) = (rc, idx) ->
    body_run w any d s
      (match rc with Ok _ => Ok true | Raise e => Raise e end)
      (mkstate idx (trace s2 ++ [Download (FileLocation d) (Ok tt);
                                 AddToCatalog md rc])).

(** What [main] can do, case by case. *)
Inductive main_run (w : world) (s : state) : result unit -> state -> Prop :=
| main_no_catalog e :
    catalog_response w (trace s) = Raise e ->
    main_run w s (Raise e) (after s [CatalogGet FAO_CATALOG_URL (Raise e)])
| main_loop_raises cat e s1 :
    catalog_response w (trace s) = Ok cat ->
    main_loop w cat false (after s [CatalogGet FAO_CATALOG_URL (Ok cat)])
    = (Raise e, s1) ->
    main_run w s (Raise e) s1
| main_nothing_updated cat s1 :
    catalog_response w (trace s) = Ok cat ->
    main_loop w cat false (after s [CatalogGet FAO_CATALOG_URL (Ok cat)])
    = (Ok false, s1) ->
    main_run w s (Ok tt) (after s1 [Log "INFO" NO_NEED])
| main_refresh cat s1 r s' :
    catalog_response w (trace s) = Ok cat ->
    main_loop w cat false (after s [CatalogGet FAO_CATALOG_URL (Ok cat)])
    = (Ok true, s1) ->
    FAOAdditionalMetadata_to_walden w
      (mkFAOAdditionalMetadata (clock w (trace s1)) (year (clock w (trace s1))))
      s1 = (r, s') ->
    main_run w s r s'.

(** ** Downloads and commits under guard *)

(** What stands before a download or a commit in a run of the FAOSTAT
    script.  A download of [url] comes right after a header request for
    [url] and a scan of the index that returned "not up to date" for the
    date in those headers; a commit is that of the auxiliary snapshot, or
    comes right after a download that went through. *)
Definition guarded (w : world) (pre : list event) (ev : event) : Prop :=
  match ev with
  | Download url _ =>
      exists d hs mdate t0 idx,
        listed d /\ FileLocation d = url /\
        modification_date w (mkFAODataset d hs) = Ok mdate /\
        is_dataset_already_up_to_date url mdate
          (mkstate idx (t0 ++ [Head url (Ok hs)]))
        = (Ok false, mkstate idx pre)
  | AddToCatalog md _ =>
      (exists am, md = create_metadata w am) \/
      (exists pre' url, pre = pre' ++ [Download url (Ok tt)])
  | _ => True
  end.

Definition all_guarded (w : world) (t : list event) : Prop :=
  forall pre ev post, t = pre ++ ev :: post -> guarded w pre ev.

(** Events that need no guard. *)
Definition inert (ev : event) : Prop :=
  match ev with Download _ _ | AddToCatalog _ _ => False | _ => True end.

(** ** Deciding equalities by computation *)

#[global] Instance exn_eq_dec : EqDecision exn.
Proof. solve_decision. Defined.
#[global] Instance result_eq_dec {A} `{EqDecision A} : EqDecision (result A).
Proof. solve_decision. Defined.
#[global] Instance datetime_eq_dec : EqDecision datetime.
Proof. solve_decision. Defined.
#[global] Instance descriptor_eq_dec : EqDecision descriptor.
Proof. solve_decision. Defined.
#[global] Instance event_eq_dec : EqDecision event.
Proof. solve_decision. Defined.
#[global] Instance state_eq_dec : EqDecision state.
Proof. solve_decision. Defined.
#[global] Instance FAODataset_eq_dec : EqDecision FAODataset.
Proof. solve_decision. Defined.

(** Closes a goal that a decision procedure evaluates to true. *)
Ltac by_computation := apply (bool_decide_unpack _); vm_compute; exact I.

(** ** The events of one turn of the loop *)

(** The events that one turn of the loop of [main] adds to the trace, with
    the result of the turn. *)
Inductive turn_events (w : world) (any : bool) (d : descriptor)
  : result bool -> list event -> Prop :=
| turn_unlisted :
    ~ listed d ->
    turn_events w any d (Ok any) []
| turn_probe_fails e :
    listed d ->
    turn_events w any d (Raise e) [Head (FileLocation d) (Raise e)]
| turn_no_modification_date hs e :
    listed d ->
    turn_events w any d (Raise e) [Head (FileLocation d) (Ok hs)]
| turn_scan_fails hs docs logs e :
    listed d -> Forall is_log logs ->
    turn_events w any d (Raise e)
      (Head (FileLocation d) (Ok hs) :: IterDocs NAMESPACE docs :: logs)
| turn_up_to_date hs docs logs :
    listed d -> Forall is_log logs ->
    turn_events w any d (Ok any)
      (Head (FileLocation d) (Ok hs) :: IterDocs NAMESPACE docs :: logs)
| turn_download_fails hs docs e :
    listed d ->
    turn_events w any d (Raise e)
      [Head (FileLocation d) (Ok hs); IterDocs NAMESPACE docs;
       Download (FileLocation d) (Raise e)]
| turn_metadata_fails hs docs e :
    listed d ->
    turn_events w any d (Raise e)
      [Head (FileLocation d) (Ok hs); IterDocs NAMESPACE docs;
       Download (FileLocation d) (Ok tt)]
| turn_commit hs docs md rc :
    listed d ->
    metadata w (mkFAODataset d hs) = Ok md ->
    turn_events w any d
      (match rc with Ok _ => Ok true | Raise e => Raise e end)
      [Head (FileLocation d) (Ok hs); IterDocs NAMESPACE docs;
       Download (FileLocation d) (Ok tt); AddToCatalog md rc].

(** A record that carries the version tag of the run, also as its date of
    access. *)
Definition versioned (w : world) (md : dict) : Prop :=
  md !! "version" = Some (VStr (VERSION w)) /\
  md !! "date_accessed" = Some (VStr (VERSION w)).

(** The record of a primary dataset: the metadata of an enabled entry of
    the catalog. *)
Definition primary (w : world) (md : dict) : Prop :=
  exists d hs, listed d /\ metadata w (mkFAODataset d hs) = Ok md.

(** What holds of the trace after the loop of [main] has gone through the
    descriptors [done], with the flag [any]. *)
Definition loop_invariant (w : world) (done : list descriptor) (any : bool)
    (s : state) : Prop :=
  probes (trace s) = map FileLocation (filter listed done) /\
  scans (trace s) = map (fun _ => NAMESPACE) (filter listed done) /\
  downloads (trace s) `sublist_of` probes (trace s) /\
  api_calls (trace s) = [] /\
  (any = true <-> committed (trace s) <> []) /\
  Forall (primary w) (records (trace s)) /\
  all_guarded w (trace s).

(** What holds of the trace when a turn of the loop has raised, [done]
    ending with the descriptor of that turn. *)
Definition abort_invariant (w : world) (done : list descriptor) (s : state)
  : Prop :=
  probes (trace s) = map FileLocation (filter listed done) /\
  downloads (trace s) `sublist_of` probes (trace s) /\
  api_calls (trace s) = [] /\
  Forall (primary w) (records (trace s)) /\
  all_guarded w (trace s).
(** * Sample worlds *)

(** A reader for the [Last-Modified] header as web servers send it,
    [Wdy, DD Mon YYYY HH:MM:SS GMT], one of the many forms that
    [dateutil.parser.parse] accepts; used as [parser_parse] in the sample
    worlds below. *)
Definition month_of_abbrev (s : string) : option Z :=
  list_find (String.eqb s)
    ["Jan"; "Feb"; "Mar"; "Apr"; "May"; "Jun";
     "Jul"; "Aug"; "Sep"; "Oct"; "Nov"; "Dec"]
  ≫= fun p => Some (Z.of_nat (fst p) + 1).

Definition parse_http_date (s : string) : option datetime :=
  match s with
  | String _ (String _ (String _ (String "," (String " "
      (String d1 (String d2 (String " "
        (String m1 (String m2 (String m3 (String " "
          (String y1 (String y2 (String y3 (String y4 (String " " r))))))))))))))))
    =>
      if is_digit d1 && is_digit d2 && is_digit y1 && is_digit y2 &&
         is_digit y3 && is_digit y4 then
        match month_of_abbrev (String m1 (String m2 (String m3 ""))),
              parse_hh_mm_ss_ff (String.substring 0 8 r) with
        | Some m, Some (h, mi, sec, us) =>
            match checked_date (1000 * digit_val y1 + 100 * digit_val y2 +
                                10 * digit_val y3 + digit_val y4) m
                               (10 * digit_val d1 + digit_val d2) with
            | Some d => Some (mkdatetime d h mi sec us (Some 0))
            | None => None
            end
        | _, _ => None
        end
      else None
  | _ => None
  end.

Definition d_qcl : descriptor :=
  mkdescriptor "QCL" "Production: Crops and livestock products"
    "Crop and livestock statistics." "2021-03-18"
    "https://fao.example/Production_Crops_Livestock.zip".

Definition d_gt : descriptor :=
  mkdescriptor "GT" "Emissions Totals"
    "Greenhouse gas emissions." "2021-04-15"
    "https://fao.example/Emissions_Totals.zip".

Definition d_rl : descriptor :=
  mkdescriptor "RL" "Inputs: Land Use"
    "Land use statistics." "2021-05-04"
    "https://fao.example/Inputs_LandUse.zip".

Definition sample_headers : headers :=
  {[ "last-modified" := "Tue, 01 Jun 2021 08:15:00 GMT" ]}.

(** A committer that files the record at the end of the partition of its
    namespace. *)
Definition sample_commit (md : dict) (idx : walden_index) : walden_index :=
  match md !! "namespace", md !! "short_name" with
  | Some (VStr ns), Some (VStr name) =>
      <[ns := default [] (idx !! ns) ++ [(name +:+ ".json", md)]]> idx
  | _, _ => idx
  end.

Definition sample_notes : list string :=
  [ "This table classifies all World Bank member countries.";
    "Income classifications set on 1 July 2021 remain in effect until 1 July 2022." ].

(** Everything answers: an empty index, a catalog of three entries of
    which [GT] is not enabled, files last modified on 1 June 2021, a run on
    2 June 2021. *)
Definition calm_world : world :=
  {| initial_index := ∅;
     clock := fun _ => mkdate 2021 6 2;
     catalog_response := fun _ => Ok [d_qcl; d_gt; d_rl];
     head_response := fun _ _ => Ok sample_headers;
     download_response := fun _ _ => Ok tt;
     add_to_catalog_response := fun _ md idx => (Ok tt, sample_commit md idx);
     api_response := fun _ _ _ => Ok (Some "[]");
     read_excel_response := fun _ _ _ => Ok sample_notes;
     parser_parse := parse_http_date;
     normalize_NFKD := fun s => s |}.

Definition with_head_response (w : world)
    (h : list event -> string -> result headers) : world :=
  {| initial_index := initial_index w;
     clock := clock w;
     catalog_response := catalog_response w;
     head_response := h;
     download_response := download_response w;
     add_to_catalog_response := add_to_catalog_response w;
     api_response := api_response w;
     read_excel_response := read_excel_response w;
     parser_parse := parser_parse w;
     normalize_NFKD := normalize_NFKD w |}.

Definition with_initial_index (w : world) (idx : walden_index) : world :=
  {| initial_index := idx;
     clock := clock w;
     catalog_response := catalog_response w;
     head_response := head_response w;
     download_response := download_response w;
     add_to_catalog_response := add_to_catalog_response w;
     api_response := api_response w;
     read_excel_response := read_excel_response w;
     parser_parse := parser_parse w;
     normalize_NFKD := normalize_NFKD w |}.

Definition with_notes (w : world) (notes : list string) : world :=
  {| initial_index := initial_index w;
     clock := clock w;
     catalog_response := catalog_response w;
     head_response := head_response w;
     download_response := download_response w;
     add_to_catalog_response := add_to_catalog_response w;
     api_response := api_response w;
     read_excel_response := fun _ _ _ => Ok notes;
     parser_parse := parser_parse w;
     normalize_NFKD := normalize_NFKD w |}.

Definition connection_error : exn := RequestException "ConnectionError".

(** The server of the first enabled dataset cannot be reached. *)
Definition unreachable_world : world :=
  with_head_response calm_world (fun _ url =>
    if String.eqb url (FileLocation d_qcl) then Raise connection_error
    else Ok sample_headers).

(** The server of the last enabled dataset cannot be reached. *)
Definition late_failure_world : world :=
  with_head_response calm_world (fun _ url =>
    if String.eqb url (FileLocation d_rl) then Raise connection_error
    else Ok sample_headers).

(** The server of the first enabled dataset sends no [Last-Modified]. *)
Definition headerless_world : world :=
  with_head_response calm_world (fun _ url =>
    if String.eqb url (FileLocation d_qcl) then Ok ∅ else Ok sample_headers).

(** The index after a first run of [main] in the calm world. *)
Definition index_after_first_run : walden_index :=
  index (snd (main calm_world (initial calm_world))).

(** A partition with two records of one source, the first with a date that
    is no date. *)
Definition doc_malformed : dict :=
  list_to_map [ ("source_data_url", VStr (FileLocation d_qcl));
                ("date_accessed", VStr "2021-13-45") ].

Definition doc_malformed_rl : dict :=
  list_to_map [ ("source_data_url", VStr (FileLocation d_rl));
                ("date_accessed", VStr "2021-13-45") ].

Definition doc_fresh : dict :=
  list_to_map [ ("source_data_url", VStr (FileLocation d_qcl));
                ("date_accessed", VStr "2021-06-02") ].

Definition doc_same_day : dict :=
  list_to_map [ ("source_data_url", VStr (FileLocation d_qcl));
                ("date_accessed", VStr "2021-06-01") ].

Definition state_with (docs : list (string * dict)) : state :=
  mkstate {[ NAMESPACE := docs ]} [].

Definition with_api_response (w : world)
    (a : list event -> string -> string -> result (option string)) : world :=
  {| initial_index := initial_index w;
     clock := clock w;
     catalog_response := catalog_response w;
     head_response := head_response w;
     download_response := download_response w;
     add_to_catalog_response := add_to_catalog_response w;
     api_response := a;
     read_excel_response := read_excel_response w;
     parser_parse := parser_parse w;
     normalize_NFKD := normalize_NFKD w |}.

(** The API has no [itemsgroup] list for any domain. *)
Definition patchy_api_world : world :=
  with_api_response calm_world (fun _ domain category =>
    if String.eqb category "itemsgroup" then Ok None
    else Ok (Some ("[" +:+ domain +:+ "]"))).

(** The API cannot be reached for the areas of the third domain. *)
Definition failing_api_world : world :=
  with_api_response calm_world (fun _ domain category =>
    if String.eqb domain "ef" && String.eqb category "area"
    then Raise connection_error
    else Ok (Some "[]")).

Definition with_catalog_response (w : world)
    (c : list event -> result (list descriptor)) : world :=
  {| initial_index := initial_index w;
     clock := clock w;
     catalog_response := c;
     head_response := head_response w;
     download_response := download_response w;
     add_to_catalog_response := add_to_catalog_response w;
     api_response := api_response w;
     read_excel_response := read_excel_response w;
     parser_parse := parser_parse w;
     normalize_NFKD := normalize_NFKD w |}.

(** The catalog lists no enabled dataset. *)
Definition foreign_catalog_world : world :=
  with_catalog_response calm_world (fun _ => Ok [d_gt; d_gt]).

(** ** Computations that keep the index *)


(** * Properties *)

(** ** The parsers on sample strings *)

Example strptime_ymd_iso : strptime_ymd "2021-06-02" = Some (mkdate 2021 6 2).
Proof. reflexivity. Qed.
Example strptime_ymd_short : strptime_ymd "2021-6-2" = Some (mkdate 2021 6 2).
Proof. reflexivity. Qed.
Example strptime_ymd_bad_month : strptime_ymd "2021-13-45" = None.
Proof. reflexivity. Qed.
Example strptime_ymd_feb30 : strptime_ymd "2021-02-30" = None.
Proof. reflexivity. Qed.
Example strptime_ymd_trailing : strptime_ymd "2021-06-02T00:00:00" = None.
Proof. reflexivity. Qed.
Example date_str_example : date_str (mkdate 2021 6 2) = "2021-06-02".
Proof. reflexivity. Qed.
Example fromisoformat_date_only :
  dt_date <$> fromisoformat "2021-03-18" = Some (mkdate 2021 3 18).
Proof. reflexivity. Qed.
Example fromisoformat_with_time :
  fromisoformat "2021-03-18T09:30:00+01:00"
  = Some (mkdatetime (mkdate 2021 3 18) 9 30 0 0 (Some 3600000000)).
Proof. reflexivity. Qed.
Example fromisoformat_free_text : fromisoformat "June 1, 2021" = None.
Proof. reflexivity. Qed.
Example fromisoformat_free_text' : fromisoformat "1 June 2021" = None.
Proof. reflexivity. Qed.
Example parse_http_date_example :
  dt_date <$> parse_http_date "Tue, 01 Jun 2021 08:15:00 GMT"
  = Some (mkdate 2021 6 1).
Proof. reflexivity. Qed.

Example lower_example : lower "QCL" = "qcl".
Proof. reflexivity. Qed.
Example contains_example :
  contains "b c" "a b c d" = true /\ contains "x" "a b c d" = false.
Proof. split; reflexivity. Qed.
Example join_example : wb_income_groups.join ", " ["a"; "b"; "c"] = "a, b, c".
Proof. reflexivity. Qed.
Example listed_example : listed d_qcl /\ ~ listed d_gt.
Proof. split; by_computation. Qed.

(** ** The freshness check *)

Lemma date_gt_later (a b : date) : date_gt a b = true <-> later a b.
Proof.
  unfold date_gt, later.
  rewrite orb_true_iff, andb_true_iff, orb_true_iff, andb_true_iff.
  rewrite !Z.ltb_lt, !Z.eqb_eq. tauto.
Qed.

Lemma later_irrefl (a : date) : ~ later a a.
Proof. unfold later. lia. Qed.

Lemma fresh_forb_spec url m doc : fresh_forb url m doc = true <-> fresh_for url m doc.
Proof.
  unfold fresh_forb, fresh_for.
  rewrite andb_true_iff, bool_decide_eq_true.
  destruct (date_accessed_of doc) as [d|].
  - rewrite date_gt_later. split.
    + intros [H1 H2]. eauto.
    + intros [H1 (d' & Hd & Hl)]. inversion Hd; subst. auto.
  - split; [intros [_ H]; discriminate | intros [_ (d & Hd & _)]; discriminate].
Qed.

Lemma fresh_forb_dated url m doc d :
  date_accessed_of doc = Some d ->
  bool_decide (doc !! "source_data_url" = Some (VStr url)) && date_gt d m
  = fresh_forb url m doc.
Proof. intros Hd. unfold fresh_forb. rewrite Hd. reflexivity. Qed.

Lemma strptime_date_Some doc d :
  date_accessed_of doc = Some d ->
  strptime_date (doc !! "date_accessed") = Ok d.
Proof.
  unfold date_accessed_of, strptime_date.
  destruct (doc !! "date_accessed") as [[s|n|x]|]; try discriminate.
  intros ->. reflexivity.
Qed.

Lemma strptime_date_None doc :
  date_accessed_of doc = None ->
  strptime_date (doc !! "date_accessed") = Raise (malformed_error doc).
Proof.
  unfold date_accessed_of, strptime_date, malformed_error.
  destruct (doc !! "date_accessed") as [[s|n|x]|]; try reflexivity.
  intros ->. reflexivity.
Qed.

Lemma scan_logs_cons url m fd docs :
  scan_logs url m (fd :: docs)
  = (if fresh_forb url m (snd fd) then [up_to_date_log (fst fd)] else [])
    ++ scan_logs url m docs.
Proof.
  unfold scan_logs. simpl. destruct (fresh_forb url m (snd fd)); reflexivity.
Qed.

(** On documents that all carry a date, the scan returns: the flag is
    raised as soon as one document is fresh for the candidate. *)
Lemma scan_index_ok url m docs :
  Forall (fun fd => is_Some (date_accessed_of (snd fd))) docs ->
  forall flag s,
    scan_index url m docs flag s
    = (Ok (flag || existsb (fun fd => fresh_forb url m (snd fd)) docs),
       mkstate (index s) (trace s ++ scan_logs url m docs)).
Proof.
  induction 1 as [|[f doc] docs [d Hd] _ IH]; intros flag s.
  - simpl. unfold ret, scan_logs. simpl.
    rewrite orb_false_r, app_nil_r. destruct s; reflexivity.
  - simpl in Hd. cbn [scan_index]. unfold bind at 1, lift.
    rewrite (strptime_date_Some _ _ Hd).
    rewrite scan_logs_cons, (fresh_forb_dated _ _ _ _ Hd). cbn [existsb fst snd].
    destruct (fresh_forb url m doc).
    + unfold bind, log, emit. rewrite IH. cbn [index trace].
      rewrite orb_true_r, <- app_assoc. reflexivity.
    + rewrite IH. rewrite app_nil_l, orb_false_l. reflexivity.
Qed.

(** The scan stops at the first document without a date: the exception
    leaves the function, whatever the flag and whatever comes after. *)
Lemma scan_index_raise url m pre f doc post :
  Forall (fun fd => is_Some (date_accessed_of (snd fd))) pre ->
  date_accessed_of doc = None ->
  forall flag s,
    scan_index url m (pre ++ (f, doc) :: post) flag s
    = (Raise (malformed_error doc),
       mkstate (index s) (trace s ++ scan_logs url m pre)).
Proof.
  intros Hpre Hdoc. induction Hpre as [|[f' doc'] pre [d Hd] _ IH]; intros flag s.
  - simpl. unfold bind, lift. rewrite (strptime_date_None _ Hdoc).
    unfold scan_logs. simpl. rewrite app_nil_r. destruct s; reflexivity.
  - simpl in Hd. rewrite <- app_comm_cons. cbn [scan_index]. unfold bind at 1, lift.
    rewrite (strptime_date_Some _ _ Hd).
    rewrite scan_logs_cons, (fresh_forb_dated _ _ _ _ Hd). cbn [fst snd].
    destruct (fresh_forb url m doc').
    + unfold bind, log, emit. rewrite IH. cbn [index trace].
      rewrite <- app_assoc. reflexivity.
    + rewrite IH. reflexivity.
Qed.

(** ** Runs of the loop body *)

Lemma main_body_run w any d s r s' :
  main_body w any d s = (r, s') -> body_run w any d s r s'.
Proof.
  unfold main_body. case_bool_decide as Hl.
  2: { unfold ret. intros [= <- <-]. by constructor. }
  unfold bind at 1, FAODataset_init, bind at 1, _load_dataset_server_metadata,
    call, source_data_url, ret. cbn [_dataset_metadata index trace].
  destruct (head_response w (trace s) (FileLocation d)) as [hs|e] eqn:Hh.
  2: { intros [= <- <-]. by constructor. }
  unfold bind at 1, lift.
  destruct (modification_date w (mkFAODataset d hs)) as [mdate|e] eqn:Hm.
  2: { intros [= <- <-]. by eapply body_no_modification_date. }
  unfold bind at 1. fold (after s [Head (FileLocation d) (Ok hs)]).
  destruct (is_dataset_already_up_to_date _ _ _) as [[[|]|e] s2] eqn:Ho.
  - intros [= <- <-]. by eapply body_up_to_date.
  - unfold bind at 1, to_walden, bind at 1, files_download, call, source_data_url.
    cbn [_dataset_metadata index trace].
    destruct (download_response w (trace s2) (FileLocation d)) as [[]|e] eqn:Hd.
    2: { intros [= <- <-]. by eapply body_download_fails. }
    unfold bind at 1, lift.
    destruct (metadata w (mkFAODataset d hs)) as [md|e] eqn:Hmd.
    2: { intros [= <- <-]. by eapply body_metadata_fails. }
    unfold add_to_catalog. cbn [index trace].
    destruct (add_to_catalog_response w _ md (index s2)) as [rc idx] eqn:Hc.
    rewrite <- app_assoc. cbn [app].
    destruct rc as [[]|e]; intros [= <- <-].
    + by eapply (body_commit _ _ _ _ hs mdate s2 md (Ok tt) idx).
    + by eapply (body_commit _ _ _ _ hs mdate s2 md (Raise e) idx).
  - intros [= <- <-]. by eapply body_scan_fails.
Qed.

(** ** Traces, the scan, and the loop of [main] *)

Lemma probes_app t1 t2 : probes (t1 ++ t2) = probes t1 ++ probes t2.
Proof. apply flat_map_app. Qed.

Lemma api_calls_app t1 t2 : api_calls (t1 ++ t2) = api_calls t1 ++ api_calls t2.
Proof. apply flat_map_app. Qed.

Lemma committed_app t1 t2 : committed (t1 ++ t2) = committed t1 ++ committed t2.
Proof. apply flat_map_app. Qed.

Lemma records_app t1 t2 : records (t1 ++ t2) = records t1 ++ records t2.
Proof. apply flat_map_app. Qed.

Lemma downloads_app t1 t2 : downloads (t1 ++ t2) = downloads t1 ++ downloads t2.
Proof. apply flat_map_app. Qed.

Lemma scans_app t1 t2 : scans (t1 ++ t2) = scans t1 ++ scans t2.
Proof. apply flat_map_app. Qed.

Lemma logs_silent (evs : list event) :
  Forall is_log evs ->
  probes evs = [] /\ api_calls evs = [] /\ committed evs = [] /\
  records evs = [] /\ downloads evs = [] /\ scans evs = [].
Proof.
  induction 1 as [|ev evs Hev _ IH]; [done|].
  destruct ev; try done; exact IH.
Qed.

Lemma scan_index_run url m docs :
  forall flag s, exists r logs,
    scan_index url m docs flag s = (r, after s logs) /\
    Forall is_log logs /\
    (r = Ok false -> flag = false /\ logs = []).
Proof.
  induction docs as [|[f doc] docs IH]; intros flag s.
  - exists (Ok flag), []. unfold after. rewrite app_nil_r. destruct s.
    split_and!; [done | by apply Forall_nil | by intros [= ->]].
  - cbn [scan_index]. unfold bind at 1, lift.
    destruct (strptime_date (doc !! "date_accessed")) as [d|e].
    2: { exists (Raise e), []. unfold after. rewrite app_nil_r. destruct s.
         split_and!; [done | by apply Forall_nil | done]. }
    destruct (bool_decide _ && date_gt d m).
    + unfold bind, log, emit.
      destruct (IH true (after s [up_to_date_log f])) as (r & logs & Hr & Hlogs & Hf).
      exists r, (up_to_date_log f :: logs). unfold up_to_date_log, after in *.
      cbn [index trace] in *. rewrite Hr, <- app_assoc.
      split_and!; [done | by apply Forall_cons | intros ->; by destruct Hf].
    + apply IH.
Qed.

Lemma oracle_run url m s :
  exists r logs,
    is_dataset_already_up_to_date url m s
    = (r, after s (IterDocs NAMESPACE (default [] (index s !! NAMESPACE)) :: logs)) /\
    Forall is_log logs /\
    (r = Ok false -> logs = []).
Proof.
  unfold is_dataset_already_up_to_date, bind, iter_docs.
  set (docs := default [] (index s !! NAMESPACE)).
  destruct (scan_index_run url m docs false (after s [IterDocs NAMESPACE docs]))
    as (r & logs & Hr & Hlogs & Hf).
  exists r, logs. unfold after in *. cbn [index trace] in *.
  rewrite Hr, <- app_assoc. split_and!; [done | done |]. intros ->. by destruct Hf.
Qed.

Lemma oracle_ok url m s :
  let docs := default [] (index s !! NAMESPACE) in
  Forall (fun fd => is_Some (date_accessed_of (snd fd))) docs ->
  is_dataset_already_up_to_date url m s
  = (Ok (existsb (fun fd => fresh_forb url m (snd fd)) docs),
     after s (IterDocs NAMESPACE docs :: scan_logs url m docs)).
Proof.
  intros docs Hwf. unfold is_dataset_already_up_to_date, bind, iter_docs.
  fold docs. rewrite (scan_index_ok _ _ _ Hwf). unfold after. cbn [index trace].
  rewrite <- app_assoc. reflexivity.
Qed.

Lemma oracle_raise url m s pre f doc post :
  default [] (index s !! NAMESPACE) = pre ++ (f, doc) :: post ->
  Forall (fun fd => is_Some (date_accessed_of (snd fd))) pre ->
  date_accessed_of doc = None ->
  is_dataset_already_up_to_date url m s
  = (Raise (malformed_error doc),
     after s (IterDocs NAMESPACE (pre ++ (f, doc) :: post) :: scan_logs url m pre)).
Proof.
  intros Hdocs Hpre Hdoc. unfold is_dataset_already_up_to_date, bind, iter_docs.
  rewrite Hdocs, (scan_index_raise _ _ _ _ _ _ Hpre Hdoc). unfold after.
  cbn [index trace]. rewrite <- app_assoc. reflexivity.
Qed.

Lemma main_loop_app w pre post any s :
  main_loop w (pre ++ post) any s
  = match main_loop w pre any s with
    | (Ok any', s') => main_loop w post any' s'
    | (Raise e, s') => (Raise e, s')
    end.
Proof.
  revert any s. induction pre as [|d pre IH]; intros any s; [done|].
  cbn [app main_loop]. unfold bind.
  destruct (main_body w any d s) as [[any'|e] s1]; [apply IH | done].
Qed.

(** Induction over the turns of the loop: [P done any s] holds after the
    descriptors [done] have been gone through, [Q done s] at a turn that
    raised, [done] ending with the descriptor of that turn. *)
Lemma main_loop_ind w (P : list descriptor -> bool -> state -> Prop)
    (Q : list descriptor -> state -> Prop) :
  (forall done any d s any' s',
      P done any s -> body_run w any d s (Ok any') s' -> P (done ++ [d]) any' s') ->
  (forall done any d s e s',
      P done any s -> body_run w any d s (Raise e) s' -> Q (done ++ [d]) s') ->
  forall cat done any s r s',
    P done any s -> main_loop w cat any s = (r, s') ->
    match r with
    | Ok any' => P (done ++ cat) any' s'
    | Raise _ => exists pre d post, cat = pre ++ d :: post /\ Q (done ++ pre ++ [d]) s'
    end.
Proof.
  intros Hok Hraise. induction cat as [|d cat IH]; intros done any s r s' HP Hrun.
  - cbn in Hrun. unfold ret in Hrun. injection Hrun as <- <-. by rewrite app_nil_r.
  - cbn [main_loop] in Hrun. unfold bind in Hrun.
    destruct (main_body w any d s) as [[any1|e] s1] eqn:Hb;
      apply main_body_run in Hb.
    + specialize (IH (done ++ [d]) any1 s1 r s' (Hok _ _ _ _ _ _ HP Hb) Hrun).
      destruct r as [any'|e'].
      * by rewrite <- app_assoc in IH.
      * destruct IH as (pre & d' & post & -> & HQ).
        exists (d :: pre), d', post. split; [done|].
        by rewrite <- app_assoc in HQ.
    + injection Hrun as <- <-. exists [], d, cat. split; [done|].
      eapply Hraise; eauto.
Qed.

(** ** The auxiliary refresh and [main] *)

Lemma quiet_silent (evs : list event) :
  Forall quiet evs ->
  probes evs = [] /\ committed evs = [] /\ records evs = [] /\
  downloads evs = [] /\ scans evs = [].
Proof.
  induction 1 as [|ev evs Hev _ IH]; [done|].
  destruct ev; try done; exact IH.
Qed.

Lemma fetch_categories_run w domain categories :
  forall domain_meta s, exists r evs,
    fetch_categories w domain categories domain_meta s = (r, after s evs) /\
    Forall quiet evs /\
    (forall m, r = Ok m -> api_calls evs = map (pair domain) categories) /\
    match categories with
    | c :: _ => exists x rest, evs = ApiGet domain c x :: rest
    | [] => evs = []
    end.
Proof.
  induction categories as [|c cs IH]; intros dm s.
  - exists (Ok dm), []. unfold after. rewrite app_nil_r. destruct s.
    split_and!; [done | by apply Forall_nil | done | done].
  - cbn [fetch_categories]. unfold bind, call. cbn [index trace].
    set (x := api_response w (trace s) domain c).
    fold (after s [ApiGet domain c x]).
    destruct x as [[json|]|e] eqn:Hx.
    + destruct (IH (<[c:=json]> dm) (after s [ApiGet domain c (Ok (Some json))]))
        as (r & evs & Hr & Hq & Hok & _).
      exists r, (ApiGet domain c (Ok (Some json)) :: evs).
      rewrite Hr. unfold after. cbn [index trace]. rewrite <- app_assoc.
      split_and!; [done | by apply Forall_cons | | by eauto].
      intros m Hm. cbn. f_equal. eauto.
    + destruct (IH dm (after s [ApiGet domain c (Ok None)]))
        as (r & evs & Hr & Hq & Hok & _).
      exists r, (ApiGet domain c (Ok None) :: evs).
      rewrite Hr. unfold after. cbn [index trace]. rewrite <- app_assoc.
      split_and!; [done | by apply Forall_cons | | by eauto].
      intros m Hm. cbn. f_equal. eauto.
    + exists (Raise e), [ApiGet domain c (Raise e)].
      split_and!; [done | by repeat constructor | done | by eauto].
Qed.

Lemma fetch_domains_run w domains :
  forall metadata_combined s, exists r evs,
    fetch_domains w domains metadata_combined s = (r, after s evs) /\
    Forall quiet evs /\
    (forall m, r = Ok m -> api_calls evs = all_pairs domains) /\
    match domains with
    | d :: _ => exists x rest,
        evs = fetching_log d :: ApiGet d "itemgroup" x :: rest
    | [] => evs = []
    end.
Proof.
  induction domains as [|d ds IH]; intros mc s.
  - exists (Ok mc), []. unfold after. rewrite app_nil_r. destruct s.
    split_and!; [done | by apply Forall_nil | done | done].
  - cbn [fetch_domains]. unfold bind at 1, log, emit.
    fold (fetching_log d). fold (after s [fetching_log d]).
    unfold bind at 1.
    destruct (fetch_categories_run w d CATEGORIES ∅ (after s [fetching_log d]))
      as (r1 & evs1 & Hr1 & Hq1 & Hok1 & (x & rest & Hhd)).
    rewrite Hr1. destruct r1 as [dm|e].
    + destruct (IH (<[d:=dm]> mc) (after (after s [fetching_log d]) evs1))
        as (r & evs & Hr & Hq & Hok & _).
      exists r, (fetching_log d :: evs1 ++ evs).
      rewrite Hr. unfold after. cbn [index trace]. rewrite <- !app_assoc.
      split_and!; [done | | | ].
      * apply Forall_cons. split; [done|]. by apply Forall_app.
      * intros m Hm. cbn [api_calls flat_map fetching_log app].
        fold (api_calls (evs1 ++ evs)). rewrite api_calls_app.
        unfold all_pairs. cbn [flat_map]. f_equal; eauto.
      * exists x, (rest ++ evs). by rewrite Hhd.
    + exists (Raise e), (fetching_log d :: evs1).
      unfold after. cbn [index trace]. rewrite <- !app_assoc.
      split_and!; [done | by apply Forall_cons | done |].
      exists x, rest. by rewrite Hhd.
Qed.

(** What the refresh does: the API is asked, beginning with the first
    domain and category, and when every call has returned the snapshot is
    handed to [add_to_catalog]. *)
Lemma refresh_run w am s r s' :
  FAOAdditionalMetadata_to_walden w am s = (r, s') ->
  exists qs tail x rest,
    trace s' = trace s ++ qs ++ tail /\
    Forall quiet qs /\
    qs = fetching_log "ae" :: ApiGet "ae" "itemgroup" x :: rest /\
    (tail = [] \/ exists rc, tail = [AddToCatalog (create_metadata w am) rc]) /\
    (r = Ok tt ->
       api_calls qs = all_pairs INCLUDED_DATASETS_CODES /\
       tail = [AddToCatalog (create_metadata w am) (Ok tt)]).
Proof.
  unfold FAOAdditionalMetadata_to_walden, bind, _fetch_additional_metadata.
  destruct (fetch_domains_run w INCLUDED_DATASETS_CODES ∅ s)
    as (r1 & evs1 & Hr1 & Hq1 & Hok1 & (x & rest & Hhd)).
  rewrite Hr1. destruct r1 as [mc|e].
  - unfold add_to_catalog. cbn [index trace after].
    destruct (add_to_catalog_response w _ _ _) as [rc idx].
    intros [= <- <-]. cbn [trace].
    exists evs1, [AddToCatalog (create_metadata w am) rc], x, rest.
    rewrite <- app_assoc.
    split_and!; [done | done | done | by right; exists rc |].
    intros ->. split; [by eapply Hok1 | done].
  - intros [= <- <-]. exists evs1, [], x, rest. rewrite app_nil_r.
    split_and!; [done | done | done | by left | done].
Qed.

Lemma main_main_run w s r s' : main w s = (r, s') -> main_run w s r s'.
Proof.
  unfold main, bind at 1, load_faostat_catalog, call.
  fold (after s [CatalogGet FAO_CATALOG_URL (catalog_response w (trace s))]).
  destruct (catalog_response w (trace s)) as [cat|e] eqn:Hcat.
  2: { intros [= <- <-]. by constructor. }
  unfold bind at 1.
  destruct (main_loop w cat false _) as [[[|]|e] s1] eqn:Hloop.
  - unfold bind at 1, FAOAdditionalMetadata_init. intros Haux.
    by eapply main_refresh.
  - unfold log, emit. intros [= <- <-].
    by eapply (main_nothing_updated _ _ cat s1).
  - intros [= <- <-]. by eapply main_loop_raises.
Qed.

(** ** Printing a date and reading it back *)

Lemma digit_char_ok (k : Z) :
  0 <= k <= 9 -> is_digit (digit_char k) = true /\ digit_val (digit_char k) = k.
Proof.
  intros Hk.
  assert (k = 0 \/ k = 1 \/ k = 2 \/ k = 3 \/ k = 4 \/ k = 5 \/ k = 6 \/
          k = 7 \/ k = 8 \/ k = 9) as Hcases by lia.
  repeat (destruct Hcases as [-> | Hcases]; [by vm_compute|]). by subst.
Qed.

Lemma is_digit_mod10 (n : Z) : is_digit (digit_char (n mod 10)) = true.
Proof. apply digit_char_ok. pose proof (Z.mod_pos_bound n 10). lia. Qed.

Lemma digit_val_mod10 (n : Z) : digit_val (digit_char (n mod 10)) = n mod 10.
Proof. apply digit_char_ok. pose proof (Z.mod_pos_bound n 10). lia. Qed.

Lemma valid_date_bounds (d : date) :
  valid_date d = true ->
  1 <= year d <= 9999 /\ 1 <= month d <= 12 /\ 1 <= day d <= 31.
Proof.
  unfold valid_date. rewrite !andb_true_iff, !Z.leb_le.
  intros [[[[[? ?] ?] ?] ?] Hd]. split_and!; try done.
  revert Hd. unfold days_in_month.
  repeat match goal with |- context [if ?b then _ else _] => destruct b end; lia.
Qed.

Lemma two_digits_value (n : Z) :
  0 <= n <= 99 -> 10 * (n / 10 mod 10) + n mod 10 = n.
Proof.
  intros Hn.
  rewrite (Z.mod_small (n / 10) 10)
    by (split; [apply Z.div_pos|apply Z.div_lt_upper_bound]; lia).
  pose proof (Z.div_mod n 10). lia.
Qed.

Lemma four_digits_value (y : Z) :
  0 <= y <= 9999 ->
  1000 * (y / 1000 mod 10) + 100 * (y / 100 mod 10) +
  10 * (y / 10 mod 10) + y mod 10 = y.
Proof.
  intros Hy.
  rewrite (Z.mod_small (y / 1000) 10)
    by (split; [apply Z.div_pos|apply Z.div_lt_upper_bound]; lia).
  replace (y / 1000) with (y / 10 / 10 / 10) by (rewrite !Z.div_div by lia; done).
  replace (y / 100) with (y / 10 / 10) by (rewrite !Z.div_div by lia; done).
  pose proof (Z.div_mod y 10). pose proof (Z.mod_pos_bound y 10).
  pose proof (Z.div_mod (y / 10) 10). pose proof (Z.mod_pos_bound (y / 10) 10).
  pose proof (Z.div_mod (y / 10 / 10) 10).
  pose proof (Z.mod_pos_bound (y / 10 / 10) 10).
  lia.
Qed.

Lemma parse_isoformat_date_str (d : date) (rest : string) :
  valid_date d = true ->
  parse_isoformat_date (date_str d +:+ rest) = Some (d, rest).
Proof.
  intros Hv. destruct (valid_date_bounds d Hv) as (Hy & Hm & Hd).
  destruct d as [y m dd]. cbn [year month day] in *.
  unfold date_str, pad4, pad2, parse_isoformat_date, two_digits.
  cbv [year month day String.append].
  repeat (rewrite ?is_digit_mod10, ?digit_val_mod10; cbn [andb]; cbv beta iota).
  by rewrite four_digits_value, !two_digits_value by lia.
Qed.

Lemma fromisoformat_date_str (d : date) :
  valid_date d = true ->
  fromisoformat (date_str d) = Some (mkdatetime d 0 0 0 0 None).
Proof.
  intros Hv. unfold fromisoformat.
  replace (date_str d) with (date_str d +:+ "").
  - by rewrite (parse_isoformat_date_str d "" Hv), Hv.
  - generalize (date_str d). intros s. induction s as [|c s IH]; [done|].
    cbv [String.append]. fold String.append. by rewrite IH.
Qed.

Lemma strptime_month_pad2 (m : Z) (rest : string) :
  1 <= m <= 12 -> strptime_month (pad2 m +:+ String "-" rest) = Some (m, rest).
Proof.
  intros Hm.
  assert (exists n : nat, (n < 12)%nat /\ m = Z.of_nat n + 1) as (n & Hn & ->)
    by (exists (Z.to_nat (m - 1)); lia).
  do 12 (destruct n as [|n]; [by vm_compute|]). lia.
Qed.

Lemma strptime_day_pad2 (d : Z) :
  1 <= d <= 31 -> strptime_day (pad2 d) = Some d.
Proof.
  intros Hd.
  assert (exists n : nat, (n < 31)%nat /\ d = Z.of_nat n + 1) as (n & Hn & ->)
    by (exists (Z.to_nat (d - 1)); lia).
  do 31 (destruct n as [|n]; [by vm_compute|]). lia.
Qed.

Lemma strptime_ymd_date_str (d : date) :
  valid_date d = true -> strptime_ymd (date_str d) = Some d.
Proof.
  intros Hv. destruct (valid_date_bounds d Hv) as (Hy & Hm & Hd).
  destruct d as [y m dd]. cbn [year month day] in *.
  unfold date_str, pad4. cbn [year month day].
  change (strptime_ymd
            (String (digit_char (y / 1000 mod 10))
               (String (digit_char (y / 100 mod 10))
                  (String (digit_char (y / 10 mod 10))
                     (String (digit_char (y mod 10))
                        (String "-" (pad2 m +:+ String "-" (pad2 dd)))))))
          = Some (mkdate y m dd)).
  unfold strptime_ymd.
  rewrite !is_digit_mod10, !digit_val_mod10, strptime_month_pad2,
    strptime_day_pad2 by lia.
  cbn [andb]. unfold checked_date. by rewrite four_digits_value, Hv by lia.
Qed.

(** ** Lower-casing *)

Lemma lower_char_idemp (c : ascii) : lower_char (lower_char c) = lower_char c.
Proof. by destruct c as [[] [] [] [] [] [] [] []]. Qed.

Lemma lower_idemp (s : string) : lower (lower s) = lower s.
Proof.
  induction s as [|c s IH]; [done|].
  cbn [lower]. by rewrite lower_char_idemp, IH.
Qed.

Lemma lower_app (s t : string) : lower (s +:+ t) = lower s +:+ lower t.
Proof.
  induction s as [|c s IH]; [done|].
  cbv [String.append]. fold String.append. cbn [lower].
  rewrite IH. cbv [String.append]. by fold String.append.
Qed.

Lemma FAODataset_init_metadata w d s self s' :
  FAODataset_init w d s = (Ok self, s') -> _dataset_metadata self = d.
Proof.
  unfold FAODataset_init, bind, _load_dataset_server_metadata, call, ret.
  destruct (head_response w (trace s) _); [|done]. by intros [= <- <-].
Qed.

(** ** The events of one turn *)

Lemma body_run_events w any d s r s' :
  body_run w any d s r s' ->
  exists evs, trace s' = trace s ++ evs /\ turn_events w any d r evs.
Proof.
  intros Hrun. inversion Hrun; subst;
    try match goal with
        | H : is_dataset_already_up_to_date ?u ?m ?s1 = (?ro, ?s2) |- _ =>
            destruct (oracle_run u m s1) as (ro' & logs & Ho & Hlogs & Hfalse);
            rewrite Ho in H; injection H as -> <-;
            try (rewrite (Hfalse eq_refl) in *)
        end;
    cbn [after index trace]; rewrite <- ?app_assoc; cbn [app].
  - exists []. rewrite app_nil_r. split; [done|]. by constructor.
  - eexists. split; [done|]. by constructor.
  - eexists. split; [done|]. by eapply turn_no_modification_date.
  - eexists. split; [done|]. by eapply turn_scan_fails.
  - eexists. split; [done|]. by eapply turn_up_to_date.
  - eexists. split; [done|]. by eapply turn_download_fails.
  - eexists. split; [done|]. by eapply turn_metadata_fails.
  - eexists. split; [done|]. by eapply turn_commit.
Qed.

(** ** Version tags *)

Lemma metadata_versioned w self md : metadata w self = Ok md -> versioned w md.
Proof.
  unfold metadata, rbind, versioned.
  destruct (publication_year self) as [y|e]; [|done].
  destruct (publication_date self) as [d|e]; [|done].
  intros [= <-]. generalize (VERSION w). intros v. by split.
Qed.

Lemma create_metadata_versioned w am : versioned w (create_metadata w am).
Proof. unfold versioned, create_metadata. generalize (VERSION w). by split. Qed.

(** ** Guards *)

Lemma all_guarded_nil w : all_guarded w [].
Proof. intros pre ev post H. by destruct pre. Qed.

Lemma all_guarded_snoc w t ev :
  all_guarded w t -> guarded w t ev -> all_guarded w (t ++ [ev]).
Proof.
  intros Ht Hev pre ev' post Heq.
  destruct post as [|x post _] using rev_ind.
  - apply app_inj_tail in Heq as [-> ->]. exact Hev.
  - rewrite app_comm_cons, app_assoc in Heq.
    apply app_inj_tail in Heq as [-> _]. by eapply Ht.
Qed.

Lemma all_guarded_inert w t evs :
  all_guarded w t -> Forall inert evs -> all_guarded w (t ++ evs).
Proof.
  intros Ht Hevs. revert t Ht.
  induction Hevs as [|ev evs Hev _ IH]; intros t Ht.
  - by rewrite app_nil_r.
  - change (ev :: evs) with ([ev] ++ evs). rewrite app_assoc. apply IH.
    apply all_guarded_snoc; [done|]. by destruct ev.
Qed.

Lemma logs_inert (logs : list event) : Forall is_log logs -> Forall inert logs.
Proof. intros H. eapply Forall_impl; [exact H|]. by intros []. Qed.

Lemma body_run_guarded w any d s r s' :
  all_guarded w (trace s) -> body_run w any d s r s' -> all_guarded w (trace s').
Proof.
  intros Hs Hrun.
  assert (forall hs mdate s2 x,
            listed d ->
            modification_date w (mkFAODataset d hs) = Ok mdate ->
            is_dataset_already_up_to_date (FileLocation d) mdate
              (after s [Head (FileLocation d) (Ok hs)]) = (Ok false, s2) ->
            all_guarded w (trace s2) /\
            guarded w (trace s2) (Download (FileLocation d) x)) as Hdl.
  { intros hs mdate s2 x Hl Hm Ho.
    destruct (oracle_run (FileLocation d) mdate (after s [Head (FileLocation d) (Ok hs)]))
      as (ro & logs & Ho' & Hlogs & Hfalse).
    rewrite Ho' in Ho. injection Ho as -> <-. rewrite (Hfalse eq_refl) in *.
    split.
    - cbn [after index trace]. rewrite <- app_assoc.
      apply all_guarded_inert; [done|]. by repeat (apply Forall_cons; split).
    - exists d, hs, mdate, (trace s), (index s). by split_and!. }
  inversion Hrun; subst; try done.
  - apply all_guarded_inert; [done|]. by repeat (apply Forall_cons; split).
  - apply all_guarded_inert; [done|]. by repeat (apply Forall_cons; split).
  - destruct (oracle_run (FileLocation d) mdate (after s [Head (FileLocation d) (Ok hs)]))
      as (ro & logs & Ho' & Hlogs & _).
    rewrite Ho' in H2. injection H2 as -> <-.
    cbn [after index trace]. rewrite <- app_assoc.
    apply all_guarded_inert; [done|].
    apply Forall_cons; split; [done|]. apply Forall_cons; split; [done|].
    by apply logs_inert.
  - destruct (oracle_run (FileLocation d) mdate (after s [Head (FileLocation d) (Ok hs)]))
      as (ro & logs & Ho' & Hlogs & _).
    rewrite Ho' in H2. injection H2 as -> <-.
    cbn [after index trace]. rewrite <- app_assoc.
    apply all_guarded_inert; [done|].
    apply Forall_cons; split; [done|]. apply Forall_cons; split; [done|].
    by apply logs_inert.
  - destruct (Hdl hs mdate s2 (Raise e)) as [Hs2 Hg]; [done..|].
    by apply all_guarded_snoc.
  - destruct (Hdl hs mdate s2 (Ok tt)) as [Hs2 Hg]; [done..|].
    by apply all_guarded_snoc.
  - destruct (Hdl hs mdate s2 (Ok tt)) as [Hs2 Hg]; [done..|].
    cbn [trace].
    change [Download (FileLocation d) (Ok tt); AddToCatalog md rc]
      with ([Download (FileLocation d) (Ok tt)] ++ [AddToCatalog md rc]).
    rewrite app_assoc. apply all_guarded_snoc; [by apply all_guarded_snoc|].
    right. by exists (trace s2), (FileLocation d).
Qed.

(** ** What one turn adds to the trace *)

Lemma turn_events_facts w any d r evs :
  turn_events w any d r evs ->
  probes evs = (if decide (listed d) then [FileLocation d] else []) /\
  downloads evs `sublist_of` probes evs /\
  api_calls evs = [] /\
  Forall (primary w) (records evs) /\
  match r with
  | Ok any' =>
      scans evs = (if decide (listed d) then [NAMESPACE] else []) /\
      (any' = true <-> any = true \/ committed evs <> [])
  | Raise _ => listed d
  end.
Proof.
  intros Hev.
  inversion Hev as [Hl|e Hl|hs e Hl|hs docs logs e Hl Hlogs|hs docs logs Hl Hlogs
                   |hs docs e Hl|hs docs e Hl|hs docs md rc Hl Hmd]; subst;
    try (destruct (logs_silent _ Hlogs) as (Hp & Ha & Hc & Hr & Hd & Hsc));
    try (destruct rc as [[]|?]);
    cbn [probes downloads api_calls records scans committed flat_map app];
    try (fold (probes logs) (downloads logs) (api_calls logs) (records logs)
              (scans logs) (committed logs);
         rewrite ?Hp, ?Ha, ?Hc, ?Hr, ?Hd, ?Hsc);
    destruct (decide (listed d)); try done;
    split_and!; try done;
    try (by apply Forall_nil); try (by apply sublist_nil_l); try tauto;
    try (by apply Forall_singleton; eexists _, _);
    try (by right); try (by split; [right|]).
Qed.

Lemma filter_listed_snoc (done : list descriptor) (d : descriptor) :
  filter listed (done ++ [d])
  = filter listed done ++ (if decide (listed d) then [d] else []).
Proof.
  by rewrite filter_app.
Qed.

Lemma loop_step_ok w done any d s any' s' :
  loop_invariant w done any s ->
  body_run w any d s (Ok any') s' ->
  loop_invariant w (done ++ [d]) any' s'.
Proof.
  intros (Hp & Hsc & Hd & Ha & Hany & Hv & Hg) Hrun.
  pose proof (body_run_guarded _ _ _ _ _ _ Hg Hrun) as Hg'.
  destruct (body_run_events _ _ _ _ _ _ Hrun) as (evs & Ht & Hev).
  destruct (turn_events_facts _ _ _ _ _ Hev) as (Hp' & Hd' & Ha' & Hv' & Hsc' & Hany').
  unfold loop_invariant.
  rewrite Ht, probes_app, scans_app, downloads_app, api_calls_app, committed_app,
    records_app, filter_listed_snoc, !map_app, Hp, Hsc, Ha, Ha', Hp', Hsc'.
  split_and!.
  - by destruct (decide (listed d)).
  - by destruct (decide (listed d)).
  - rewrite <- Hp, <- Hp'. by apply sublist_app.
  - done.
  - rewrite Hany', Hany. destruct (committed (trace s)), (committed evs); cbn;
      split; try tauto; try done; intros; by left.
  - by apply Forall_app.
  - by rewrite <- Ht.
Qed.

Lemma loop_step_raise w done any d s e s' :
  loop_invariant w done any s ->
  body_run w any d s (Raise e) s' ->
  abort_invariant w (done ++ [d]) s'.
Proof.
  intros (Hp & Hsc & Hd & Ha & Hany & Hv & Hg) Hrun.
  pose proof (body_run_guarded _ _ _ _ _ _ Hg Hrun) as Hg'.
  destruct (body_run_events _ _ _ _ _ _ Hrun) as (evs & Ht & Hev).
  destruct (turn_events_facts _ _ _ _ _ Hev) as (Hp' & Hd' & Ha' & Hv' & Hl).
  unfold abort_invariant.
  rewrite Ht, probes_app, downloads_app, api_calls_app, records_app,
    filter_listed_snoc, !map_app, Hp, Ha, Ha', Hp'.
  split_and!.
  - by destruct (decide (listed d)).
  - rewrite <- Hp, <- Hp'. by apply sublist_app.
  - done.
  - by apply Forall_app.
  - by rewrite <- Ht.
Qed.

(** The loop of [main], from a state in which nothing has been probed. *)
Lemma main_loop_invariant w cat s r s' :
  loop_invariant w [] false s ->
  main_loop w cat false s = (r, s') ->
  match r with
  | Ok any => loop_invariant w cat any s'
  | Raise _ => exists pre d post,
      cat = pre ++ d :: post /\ listed d /\ abort_invariant w (pre ++ [d]) s'
  end.
Proof.
  intros Hinv Hrun.
  pose proof (main_loop_ind w (loop_invariant w)
                (fun done s => abort_invariant w done s /\
                               exists pre d, done = pre ++ [d] /\ listed d)) as Hind.
  specialize (Hind (loop_step_ok w)).
  assert (forall done any d s e s',
             loop_invariant w done any s -> body_run w any d s (Raise e) s' ->
             abort_invariant w (done ++ [d]) s' /\
             exists pre d', done ++ [d] = pre ++ [d'] /\ listed d') as Hraise.
  { intros done any d s0 e s0' Hi Hb. split; [by eapply loop_step_raise|].
    exists done, d. split; [done|].
    destruct (body_run_events _ _ _ _ _ _ Hb) as (evs & _ & Hev).
    by destruct (turn_events_facts _ _ _ _ _ Hev) as (_ & _ & _ & _ & Hl). }
  specialize (Hind Hraise cat [] false s r s' Hinv Hrun).
  destruct r as [any|e]; [done|].
  destruct Hind as (pre & d & post & -> & Hab & (pre' & d' & Heq & Hl)).
  cbn [app] in Heq, Hab. apply app_inj_tail in Heq as [<- <-].
  by exists pre, d, post.
Qed.

(** ** Runs of [main], summed up *)

Lemma start_invariant w cat :
  loop_invariant w [] false
    (after (initial w) [CatalogGet FAO_CATALOG_URL (Ok cat)]).
Proof.
  unfold loop_invariant. split_and!; try done.
  apply (all_guarded_inert w []); [apply all_guarded_nil|].
  by apply Forall_singleton.
Qed.

Lemma no_api_call_in (t pre post : list event) domain category x :
  api_calls t = [] -> t <> pre ++ ApiGet domain category x :: post.
Proof.
  intros Ht ->. rewrite api_calls_app in Ht. cbn in Ht.
  by destruct (api_calls pre).
Qed.

Lemma refresh_silent w am qs tail :
  Forall quiet qs ->
  tail = [] \/ (exists rc, tail = [AddToCatalog (create_metadata w am) rc]) ->
  probes (qs ++ tail) = [] /\ downloads (qs ++ tail) = [] /\
  scans (qs ++ tail) = [] /\
  Forall (fun md => exists am', md = create_metadata w am') (records (qs ++ tail)) /\
  forall t, all_guarded w t -> all_guarded w (t ++ qs ++ tail).
Proof.
  intros Hq Htail.
  destruct (quiet_silent _ Hq) as (Hp & Hc & Hr & Hd & Hs).
  assert (Forall inert qs) as Hi
    by (eapply Forall_impl; [exact Hq|]; by intros []).
  rewrite probes_app, downloads_app, scans_app, records_app, Hp, Hr, Hd, Hs.
  destruct Htail as [-> | [rc ->]]; cbn.
  - split_and!; try done; try (by apply Forall_nil).
    intros t Ht. rewrite app_nil_r. by apply all_guarded_inert.
  - split_and!; try done;
      try (by apply Forall_singleton; eexists).
    intros t Ht. rewrite app_assoc. apply all_guarded_snoc.
    + by apply all_guarded_inert.
    + left. by exists am.
Qed.

Lemma filter_listed_prefix (pre post : list descriptor) (d : descriptor) :
  map FileLocation (filter listed (pre ++ [d]))
  `prefix_of` map FileLocation (filter listed (pre ++ d :: post)).
Proof.
  exists (map FileLocation (filter listed post)).
  change (d :: post) with ([d] ++ post).
  by rewrite app_assoc, (filter_app listed (pre ++ [d]) post), map_app.
Qed.

Lemma committed_records (t : list event) (md : dict) :
  md ∈ committed t -> md ∈ records t.
Proof.
  induction t as [|ev t IH]; [done|].
  change (ev :: t) with ([ev] ++ t). rewrite committed_app, records_app.
  rewrite !elem_of_app. intros [Hev | Ht]; [left | right; by apply IH].
  destruct ev as [| | | |md' [[]|e]| | |]; try by apply elem_of_nil in Hev.
  exact Hev.
Qed.

Lemma api_call_after_commit w (t evs pre post : list event) domain category x :
  api_calls t = [] -> committed t <> [] ->
  Forall (primary w) (records t) ->
  t ++ evs = pre ++ ApiGet domain category x :: post ->
  exists md, md ∈ committed pre /\ primary w md.
Proof.
  intros Ha Hc Hprim Heq.
  assert (exists md, md ∈ committed t /\ primary w md) as (md & Hin & Hmd).
  { destruct (committed t) as [|md mds] eqn:Hct; [done|].
    exists md. assert (md ∈ committed t) as Hin by (rewrite Hct; left).
    rewrite Hct in Hin. split; [done|].
    rewrite Forall_forall in Hprim. apply Hprim, committed_records.
    rewrite Hct. left. }
  exists md. split; [|done].
  apply app_eq_app in Heq as [l [[Ht Hl] | [Hpre _]]].
  - destruct l as [|ev l].
    + rewrite app_nil_r in Ht. by subst.
    + injection Hl as <- _. by apply no_api_call_in in Ht.
  - subst pre. rewrite committed_app, elem_of_app. by left.
Qed.

Lemma primary_versioned w md : primary w md -> versioned w md.
Proof. intros (d & hs & _ & Hmd). by eapply metadata_versioned. Qed.

(** Everything the claims below need about a run of [main] from the
    initial state. *)
Lemma main_summary w r s' :
  main w (initial w) = (r, s') ->
  downloads (trace s') `sublist_of` probes (trace s') /\
  Forall (fun md => primary w md \/ exists am, md = create_metadata w am)
    (records (trace s')) /\
  all_guarded w (trace s') /\
  (forall pre domain category x post,
      trace s' = pre ++ ApiGet domain category x :: post ->
      exists md, md ∈ committed pre /\ primary w md) /\
  match catalog_response w [] with
  | Raise e => r = Raise e /\ probes (trace s') = []
  | Ok cat =>
      probes (trace s') `prefix_of` map FileLocation (filter listed cat) /\
      forall any s1,
        main_loop w cat false
          (after (initial w) [CatalogGet FAO_CATALOG_URL (Ok cat)]) = (Ok any, s1) ->
        loop_invariant w cat any s1 /\
        probes (trace s') = probes (trace s1) /\
        scans (trace s') = scans (trace s1) /\
        if any then
          exists am x rest,
            trace s' = trace s1 ++ fetching_log "ae" :: ApiGet "ae" "itemgroup" x :: rest /\
            (r = Ok tt ->
               api_calls (trace s') = all_pairs INCLUDED_DATASETS_CODES /\
               last (trace s') = Some (AddToCatalog (create_metadata w am) (Ok tt)))
        else r = Ok tt /\ s' = after s1 [Log "INFO" NO_NEED]
  end.
Proof.
  intros Hmain. apply main_main_run in Hmain.
  inversion Hmain as [e Hcat|cat e s1 Hcat Hloop|cat s1 Hcat Hloop
                     |cat s1 r' s'' Hcat Hloop Hrefresh]; subst;
    cbn [initial trace] in Hcat; rewrite Hcat.
  - split; [by apply sublist_nil_l|].
    split; [by apply Forall_nil|].
    split; [apply (all_guarded_inert w []);
            [apply all_guarded_nil | by apply Forall_singleton]|].
    split; [|done].
    intros pre domain category x post Heq. by eapply no_api_call_in in Heq.
  - pose proof Hloop as Hinv.
    apply main_loop_invariant in Hinv; [|apply start_invariant].
    destruct Hinv as (pre & d & post & -> & Hl & Hp & Hd & Ha & Hv & Hg).
    split; [done|].
    split; [eapply Forall_impl; [exact Hv|]; by left|].
    split; [done|].
    split; [intros pre' domain category x post' Heq;
            by eapply no_api_call_in in Heq|].
    split; [rewrite Hp; apply filter_listed_prefix|].
    intros any s1' Hloop'. by rewrite Hloop in Hloop'.
  - pose proof Hloop as Hinv.
    apply main_loop_invariant in Hinv; [|apply start_invariant].
    destruct Hinv as (Hp & Hsc & Hd & Ha & Hany & Hv & Hg).
    cbn [after trace].
    rewrite downloads_app, probes_app, records_app, scans_app, !app_nil_r.
    split; [done|].
    split; [eapply Forall_impl; [exact Hv|]; by left|].
    split; [apply all_guarded_inert; [done | by apply Forall_singleton]|].
    split.
    { intros pre domain category x post Heq. eapply no_api_call_in in Heq; [done|].
      by rewrite api_calls_app, Ha. }
    split; [by rewrite Hp|].
    intros any s1' Hloop'. rewrite Hloop in Hloop'. injection Hloop' as <- <-.
    by split_and!.
  - pose proof Hloop as Hinv.
    apply main_loop_invariant in Hinv; [|apply start_invariant].
    destruct Hinv as (Hp & Hsc & Hd & Ha & Hany & Hv & Hg).
    destruct (refresh_run _ _ _ _ _ Hrefresh)
      as (qs & tail & x & rest & Ht & Hq & Hqs & Htail & Hok).
    destruct (refresh_silent w _ qs tail Hq Htail) as (Hp' & Hd' & Hsc' & Hv' & Hg').
    rewrite Ht, downloads_app, probes_app, records_app, scans_app, Hp', Hd',
      Hsc', !app_nil_r.
    split; [done|].
    split.
    { apply Forall_app. split.
      - eapply Forall_impl; [exact Hv|]. by left.
      - eapply Forall_impl; [exact Hv'|]. by right. }
    split; [by apply Hg'|].
    split.
    { intros pre domain category y post Heq.
      eapply api_call_after_commit; [exact Ha | | exact Hv | exact Heq].
      by apply Hany. }
    split; [by rewrite Hp|].
    intros any s1' Hloop'. rewrite Hloop in Hloop'. injection Hloop' as <- <-.
    split; [done|]. split; [done|]. split; [done|].
    eexists _, x, (rest ++ tail). split; [by rewrite Hqs|].
    intros ->. destruct (Hok eq_refl) as [Hall ->].
    rewrite !api_calls_app, Ha, Hall. cbn [api_calls flat_map app].
    rewrite app_nil_r. split; [done|].
    by rewrite app_assoc, last_snoc.
Qed.

(** ** The World Bank script *)

Lemma wb_create_metadata_dict_ok w s md s1 :
  wb_income_groups.create_metadata_dict w s = (Ok md, s1) ->
  exists notes,
    s1 = after s [ReadExcel wb_income_groups.SOURCE_DATA_URL "Notes" (Ok notes)] /\
    md !! "description"
    = Some (VStr (normalize_NFKD w
                    (wb_income_groups.join
                       (wb_income_groups.NEWLINE +:+ wb_income_groups.NEWLINE)
                       notes))) /\
    md !! "source_data_url" = Some (VStr wb_income_groups.SOURCE_DATA_URL) /\
    md !! "version" = None /\
    md !! "date_accessed" = Some (VStr (date_str (clock w (trace s1)))).
Proof.
  unfold wb_income_groups.create_metadata_dict, bind,
    wb_income_groups.load_metadata_description, call, ret,
    wb_income_groups.date_accessed_now, bind.
  destruct (read_excel_response w (trace s) _ _) as [notes|e]; [|done].
  intros [= <- <-]. exists notes. cbn [trace].
  generalize (date_str (clock w (trace s ++
    [ReadExcel wb_income_groups.SOURCE_DATA_URL "Notes" (Ok notes)]))).
  generalize (normalize_NFKD w
                (wb_income_groups.join
                   (wb_income_groups.NEWLINE +:+ wb_income_groups.NEWLINE) notes)).
  intros description accessed. by split_and!.
Qed.

Lemma wb_create_metadata_dict_raise w s e s1 :
  wb_income_groups.create_metadata_dict w s = (Raise e, s1) ->
  s1 = after s [ReadExcel wb_income_groups.SOURCE_DATA_URL "Notes" (Raise e)].
Proof.
  unfold wb_income_groups.create_metadata_dict, bind,
    wb_income_groups.load_metadata_description, call, ret,
    wb_income_groups.date_accessed_now, bind.
  destruct (read_excel_response w (trace s) _ _) as [notes|e']; [done|].
  by intros [= <- <-].
Qed.

Lemma wb_check_date_description md description :
  md !! "description" = Some (VStr description) ->
  wb_income_groups.check_date md
  = if contains wb_income_groups.SENTENCE description
    then Ok tt else Raise ValueError.
Proof.
  intros Hd. unfold wb_income_groups.check_date, wb_income_groups.getitem_str, rbind.
  rewrite Hd. by destruct (contains _ _).
Qed.

(** The runs of the World Bank [main], case by case. *)
Lemma wb_main_run w s :
  match wb_income_groups.create_metadata_dict w s with
  | (Raise e, s1) => wb_income_groups.main w s = (Raise e, s1)
  | (Ok md, s1) =>
      match wb_income_groups.check_date md with
      | Raise e => wb_income_groups.main w s = (Raise e, s1)
      | Ok _ =>
          match download_response w (trace s1) wb_income_groups.SOURCE_DATA_URL with
          | Raise e =>
              wb_income_groups.main w s
              = (Raise e, after s1 [Download wb_income_groups.SOURCE_DATA_URL (Raise e)])
          | Ok _ =>
              exists rc idx,
                wb_income_groups.main w s
                = (rc, mkstate idx
                         (trace s1 ++
                          [Download wb_income_groups.SOURCE_DATA_URL (Ok tt);
                           AddToCatalog md rc]))
          end
      end
  end.
Proof.
  destruct (wb_income_groups.create_metadata_dict w s) as [[md|e] s1] eqn:Hmd.
  2: { unfold wb_income_groups.main, bind. by rewrite Hmd. }
  destruct (wb_create_metadata_dict_ok _ _ _ _ Hmd) as (notes & _ & _ & Hurl & _).
  destruct (wb_income_groups.check_date md) as [[]|e] eqn:Hc.
  2: { unfold wb_income_groups.main, bind, lift. by rewrite Hmd, Hc. }
  destruct (download_response w (trace s1) _) as [[]|e] eqn:Hd.
  2: { unfold wb_income_groups.main, bind, lift, files_download, call,
         wb_income_groups.getitem_str.
       by rewrite Hmd, Hc, Hurl, Hd. }
  destruct (add_to_catalog_response w
              (trace s1 ++ [Download wb_income_groups.SOURCE_DATA_URL (Ok tt)])
              md (index s1)) as [rc idx] eqn:Ha.
  exists rc, idx.
  unfold wb_income_groups.main, bind, lift, files_download, call,
    wb_income_groups.getitem_str, add_to_catalog.
  rewrite Hmd, Hc, Hurl, Hd. cbn [index trace]. by rewrite Ha, <- app_assoc.
Qed.

(** ** Two runs on the same day *)

(** The first run finds an empty index, commits both enabled datasets and
    refreshes the auxiliary snapshot; a second run on the same day, the
    files on the server unchanged, finds both up to date, downloads nothing,
    asks the API nothing and logs that there was no need. *)
Example first_run_commits :
  downloads (trace (snd (main calm_world (initial calm_world))))
  = [FileLocation d_qcl; FileLocation d_rl] /\
  length (committed (trace (snd (main calm_world (initial calm_world))))) = 3%nat.
Proof. split; by_computation. Qed.

Example second_run_skips :
  fst (main (with_initial_index calm_world index_after_first_run)
         (initial (with_initial_index calm_world index_after_first_run)))
  = Ok tt /\
  downloads
    (trace (snd (main (with_initial_index calm_world index_after_first_run)
                   (initial (with_initial_index calm_world index_after_first_run)))))
  = [] /\
  api_calls
    (trace (snd (main (with_initial_index calm_world index_after_first_run)
                   (initial (with_initial_index calm_world index_after_first_run)))))
  = [] /\
  last
    (trace (snd (main (with_initial_index calm_world index_after_first_run)
                   (initial (with_initial_index calm_world index_after_first_run)))))
  = Some (Log "INFO" NO_NEED).
Proof. split_and!; by_computation. Qed.

(** The records a run commits can be read back by the next scan. *)
Lemma committed_record_has_date w self md :
  valid_date (clock w []) = true ->
  metadata w self = Ok md ->
  date_accessed_of md = Some (clock w []).
Proof.
  intros Hv Hmd. destruct (metadata_versioned _ _ _ Hmd) as [_ Hd].
  unfold date_accessed_of. rewrite Hd. unfold VERSION.
  by apply strptime_ymd_date_str.
Qed.

(** * The claims *)

(** ** Freshness check *)

(** C1, as the code has it.  On an index partition whose records all carry
    a [date_accessed] that is a string in the [%Y-%m-%d] format, the
    freshness check returns, and it returns true exactly when some record
    of the partition has the candidate's [source_data_url] and a
    [date_accessed] strictly later than the candidate's modification date.
    In particular it returns false when every record with the candidate's
    URL was accessed on the modification date itself, when the partition is
    empty, and when no record has the candidate's URL. *)
Theorem up_to_date_iff_fresh_record (url : string) (m : date) (s : state) :
  Forall (fun fd => is_Some (date_accessed_of (snd fd))) (namespace_partition s) ->
  exists b,
    fst (is_dataset_already_up_to_date url m s) = Ok b /\
    (b = true <->
     exists f doc, (f, doc) ∈ namespace_partition s /\ fresh_for url m doc) /\
    ((forall f doc, (f, doc) ∈ namespace_partition s ->
                    doc !! "source_data_url" = Some (VStr url) ->
                    date_accessed_of doc = Some m) -> b = false) /\
    (namespace_partition s = [] -> b = false) /\
    ((forall f doc, (f, doc) ∈ namespace_partition s ->
                    doc !! "source_data_url" <> Some (VStr url)) -> b = false).
Proof.
  intros Hwf. rewrite (oracle_ok url m s Hwf). fold (namespace_partition s).
  set (docs := namespace_partition s).
  set (b := existsb (fun fd => fresh_forb url m (snd fd)) docs).
  assert (b = true <-> exists f doc, (f, doc) ∈ docs /\ fresh_for url m doc) as Hiff.
  { unfold b. rewrite existsb_exists. split.
    - intros ([f doc] & Hin & Hf). exists f, doc.
      by rewrite list_elem_of_In, <- fresh_forb_spec.
    - intros (f & doc & Hin & Hf). exists (f, doc).
      by rewrite <- list_elem_of_In, fresh_forb_spec. }
  assert ((~ exists f doc, (f, doc) ∈ docs /\ fresh_for url m doc) -> b = false)
    as Hno.
  { intros Hn. destruct b; [|done]. destruct Hn. by apply Hiff. }
  exists b. split_and!; [done | done | | | ].
  - intros Hsame. apply Hno. intros (f & doc & Hin & Hurl & d & Hd & Hl).
    rewrite (Hsame f doc Hin Hurl) in Hd. injection Hd as <-.
    by apply later_irrefl in Hl.
  - intros Hnil. apply Hno. intros (f & doc & Hin & _).
    rewrite Hnil in Hin. by apply elem_of_nil in Hin.
  - intros Hother. apply Hno. intros (f & doc & Hin & Hurl & _).
    by apply (Hother f doc Hin).
Qed.

(** C1 at a partition of two records of the candidate's source, one
    accessed on the modification date and one the day after. *)
Lemma up_to_date_iff_fresh_record_witness :
  Forall (fun fd => is_Some (date_accessed_of (snd fd)))
    (namespace_partition
       (state_with [("2021-06-01/faostat_qcl.json", doc_same_day);
                    ("2021-06-02/faostat_qcl.json", doc_fresh)])) /\
  exists b,
    fst (is_dataset_already_up_to_date (FileLocation d_qcl) (mkdate 2021 6 1)
           (state_with [("2021-06-01/faostat_qcl.json", doc_same_day);
                        ("2021-06-02/faostat_qcl.json", doc_fresh)])) = Ok b /\
    (b = true <->
     exists f doc,
       (f, doc) ∈ namespace_partition
         (state_with [("2021-06-01/faostat_qcl.json", doc_same_day);
                      ("2021-06-02/faostat_qcl.json", doc_fresh)]) /\
       fresh_for (FileLocation d_qcl) (mkdate 2021 6 1) doc).
Proof.
  assert (Forall (fun fd => is_Some (date_accessed_of (snd fd)))
            (namespace_partition
               (state_with [("2021-06-01/faostat_qcl.json", doc_same_day);
                            ("2021-06-02/faostat_qcl.json", doc_fresh)]))) as Hwf.
  { apply Forall_cons. split; [by_computation|].
    apply Forall_cons. split; [by_computation|]. by apply Forall_nil. }
  split; [exact Hwf|].
  destruct (up_to_date_iff_fresh_record (FileLocation d_qcl) (mkdate 2021 6 1)
              _ Hwf) as (b & Hb & Hiff & _).
  exists b. by split.
Defined.

(** C1, counterexample.  The partition holds a record that is fresh for
    the candidate, and after it a record of another source whose date is no
    date: the check does not return true, it raises [ValueError]. *)
Lemma malformed_record_hides_fresh_record :
  (exists f doc,
      (f, doc) ∈ namespace_partition
                   (state_with [("2021-06-02/faostat_qcl.json", doc_fresh);
                                ("2021-13-45/faostat_rl.json", doc_malformed_rl)]) /\
      fresh_for (FileLocation d_qcl) (mkdate 2021 6 1) doc) /\
  fst (is_dataset_already_up_to_date (FileLocation d_qcl) (mkdate 2021 6 1)
         (state_with [("2021-06-02/faostat_qcl.json", doc_fresh);
                      ("2021-13-45/faostat_rl.json", doc_malformed_rl)]))
  = Raise ValueError.
Proof.
  split; [|by_computation].
  exists "2021-06-02/faostat_qcl.json", doc_fresh. split.
  - apply list_elem_of_In. left. reflexivity.
  - apply fresh_forb_spec. reflexivity.
Qed.

(** C2, as the code has it.  A record whose [date_accessed] is missing, is
    not a string, or is not a [%Y-%m-%d] date stops the scan: the exception
    of [strptime] ([ValueError], or [TypeError] when the field is not a
    string) leaves [is_dataset_already_up_to_date] at the first such record
    in iteration order.  The records before it have been examined (one log
    line for each that is fresh), the records after it are not looked at,
    and nothing is returned: no verdict and no count. *)
Theorem scan_stops_at_malformed_record (url : string) (m : date) (s : state)
    (pre : list (string * dict)) (f : string) (doc : dict)
    (post : list (string * dict)) :
  namespace_partition s = pre ++ (f, doc) :: post ->
  Forall (fun fd => is_Some (date_accessed_of (snd fd))) pre ->
  date_accessed_of doc = None ->
  is_dataset_already_up_to_date url m s
  = (Raise (malformed_error doc),
     after s (IterDocs NAMESPACE (namespace_partition s) :: scan_logs url m pre)).
Proof.
  intros Hdocs Hpre Hdoc. rewrite Hdocs. by apply oracle_raise.
Qed.

(** C2 at a partition whose second record has a thirteenth month and
    whose third record is fresh for the candidate. *)
Lemma scan_stops_at_malformed_record_witness :
  is_dataset_already_up_to_date (FileLocation d_qcl) (mkdate 2021 6 1)
    (state_with [("2021-06-01/faostat_qcl.json", doc_same_day);
                 ("2021-13-45/faostat_qcl.json", doc_malformed);
                 ("2021-06-02/faostat_qcl.json", doc_fresh)])
  = (Raise ValueError,
     after (state_with [("2021-06-01/faostat_qcl.json", doc_same_day);
                        ("2021-13-45/faostat_qcl.json", doc_malformed);
                        ("2021-06-02/faostat_qcl.json", doc_fresh)])
       [IterDocs NAMESPACE
          [("2021-06-01/faostat_qcl.json", doc_same_day);
           ("2021-13-45/faostat_qcl.json", doc_malformed);
           ("2021-06-02/faostat_qcl.json", doc_fresh)]]).
Proof.
  apply (scan_stops_at_malformed_record (FileLocation d_qcl) (mkdate 2021 6 1)
           (state_with [("2021-06-01/faostat_qcl.json", doc_same_day);
                        ("2021-13-45/faostat_qcl.json", doc_malformed);
                        ("2021-06-02/faostat_qcl.json", doc_fresh)])
           [("2021-06-01/faostat_qcl.json", doc_same_day)]
           "2021-13-45/faostat_qcl.json" doc_malformed
           [("2021-06-02/faostat_qcl.json", doc_fresh)]).
  - by_computation.
  - apply Forall_cons. split; [by_computation|]. by apply Forall_nil.
  - by_computation.
Defined.

(** C2, counterexample.  The index holds a record with a malformed date
    followed by a record that is fresh for the candidate: the scan does not
    skip the first and go on to the second, it raises [ValueError]. *)
Lemma malformed_record_aborts_scan :
  fresh_for (FileLocation d_qcl) (mkdate 2021 6 1) doc_fresh /\
  fst (is_dataset_already_up_to_date (FileLocation d_qcl) (mkdate 2021 6 1)
         (state_with [("2021-13-45/faostat_qcl.json", doc_malformed);
                      ("2021-06-02/faostat_qcl.json", doc_fresh)]))
  = Raise ValueError.
Proof.
  split; [|by_computation].
  apply fresh_forb_spec. reflexivity.
Qed.

(** ** The run of the FAOSTAT script *)

(** C3, as the code has it.  [main] has no handler around the processing
    of a dataset: when a turn of the loop raises, for a failed header
    request, a missing or unreadable [Last-Modified], a malformed record in
    the index, a failed download, an unreadable update date or a failed
    commit, the exception leaves [main] and the run ends in the state of
    the failure.  The failing dataset is an enabled one; the datasets after
    it are not probed, and the auxiliary refresh is not run. *)
Theorem dataset_failure_aborts_run (w : world) (pre : list descriptor)
    (d : descriptor) (post : list descriptor) (any : bool) (s1 : state)
    (e : exn) (s2 : state) :
  catalog_response w [] = Ok (pre ++ d :: post) ->
  main_loop w pre false
    (after (initial w) [CatalogGet FAO_CATALOG_URL (Ok (pre ++ d :: post))])
  = (Ok any, s1) ->
  main_body w any d s1 = (Raise e, s2) ->
  main w (initial w) = (Raise e, s2) /\
  listed d /\
  probes (trace s2) = map FileLocation (filter listed (pre ++ [d])) /\
  api_calls (trace s2) = [].
Proof.
  intros Hcat Hpre Hbody.
  assert (main_loop w (pre ++ d :: post) false
            (after (initial w) [CatalogGet FAO_CATALOG_URL (Ok (pre ++ d :: post))])
          = (Raise e, s2)) as Hloop.
  { rewrite main_loop_app, Hpre. cbn [main_loop]. unfold bind. by rewrite Hbody. }
  split.
  { unfold main, bind, load_faostat_catalog, call. cbn [initial index trace].
    rewrite Hcat. cbn [app]. unfold after, initial in Hloop. cbn in Hloop.
    by rewrite Hloop. }
  apply main_loop_invariant in Hpre; [|apply start_invariant].
  apply main_body_run in Hbody.
  destruct (loop_step_raise _ _ _ _ _ _ _ Hpre Hbody) as (Hp & _ & Ha & _).
  destruct (body_run_events _ _ _ _ _ _ Hbody) as (evs & _ & Hev).
  by destruct (turn_events_facts _ _ _ _ _ Hev) as (_ & _ & _ & _ & Hl).
Qed.

(** C3 where the server of the first enabled dataset cannot be reached. *)
Lemma dataset_failure_aborts_run_witness :
  main unreachable_world (initial unreachable_world)
  = (Raise connection_error,
     mkstate ∅ [CatalogGet FAO_CATALOG_URL (Ok [d_qcl; d_gt; d_rl]);
                Head (FileLocation d_qcl) (Raise connection_error)]) /\
  listed d_qcl /\
  probes [CatalogGet FAO_CATALOG_URL (Ok [d_qcl; d_gt; d_rl]);
          Head (FileLocation d_qcl) (Raise connection_error)]
  = map FileLocation (filter listed [d_qcl]) /\
  api_calls [CatalogGet FAO_CATALOG_URL (Ok [d_qcl; d_gt; d_rl]);
             Head (FileLocation d_qcl) (Raise connection_error)] = [].
Proof.
  apply (dataset_failure_aborts_run unreachable_world [] d_qcl [d_gt; d_rl] false
           (after (initial unreachable_world)
              [CatalogGet FAO_CATALOG_URL (Ok [d_qcl; d_gt; d_rl])])
           connection_error
           (mkstate ∅ [CatalogGet FAO_CATALOG_URL (Ok [d_qcl; d_gt; d_rl]);
                       Head (FileLocation d_qcl) (Raise connection_error)])).
  - reflexivity.
  - reflexivity.
  - by_computation.
Defined.

(** C3, counterexample.  The header request for the first enabled dataset
    fails: the run ends with that exception, and [RL], which is enabled and
    comes later in the listing, is never probed. *)
Lemma probe_failure_ends_run :
  listed d_rl /\
  fst (main unreachable_world (initial unreachable_world))
  = Raise connection_error /\
  probes (trace (snd (main unreachable_world (initial unreachable_world))))
  = [FileLocation d_qcl].
Proof.
  split; [by_computation|]. split; by_computation.
Qed.

(** C4, as the code has it.  The API of the auxiliary snapshot is asked
    only after the commit of a primary dataset has gone through.  In a
    run whose loop over the catalog comes to its end, the flag is raised
    exactly when such a commit went through; with the flag raised the
    refresh begins right after the loop, and if [main] then returns, every
    (domain, category) pair has been asked, in order, and the snapshot has
    been committed last; with the flag down no API call is made, [main]
    logs the informational message and returns.  A run whose loop is cut
    short by an exception makes no API call, whatever it had committed. *)
Theorem aux_refresh_follows_loop (w : world) (r : result unit) (s' : state) :
  main w (initial w) = (r, s') ->
  (forall pre domain category x post,
      trace s' = pre ++ ApiGet domain category x :: post ->
      exists md, md ∈ committed pre /\ primary w md) /\
  (forall cat any s1,
      catalog_response w [] = Ok cat ->
      main_loop w cat false
        (after (initial w) [CatalogGet FAO_CATALOG_URL (Ok cat)]) = (Ok any, s1) ->
      (any = true <-> committed (trace s1) <> []) /\
      api_calls (trace s1) = [] /\
      (any = true ->
       exists am x rest,
         trace s' = trace s1 ++ fetching_log "ae" :: ApiGet "ae" "itemgroup" x :: rest /\
         (r = Ok tt ->
            api_calls (trace s') = all_pairs INCLUDED_DATASETS_CODES /\
            last (trace s') = Some (AddToCatalog (create_metadata w am) (Ok tt)))) /\
      (any = false ->
       r = Ok tt /\ s' = after s1 [Log "INFO" NO_NEED] /\
       api_calls (trace s') = [])) /\
  (forall cat e s1,
      catalog_response w [] = Ok cat ->
      main_loop w cat false
        (after (initial w) [CatalogGet FAO_CATALOG_URL (Ok cat)]) = (Raise e, s1) ->
      r = Raise e /\ s' = s1 /\ api_calls (trace s') = []).
Proof.
  intros Hmain.
  destruct (main_summary _ _ _ Hmain) as (_ & _ & _ & Hapi & Hcat).
  split; [exact Hapi|]. split.
  - intros cat any s1 Hc Hloop. rewrite Hc in Hcat.
    destruct Hcat as [_ Hcat].
    destruct (Hcat any s1 Hloop) as ((_ & _ & _ & Ha & Hany & _) & _ & _ & Hif).
    split; [done|]. split; [done|]. split.
    + intros ->. exact Hif.
    + intros ->. destruct Hif as [-> ->]. split_and!; try done.
      cbn [after trace]. by rewrite api_calls_app, Ha.
  - intros cat e s1 Hc Hloop.
    assert (main w (initial w) = (Raise e, s1)) as Hmain'.
    { unfold main, bind, load_faostat_catalog, call. cbn [initial index trace].
      rewrite Hc. cbn [app]. unfold after, initial in Hloop. cbn in Hloop.
      by rewrite Hloop. }
    rewrite Hmain in Hmain'. injection Hmain' as -> ->.
    split; [done|]. split; [done|].
    apply main_loop_invariant in Hloop; [|apply start_invariant].
    by destruct Hloop as (pre & d & post & _ & _ & _ & _ & Ha & _).
Qed.

(** C4 in the calm world: two datasets are committed and the refresh asks
    all 150 pairs. *)
Lemma aux_refresh_follows_loop_witness :
  api_calls (trace (snd (main calm_world (initial calm_world))))
  = all_pairs INCLUDED_DATASETS_CODES.
Proof.
  destruct (aux_refresh_follows_loop calm_world
              (fst (main calm_world (initial calm_world)))
              (snd (main calm_world (initial calm_world))))
    as (_ & Hloop & _); [by destruct (main _ _)|].
  destruct (Hloop [d_qcl; d_gt; d_rl] true
              (snd (main_loop calm_world [d_qcl; d_gt; d_rl] false
                      (after (initial calm_world)
                         [CatalogGet FAO_CATALOG_URL (Ok [d_qcl; d_gt; d_rl])]))))
    as (_ & _ & Hrefresh & _); [reflexivity | by_computation |].
  destruct (Hrefresh eq_refl) as (am & x & rest & _ & Hok).
  apply Hok. by_computation.
Defined.

(** C4, counterexample.  The first enabled dataset is found stale and
    committed; the header request for the last one fails.  A primary
    dataset was committed in this run, and yet no API call is made. *)
Lemma commit_without_refresh :
  length (committed (trace (snd (main late_failure_world
                                   (initial late_failure_world))))) = 1%nat /\
  downloads (trace (snd (main late_failure_world (initial late_failure_world))))
  = [FileLocation d_qcl] /\
  api_calls (trace (snd (main late_failure_world (initial late_failure_world))))
  = [] /\
  fst (main late_failure_world (initial late_failure_world))
  = Raise connection_error.
Proof. split_and!; by_computation. Qed.

(** C5, as the code has it.  Every record that a run of the FAOSTAT
    script hands to the catalog, for a dataset or for the auxiliary
    snapshot, carries the version tag of the run, read once from the clock
    when the module is loaded, and has that tag as its [date_accessed].
    The record of the World Bank script has no [version] field; its
    [date_accessed] is the date of the clock when the record is built. *)
Theorem faostat_records_share_version (w : world) :
  (forall r s' md,
      main w (initial w) = (r, s') ->
      md ∈ records (trace s') ->
      md !! "version" = Some (VStr (VERSION w)) /\
      md !! "date_accessed" = Some (VStr (VERSION w))) /\
  (forall s md s1,
      wb_income_groups.create_metadata_dict w s = (Ok md, s1) ->
      md !! "version" = None /\
      md !! "date_accessed" = Some (VStr (date_str (clock w (trace s1))))).
Proof.
  split.
  - intros r s' md Hmain Hmd.
    destruct (main_summary _ _ _ Hmain) as (_ & Hv & _).
    rewrite Forall_forall in Hv. destruct (Hv md Hmd) as [Hp | [am ->]].
    + by apply primary_versioned.
    + apply create_metadata_versioned.
  - intros s md s1 Hmd.
    by destruct (wb_create_metadata_dict_ok _ _ _ _ Hmd) as (_ & _ & _ & _ & ? & ?).
Qed.

(** C5 in the calm world: the three records of the run of 2 June 2021. *)
Lemma faostat_records_share_version_witness :
  Forall (fun md => md !! "version" = Some (VStr "2021-06-02") /\
                    md !! "date_accessed" = Some (VStr "2021-06-02"))
    (records (trace (snd (main calm_world (initial calm_world))))) /\
  length (records (trace (snd (main calm_world (initial calm_world))))) = 3%nat.
Proof.
  split; [|by_computation].
  apply Forall_forall. intros md Hmd.
  destruct (faostat_records_share_version calm_world) as [Hfao _].
  apply (Hfao (fst (main calm_world (initial calm_world)))
              (snd (main calm_world (initial calm_world))) md);
    [by destruct (main _ _) | exact Hmd].
Defined.

(** C5, counterexample.  The record that the World Bank script commits has
    no [version] field. *)
Lemma wb_record_without_version :
  map (fun md => md !! "version")
    (records (trace (snd (wb_income_groups.main calm_world (initial calm_world)))))
  = [None] /\
  map (fun md => md !! "date_accessed")
    (records (trace (snd (wb_income_groups.main calm_world (initial calm_world)))))
  = [Some (VStr "2021-06-02")].
Proof. split; by_computation. Qed.

(** C6, as the code has it.  In a run of the FAOSTAT script, a download
    comes right after the header request for the same file and a scan of
    the index that returned "not up to date" for the modification date in
    those headers; a commit is either that of the auxiliary snapshot, which
    no scan precedes, or comes right after a download that went through.
    The World Bank script never scans the index. *)
Theorem download_follows_stale_verdict (w : world) :
  (forall r s' pre url x post,
      main w (initial w) = (r, s') ->
      trace s' = pre ++ Download url x :: post ->
      exists d hs mdate t0 idx,
        listed d /\ FileLocation d = url /\
        modification_date w (mkFAODataset d hs) = Ok mdate /\
        is_dataset_already_up_to_date url mdate
          (mkstate idx (t0 ++ [Head url (Ok hs)]))
        = (Ok false, mkstate idx pre)) /\
  (forall r s' pre md x post,
      main w (initial w) = (r, s') ->
      trace s' = pre ++ AddToCatalog md x :: post ->
      (exists am, md = create_metadata w am) \/
      (exists pre' url, pre = pre' ++ [Download url (Ok tt)])) /\
  (forall s r s',
      wb_income_groups.main w s = (r, s') ->
      scans (trace s') = scans (trace s)).
Proof.
  split_and!.
  - intros r s' pre url x post Hmain Ht.
    destruct (main_summary _ _ _ Hmain) as (_ & _ & Hg & _).
    exact (Hg pre (Download url x) post Ht).
  - intros r s' pre md x post Hmain Ht.
    destruct (main_summary _ _ _ Hmain) as (_ & _ & Hg & _).
    exact (Hg pre (AddToCatalog md x) post Ht).
  - intros s r s' Hmain. pose proof (wb_main_run w s) as Hrun.
    destruct (wb_income_groups.create_metadata_dict w s) as [[md|e] s1] eqn:Hmd.
    + destruct (wb_create_metadata_dict_ok _ _ _ _ Hmd) as (notes & -> & _).
      destruct (wb_income_groups.check_date md) as [[]|e].
      * cbn [after trace] in Hrun.
        destruct (download_response w _ _) as [[]|e].
        -- destruct Hrun as (rc & idx & Hrun). rewrite Hmain in Hrun.
           injection Hrun as -> ->. cbn [trace].
           rewrite <- app_assoc, scans_app. cbn. by rewrite app_nil_r.
        -- rewrite Hmain in Hrun. injection Hrun as -> ->. cbn [after trace].
           rewrite <- app_assoc, scans_app. cbn. by rewrite app_nil_r.
      * rewrite Hmain in Hrun. injection Hrun as -> ->. cbn [after trace].
        rewrite scans_app. cbn. by rewrite app_nil_r.
    + apply wb_create_metadata_dict_raise in Hmd as ->.
      rewrite Hmain in Hrun. injection Hrun as -> ->. cbn [after trace].
      rewrite scans_app. cbn. by rewrite app_nil_r.
Qed.

(** C6 in the calm world, at the download of the first dataset. *)
Lemma download_follows_stale_verdict_witness :
  exists d hs mdate t0 idx,
    listed d /\ FileLocation d = FileLocation d_qcl /\
    modification_date calm_world (mkFAODataset d hs) = Ok mdate /\
    is_dataset_already_up_to_date (FileLocation d_qcl) mdate
      (mkstate idx (t0 ++ [Head (FileLocation d_qcl) (Ok hs)]))
    = (Ok false,
       mkstate idx
         (take 3 (trace (snd (main calm_world (initial calm_world)))))).
Proof.
  destruct (download_follows_stale_verdict calm_world) as (Hdl & _ & _).
  apply (Hdl (fst (main calm_world (initial calm_world)))
             (snd (main calm_world (initial calm_world)))
             (take 3 (trace (snd (main calm_world (initial calm_world)))))
             (FileLocation d_qcl) (Ok tt)
             (drop 4 (trace (snd (main calm_world (initial calm_world)))))).
  - by destruct (main _ _).
  - by_computation.
Defined.

(** C6, counterexample.  The World Bank script downloads the workbook and
    commits it, and the index is not scanned at any point of the run. *)
Lemma wb_commit_without_verdict :
  downloads (trace (snd (wb_income_groups.main calm_world (initial calm_world))))
  = [wb_income_groups.SOURCE_DATA_URL] /\
  length (committed (trace (snd (wb_income_groups.main calm_world
                                   (initial calm_world))))) = 1%nat /\
  scans (trace (snd (wb_income_groups.main calm_world (initial calm_world))))
  = [].
Proof. split_and!; by_computation. Qed.

(** C7, as the code has it.  A descriptor whose lower-cased code is not in
    the list of enabled codes is passed over: its turn of the loop returns
    at once and touches nothing.  The files probed in a run are, in the
    order of the listing, those of the enabled descriptors up to the first
    one whose processing raises; nothing is downloaded that was not probed.
    When the loop comes to its end, every enabled descriptor has been
    probed and the index has been scanned once for each. *)
Theorem enabled_datasets_probed_in_order (w : world) (cat : list descriptor)
    (r : result unit) (s' : state) :
  catalog_response w [] = Ok cat ->
  main w (initial w) = (r, s') ->
  (forall d any s, ~ listed d -> main_body w any d s = (Ok any, s)) /\
  probes (trace s') `prefix_of` map FileLocation (filter listed cat) /\
  downloads (trace s') `sublist_of` probes (trace s') /\
  (forall any s1,
      main_loop w cat false
        (after (initial w) [CatalogGet FAO_CATALOG_URL (Ok cat)]) = (Ok any, s1) ->
      probes (trace s') = map FileLocation (filter listed cat) /\
      scans (trace s') = map (fun _ => NAMESPACE) (filter listed cat)).
Proof.
  intros Hcat Hmain.
  destruct (main_summary _ _ _ Hmain) as (Hd & _ & _ & _ & Hsum).
  rewrite Hcat in Hsum. destruct Hsum as [Hprefix Hloop].
  split_and!; [| done | done |].
  - intros d any s Hl. unfold main_body. by rewrite bool_decide_eq_false_2.
  - intros any s1 Hrun.
    destruct (Hloop any s1 Hrun) as ((Hp & Hsc & _) & Hp' & Hsc' & _).
    by rewrite Hp', Hsc'.
Qed.

(** C7 in the calm world: of the three entries of the listing, the two
    enabled ones are probed, in order. *)
Lemma enabled_datasets_probed_in_order_witness :
  probes (trace (snd (main calm_world (initial calm_world))))
  = [FileLocation d_qcl; FileLocation d_rl] /\
  scans (trace (snd (main calm_world (initial calm_world))))
  = [NAMESPACE; NAMESPACE].
Proof.
  destruct (enabled_datasets_probed_in_order calm_world [d_qcl; d_gt; d_rl]
              (fst (main calm_world (initial calm_world)))
              (snd (main calm_world (initial calm_world))))
    as (_ & _ & _ & Hloop); [reflexivity | by destruct (main _ _) |].
  apply (Hloop true
           (snd (main_loop calm_world [d_qcl; d_gt; d_rl] false
                   (after (initial calm_world)
                      [CatalogGet FAO_CATALOG_URL (Ok [d_qcl; d_gt; d_rl])])))).
  by_computation.
Defined.

(** C7, counterexample.  The server of the first enabled dataset sends no
    [Last-Modified] header: [main] ends with a [KeyError], and [RL], which
    is enabled and in the listing, is not evaluated. *)
Lemma enabled_dataset_not_evaluated :
  listed d_rl /\
  catalog_response headerless_world [] = Ok [d_qcl; d_gt; d_rl] /\
  fst (main headerless_world (initial headerless_world))
  = Raise (KeyError "last-modified") /\
  probes (trace (snd (main headerless_world (initial headerless_world))))
  = [FileLocation d_qcl] /\
  scans (trace (snd (main headerless_world (initial headerless_world)))) = [].
Proof.
  split; [by_computation|].
  split_and!; by_computation.
Qed.

(** ** Metadata of a dataset *)

(** C8, as the code has it.  [publication_date] reads the update date of
    the catalog entry with [datetime.fromisoformat]: it succeeds exactly on
    the strings that function accepts, among them every calendar date
    printed as [YYYY-MM-DD], which it gives back; on any other string,
    free-text dates included, it raises [ValueError], and it raises nothing
    else.  Free text is read only by [modification_date], from the
    [Last-Modified] header of the server, through [dateutil]. *)
Theorem publication_date_iso_only (w : world) (self : FAODataset) :
  (forall d, valid_date d = true ->
             DateUpdate (_dataset_metadata self) = date_str d ->
             publication_date self = Ok d) /\
  (forall d, publication_date self = Ok d <->
             exists t, fromisoformat (DateUpdate (_dataset_metadata self)) = Some t /\
                       dt_date t = d) /\
  (forall e, publication_date self = Raise e <->
             fromisoformat (DateUpdate (_dataset_metadata self)) = None /\
             e = ValueError) /\
  (forall text t, _dataset_server_metadata self !! "last-modified" = Some text ->
                  parser_parse w text = Some t ->
                  modification_date w self = Ok (dt_date t)).
Proof.
  unfold publication_date, modification_date. split_and!.
  - intros d Hv ->. by rewrite (fromisoformat_date_str d Hv).
  - intros d. destruct (fromisoformat _) as [t|]; split.
    + intros [= <-]. by exists t.
    + by intros (t' & [= <-] & <-).
    + done.
    + by intros (t' & ? & _).
  - intros e. destruct (fromisoformat _) as [t|]; split.
    + done.
    + by intros [? _].
    + by intros [= <-].
    + by intros [_ ->].
  - intros text t Hh Hp.
    change (lower "Last-modified") with "last-modified". by rewrite Hh, Hp.
Qed.

(** C8 for an entry updated on 18 March 2021 whose file was last modified
    on 1 June 2021. *)
Lemma publication_date_iso_only_witness :
  publication_date (mkFAODataset d_qcl sample_headers) = Ok (mkdate 2021 3 18) /\
  modification_date calm_world (mkFAODataset d_qcl sample_headers)
  = Ok (mkdate 2021 6 1).
Proof.
  destruct (publication_date_iso_only calm_world
              (mkFAODataset d_qcl sample_headers)) as (Hiso & _ & _ & Hmod).
  split.
  - apply Hiso; by_computation.
  - apply (Hmod "Tue, 01 Jun 2021 08:15:00 GMT"
             (mkdatetime (mkdate 2021 6 1) 8 15 0 0 (Some 0))); by_computation.
Defined.

(** C8, counterexample.  An update date written as free text, in the very
    form that [modification_date] reads from the server, makes
    [publication_date] raise [ValueError]. *)
Lemma free_text_update_date_rejected :
  publication_date
    (mkFAODataset
       (mkdescriptor "QCL" "Production: Crops and livestock products"
          "Crop and livestock statistics." "Tue, 01 Jun 2021 08:15:00 GMT"
          "https://fao.example/Production_Crops_Livestock.zip")
       sample_headers)
  = Raise ValueError /\
  dt_date <$> parse_http_date "Tue, 01 Jun 2021 08:15:00 GMT"
  = Some (mkdate 2021 6 1).
Proof. split; by_computation. Qed.

(** C9.  [short_name] is a function of the dataset code alone: the
    namespace, an underscore and the lower-cased code.  Two objects built
    from the same catalog entry, in whatever world, state of the index or
    moment of the run, and whatever the server answered to the header
    request, have the same [short_name]; it is itself in lower case. *)
Theorem short_name_deterministic (w1 w2 : world) (d : descriptor)
    (s1 s2 : state) (a b : FAODataset) (t1 t2 : state) :
  FAODataset_init w1 d s1 = (Ok a, t1) ->
  FAODataset_init w2 d s2 = (Ok b, t2) ->
  short_name a = short_name b /\
  short_name a = NAMESPACE +:+ "_" +:+ lower (DatasetCode d) /\
  lower (short_name a) = short_name a.
Proof.
  intros Ha Hb. apply FAODataset_init_metadata in Ha, Hb.
  unfold short_name. rewrite Ha, Hb. split_and!; [done | done |].
  by rewrite !lower_app, lower_idemp.
Qed.

(** C9 for the entry of [QCL], read in two worlds whose servers answer
    differently. *)
Lemma short_name_deterministic_witness :
  short_name (mkFAODataset d_qcl sample_headers)
  = short_name (mkFAODataset d_qcl ∅) /\
  short_name (mkFAODataset d_qcl sample_headers) = "faostat_qcl".
Proof.
  destruct (short_name_deterministic calm_world headerless_world d_qcl
              (initial calm_world) (initial headerless_world)
              (mkFAODataset d_qcl sample_headers) (mkFAODataset d_qcl ∅)
              (after (initial calm_world)
                 [Head (FileLocation d_qcl) (Ok sample_headers)])
              (after (initial headerless_world)
                 [Head (FileLocation d_qcl) (Ok ∅)]))
    as (Hab & Ha & _); [by_computation | by_computation |].
  split; [exact Hab|]. rewrite Ha. reflexivity.
Defined.

(** ** The run of the World Bank script *)

(** C10.  [main] builds the metadata, which reads the Notes sheet, and
    checks the description before anything else: when the sentence is not
    in the description, [main] raises [ValueError] in the state in which
    the metadata was built, so that nothing is downloaded and nothing is
    committed.  In every run, either nothing was downloaded or committed
    and the run failed, or the description held the sentence and the
    download, then the commit, came after the check. *)
Theorem wb_check_precedes_download (w : world) (s : state) (r : result unit)
    (s' : state) :
  wb_income_groups.main w s = (r, s') ->
  (forall md s1 description,
      wb_income_groups.create_metadata_dict w s = (Ok md, s1) ->
      md !! "description" = Some (VStr description) ->
      contains wb_income_groups.SENTENCE description = false ->
      r = Raise ValueError /\ s' = s1 /\
      downloads (trace s') = downloads (trace s) /\
      records (trace s') = records (trace s)) /\
  ((r <> Ok tt /\
    downloads (trace s') = downloads (trace s) /\
    records (trace s') = records (trace s)) \/
   (exists md s1 description x,
       wb_income_groups.create_metadata_dict w s = (Ok md, s1) /\
       md !! "description" = Some (VStr description) /\
       contains wb_income_groups.SENTENCE description = true /\
       downloads (trace s1) = downloads (trace s) /\
       records (trace s1) = records (trace s) /\
       trace s' = trace s1 ++
                  Download wb_income_groups.SOURCE_DATA_URL x ::
                  match x with
                  | Ok _ => [AddToCatalog md r]
                  | Raise _ => []
                  end)).
Proof.
  intros Hmain. pose proof (wb_main_run w s) as Hrun.
  destruct (wb_income_groups.create_metadata_dict w s) as [[md|e] s1] eqn:Hmd.
  2: { apply wb_create_metadata_dict_raise in Hmd as ->.
       rewrite Hmain in Hrun. injection Hrun as -> ->. split; [done|]. left.
       cbn [after trace]. rewrite downloads_app, records_app. cbn.
       by rewrite !app_nil_r. }
  destruct (wb_create_metadata_dict_ok _ _ _ _ Hmd) as (notes & Hs1 & Hdesc & _).
  assert (downloads (trace s1) = downloads (trace s) /\
          records (trace s1) = records (trace s)) as [Hd1 Hr1].
  { rewrite Hs1. cbn [after trace]. rewrite downloads_app, records_app. cbn.
    by rewrite !app_nil_r. }
  rewrite (wb_check_date_description _ _ Hdesc) in Hrun.
  destruct (contains wb_income_groups.SENTENCE _) eqn:Hc.
  - split.
    { intros md' s1' description [= <- <-] Hdesc' Hno.
      rewrite Hdesc in Hdesc'. injection Hdesc' as <-. by rewrite Hc in Hno. }
    right. destruct (download_response w (trace s1) _) as [[]|e] eqn:Hdl.
    + destruct Hrun as (rc & idx & Hrun). rewrite Hmain in Hrun.
      injection Hrun as -> ->.
      eexists md, s1, _, (Ok tt). by split_and!.
    + rewrite Hmain in Hrun. injection Hrun as -> ->.
      eexists md, s1, _, (Raise e). by split_and!.
  - rewrite Hmain in Hrun. injection Hrun as -> ->. split.
    { intros md' s1' description [= <- <-] _ _. by split_and!. }
    left. by split_and!.
Qed.

(** C10 on a Notes sheet that no longer holds the sentence. *)
Lemma wb_check_precedes_download_witness :
  fst (wb_income_groups.main
         (with_notes calm_world ["Income classifications set on 1 July 2022."])
         (initial calm_world))
  = Raise ValueError /\
  downloads
    (trace (snd (wb_income_groups.main
                   (with_notes calm_world
                      ["Income classifications set on 1 July 2022."])
                   (initial calm_world)))) = [] /\
  records
    (trace (snd (wb_income_groups.main
                   (with_notes calm_world
                      ["Income classifications set on 1 July 2022."])
                   (initial calm_world)))) = [].
Proof.
  destruct (wb_check_precedes_download
              (with_notes calm_world ["Income classifications set on 1 July 2022."])
              (initial calm_world)
              (fst (wb_income_groups.main
                      (with_notes calm_world
                         ["Income classifications set on 1 July 2022."])
                      (initial calm_world)))
              (snd (wb_income_groups.main
                      (with_notes calm_world
                         ["Income classifications set on 1 July 2022."])
                      (initial calm_world))))
    as [Habsent _]; [by destruct (wb_income_groups.main _ _)|].
  destruct (Habsent
              (match fst (wb_income_groups.create_metadata_dict
                            (with_notes calm_world
                               ["Income classifications set on 1 July 2022."])
                            (initial calm_world)) with
               | Ok md => md
               | Raise _ => ∅
               end)
              (after (initial calm_world)
                 [ReadExcel wb_income_groups.SOURCE_DATA_URL "Notes"
                    (Ok ["Income classifications set on 1 July 2022."])])
              "Income classifications set on 1 July 2022.")
    as (Hr & _ & Hd & Hrec); [by_computation | by_computation | reflexivity |].
  split_and!; [exact Hr | exact Hd | exact Hrec].
Defined.

(** * Further properties of the code *)

(** ** Records written and read back *)

Lemma create_metadata_date w am :
  valid_date (clock w []) = true ->
  date_accessed_of (create_metadata w am) = Some (clock w []) /\
  create_metadata w am !! "source_data_url" = None.
Proof.
  intros Hv. destruct (create_metadata_versioned w am) as [_ Hd].
  unfold date_accessed_of. rewrite Hd. unfold VERSION.
  split; [by apply strptime_ymd_date_str|].
  unfold create_metadata. generalize (VERSION w). done.
Qed.

Lemma metadata_source_data_url w self md :
  metadata w self = Ok md ->
  md !! "source_data_url" = Some (VStr (source_data_url self)).
Proof.
  unfold metadata, rbind.
  destruct (publication_year self) as [y|e]; [|done].
  destruct (publication_date self) as [d|e]; [|done].
  intros [= <-]. generalize (VERSION w). done.
Qed.

(** X1.  The records the scripts build can be read back by the scan of the
    index: when the clock shows a calendar date, the [date_accessed] of a
    dataset record and of the auxiliary record is the [%Y-%m-%d] form of
    the day the module was loaded, which [strptime] reads back as that
    day, and the [date_accessed] of the World Bank record is read back as
    the day it was built.  The dataset record names the file of its
    catalog entry as [source_data_url]; the auxiliary record has no
    [source_data_url], so it can stand in the partition that the scan goes
    through and makes no candidate up to date. *)
Theorem written_records_are_readable (w : world) :
  (valid_date (clock w []) = true ->
   (forall self md,
       metadata w self = Ok md ->
       date_accessed_of md = Some (clock w []) /\
       md !! "source_data_url" = Some (VStr (source_data_url self))) /\
   (forall am url m,
       date_accessed_of (create_metadata w am) = Some (clock w []) /\
       fresh_forb url m (create_metadata w am) = false)) /\
  (forall s md s1,
      wb_income_groups.create_metadata_dict w s = (Ok md, s1) ->
      valid_date (clock w (trace s1)) = true ->
      date_accessed_of md = Some (clock w (trace s1))).
Proof.
  split.
  - intros Hv. split.
    + intros self md Hmd. split.
      * by apply (committed_record_has_date w self).
      * by apply (metadata_source_data_url w).
    + intros am url m. destruct (create_metadata_date w am Hv) as [Hd Hu].
      split; [done|]. unfold fresh_forb. rewrite Hu. done.
  - intros s md s1 Hmd Hv.
    destruct (wb_create_metadata_dict_ok _ _ _ _ Hmd) as (_ & _ & _ & _ & _ & Hd).
    unfold date_accessed_of. rewrite Hd. by apply strptime_ymd_date_str.
Qed.

(** X1 in the calm world, run on 2 June 2021. *)
Lemma written_records_are_readable_witness :
  date_accessed_of
    (match metadata calm_world (mkFAODataset d_qcl sample_headers) with
     | Ok md => md
     | Raise _ => ∅
     end) = Some (mkdate 2021 6 2).
Proof.
  destruct (written_records_are_readable calm_world) as [Hfao _].
  destruct Hfao as [Hmd _]; [reflexivity|].
  apply (Hmd (mkFAODataset d_qcl sample_headers)). by_computation.
Defined.

(** ** More on the freshness check *)

Lemma later_trans_not_later (d m m' : date) :
  later d m -> ~ later m' m -> later d m'.
Proof. unfold later. lia. Qed.

Lemma first_without_date (docs : list (string * dict)) :
  ~ Forall (fun fd => is_Some (date_accessed_of (snd fd))) docs ->
  exists pre f doc post,
    docs = pre ++ (f, doc) :: post /\
    Forall (fun fd => is_Some (date_accessed_of (snd fd))) pre /\
    date_accessed_of doc = None.
Proof.
  induction docs as [|[f doc] docs IH]; intros Hn.
  - destruct Hn. by apply Forall_nil.
  - destruct (date_accessed_of doc) as [d|] eqn:Hd.
    + destruct IH as (pre & f' & doc' & post & -> & Hpre & Hdoc').
      { intros Hall. apply Hn. apply Forall_cons. split; [|done].
        cbn. rewrite Hd. by eexists. }
      exists ((f, doc) :: pre), f', doc', post. split; [done|]. split; [|done].
      apply Forall_cons. split; [|done]. cbn. rewrite Hd. by eexists.
    + exists [], f, doc, docs. split; [done|]. split; [by apply Forall_nil | done].
Qed.

Lemma verdict_true_iff url m s :
  Forall (fun fd => is_Some (date_accessed_of (snd fd))) (namespace_partition s) ->
  fst (is_dataset_already_up_to_date url m s) = Ok true <->
  exists f doc, (f, doc) ∈ namespace_partition s /\ fresh_for url m doc.
Proof.
  intros Hwf. rewrite (oracle_ok url m s Hwf). fold (namespace_partition s).
  cbn [fst]. split.
  - intros [= Hb]. apply existsb_exists in Hb as ([f doc] & Hin & Hf).
    exists f, doc. by rewrite list_elem_of_In, <- fresh_forb_spec.
  - intros (f & doc & Hin & Hf). f_equal. apply existsb_exists.
    exists (f, doc). by rewrite <- list_elem_of_In, fresh_forb_spec.
Qed.

(** X2.  What a run commits makes the next check skip the dataset, unless
    the file was modified on the day of the run or later.  The record that
    [metadata] builds on a day [D] is fresh for its own file exactly when
    [D] is strictly later than the modification date.  So once that record
    is in the partition, and the partition has no malformed record, the
    check returns true for every modification date before [D]; and when it
    is the only record, the check returns false for a file modified on [D]
    itself, so that a second run on the same day downloads it again. *)
Theorem committed_record_skips_next_check (w : world) (self : FAODataset)
    (md : dict) (m : date) :
  valid_date (clock w []) = true ->
  metadata w self = Ok md ->
  (fresh_for (source_data_url self) m md <-> later (clock w []) m) /\
  (forall s f,
      (f, md) ∈ namespace_partition s ->
      Forall (fun fd => is_Some (date_accessed_of (snd fd))) (namespace_partition s) ->
      later (clock w []) m ->
      fst (is_dataset_already_up_to_date (source_data_url self) m s) = Ok true) /\
  (forall s f,
      namespace_partition s = [(f, md)] ->
      fst (is_dataset_already_up_to_date (source_data_url self) m s)
      = Ok (date_gt (clock w []) m)).
Proof.
  intros Hv Hmd.
  pose proof (committed_record_has_date w self md Hv Hmd) as Hd.
  pose proof (metadata_source_data_url w self md Hmd) as Hu.
  assert (fresh_for (source_data_url self) m md <-> later (clock w []) m) as Hiff.
  { unfold fresh_for. rewrite Hd. split.
    - by intros (_ & d & [= <-] & Hl).
    - intros Hl. split; [done|]. by exists (clock w []). }
  split; [exact Hiff|]. split.
  - intros s f Hin Hwf Hl. apply verdict_true_iff; [done|].
    exists f, md. split; [done|]. by apply Hiff.
  - intros s f Hs.
    assert (Forall (fun fd => is_Some (date_accessed_of (snd fd)))
              (namespace_partition s)) as Hwf.
    { rewrite Hs. apply Forall_singleton. cbn. rewrite Hd. by eexists. }
    rewrite (oracle_ok _ m s Hwf). fold (namespace_partition s). rewrite Hs.
    cbn [fst existsb snd]. unfold fresh_forb. rewrite Hd, Hu.
    rewrite bool_decide_eq_true_2 by done. cbn. by rewrite orb_false_r.
Qed.

(** X2 in the calm world: the record of [QCL], built on 2 June 2021, for a
    file modified on 1 June and for one modified on 2 June. *)
Lemma committed_record_skips_next_check_witness :
  fst (is_dataset_already_up_to_date (FileLocation d_qcl) (mkdate 2021 6 1)
         (mkstate index_after_first_run [])) = Ok true /\
  (fresh_for (FileLocation d_qcl) (mkdate 2021 6 2)
     (match metadata calm_world (mkFAODataset d_qcl sample_headers) with
      | Ok md => md
      | Raise _ => ∅
      end) <-> later (mkdate 2021 6 2) (mkdate 2021 6 2)).
Proof.
  split.
  - destruct (committed_record_skips_next_check calm_world
                (mkFAODataset d_qcl sample_headers)
                (match metadata calm_world (mkFAODataset d_qcl sample_headers) with
                 | Ok md => md
                 | Raise _ => ∅
                 end) (mkdate 2021 6 1)) as (_ & Hin & _);
      [reflexivity | by_computation |].
    apply (Hin (mkstate index_after_first_run []) "faostat_qcl.json").
    + by_computation.
    + by_computation.
    + by_computation.
  - destruct (committed_record_skips_next_check calm_world
                (mkFAODataset d_qcl sample_headers)
                (match metadata calm_world (mkFAODataset d_qcl sample_headers) with
                 | Ok md => md
                 | Raise _ => ∅
                 end) (mkdate 2021 6 2)) as (Hiff & _);
      [reflexivity | by_computation |].
    exact Hiff.
Defined.

(** X3.  The freshness check returns a verdict exactly when every record of
    the partition carries a date it can read; otherwise it raises, and
    what it raises is the [ValueError] or the [TypeError] of [strptime],
    nothing else. *)
Theorem scan_returns_iff_all_dates_parse (url : string) (m : date) (s : state) :
  ((exists b, fst (is_dataset_already_up_to_date url m s) = Ok b) <->
   Forall (fun fd => is_Some (date_accessed_of (snd fd))) (namespace_partition s)) /\
  (forall e, fst (is_dataset_already_up_to_date url m s) = Raise e ->
             e = ValueError \/ e = TypeError).
Proof.
  destruct (decide (Forall (fun fd => is_Some (date_accessed_of (snd fd)))
                      (namespace_partition s))) as [Hwf | Hn].
  - rewrite (oracle_ok url m s Hwf). cbn [fst]. split; [|done].
    split; [done|]. intros _. by eexists.
  - destruct (first_without_date _ Hn) as (pre & f & doc & post & Hs & Hpre & Hdoc).
    rewrite (oracle_raise url m s pre f doc post Hs Hpre Hdoc). cbn [fst]. split.
    + split; [by intros [b Hb] | done].
    + intros e [= <-]. unfold malformed_error.
      destruct (doc !! "date_accessed") as [[]|]; auto.
Qed.

(** X4.  On partitions without malformed records the verdict depends on
    the set of documents only, not on their order or file names; it can
    only go from false to true when documents are added, and a verdict of
    true for one modification date holds for every date that is not
    later. *)
Theorem verdict_monotone (url : string) (m m' : date) (s s' : state) :
  Forall (fun fd => is_Some (date_accessed_of (snd fd))) (namespace_partition s) ->
  Forall (fun fd => is_Some (date_accessed_of (snd fd))) (namespace_partition s') ->
  (forall f doc, (f, doc) ∈ namespace_partition s ->
                 exists f', (f', doc) ∈ namespace_partition s') ->
  ~ later m' m ->
  fst (is_dataset_already_up_to_date url m s) = Ok true ->
  fst (is_dataset_already_up_to_date url m' s') = Ok true.
Proof.
  intros Hwf Hwf' Hsub Hm. rewrite !verdict_true_iff by done.
  intros (f & doc & Hin & Hu & d & Hd & Hl).
  destruct (Hsub f doc Hin) as [f' Hin'].
  exists f', doc. split; [done|]. split; [done|].
  exists d. split; [done|]. by eapply later_trans_not_later.
Qed.

(** X4 for the partition of two records read in the other order, under
    other file names, and for an earlier modification date. *)
Lemma verdict_monotone_witness :
  fst (is_dataset_already_up_to_date (FileLocation d_qcl) (mkdate 2021 5 31)
         (state_with [("b.json", doc_fresh); ("a.json", doc_same_day)]))
  = Ok true.
Proof.
  apply (verdict_monotone (FileLocation d_qcl) (mkdate 2021 6 1) (mkdate 2021 5 31)
           (state_with [("2021-06-01/faostat_qcl.json", doc_same_day);
                        ("2021-06-02/faostat_qcl.json", doc_fresh)])).
  - by_computation.
  - by_computation.
  - intros f doc Hin.
    apply list_elem_of_In in Hin. cbn in Hin.
    destruct Hin as [[= <- <-] | [[= <- <-] | []]].
    + exists "a.json". by_computation.
    + exists "b.json". by_computation.
  - by_computation.
  - by_computation.
Defined.

(** X5.  The freshness check only reads: whatever the partition holds, it
    leaves the index as it is, asks nothing from the network and hands
    nothing to the catalog; it lists the partition once.  It does not stop
    at the first match: it writes one log line for each fresh record of
    the part of the partition it has read, which is the whole partition
    when no record is malformed and the records before the first
    malformed one otherwise. *)
Theorem scan_is_read_only (url : string) (m : date) (s : state) :
  index (snd (is_dataset_already_up_to_date url m s)) = index s /\
  (exists pre post,
      namespace_partition s = pre ++ post /\
      trace (snd (is_dataset_already_up_to_date url m s))
      = trace s ++ IterDocs NAMESPACE (namespace_partition s)
                     :: map (fun fd => up_to_date_log (fst fd))
                          (List.filter (fun fd => fresh_forb url m (snd fd)) pre) /\
      Forall (fun fd => is_Some (date_accessed_of (snd fd))) pre /\
      (post = [] \/ exists f doc rest,
                      post = (f, doc) :: rest /\ date_accessed_of doc = None)) /\
  probes (trace (snd (is_dataset_already_up_to_date url m s))) = probes (trace s) /\
  downloads (trace (snd (is_dataset_already_up_to_date url m s))) = downloads (trace s) /\
  api_calls (trace (snd (is_dataset_already_up_to_date url m s))) = api_calls (trace s) /\
  records (trace (snd (is_dataset_already_up_to_date url m s))) = records (trace s).
Proof.
  assert (exists pre post,
             namespace_partition s = pre ++ post /\
             is_dataset_already_up_to_date url m s
             = (fst (is_dataset_already_up_to_date url m s),
                after s (IterDocs NAMESPACE (namespace_partition s)
                           :: scan_logs url m pre)) /\
             Forall (fun fd => is_Some (date_accessed_of (snd fd))) pre /\
             (post = [] \/ exists f doc rest,
                             post = (f, doc) :: rest /\ date_accessed_of doc = None))
    as (pre & post & Hs & Hrun & Hpre & Hpost).
  { destruct (decide (Forall (fun fd => is_Some (date_accessed_of (snd fd)))
                        (namespace_partition s))) as [Hwf | Hn].
    - exists (namespace_partition s), []. rewrite app_nil_r.
      split; [done|]. split; [|split; [done | by left]].
      by rewrite (oracle_ok url m s Hwf).
    - destruct (first_without_date _ Hn) as (pre & f & doc & post & Hs & Hpre & Hdoc).
      exists pre, ((f, doc) :: post). split; [done|].
      split; [|split; [done | right; by exists f, doc, post]].
      rewrite (oracle_raise url m s pre f doc post Hs Hpre Hdoc). cbn [fst].
      by rewrite Hs. }
  rewrite Hrun. cbn [snd after index trace].
  assert (Forall is_log (scan_logs url m pre)) as Hlogs.
  { unfold scan_logs. apply Forall_forall. intros ev Hin.
    apply list_elem_of_In, in_map_iff in Hin as (fd & <- & _). done. }
  destruct (logs_silent _ Hlogs) as (Hp & Ha & _ & Hrec & Hd & _).
  split; [done|]. split.
  - by exists pre, post.
  - rewrite probes_app, downloads_app, api_calls_app, records_app. cbn.
    fold (probes (scan_logs url m pre)) (downloads (scan_logs url m pre))
         (api_calls (scan_logs url m pre)) (records (scan_logs url m pre)).
    by rewrite Hp, Ha, Hrec, Hd, !app_nil_r.
Qed.

(** ** The snapshot of the API *)

Lemma CATEGORIES_NoDup : NoDup CATEGORIES.
Proof. by_computation. Qed.

Lemma INCLUDED_DATASETS_CODES_NoDup : NoDup INCLUDED_DATASETS_CODES.
Proof. by_computation. Qed.

(** What the inner loop stores: for each category of the list, the body
    of its response when the response was ok. *)
Lemma fetch_categories_content w domain categories :
  NoDup categories ->
  forall domain_meta s dm s',
    fetch_categories w domain categories domain_meta s = (Ok dm, s') ->
    exists evs,
      s' = after s evs /\
      (forall d c x, ApiGet d c x ∈ evs ->
                     d = domain /\ c ∈ categories /\ exists y, x = Ok y) /\
      (forall c json,
          dm !! c = Some json <->
          ApiGet domain c (Ok (Some json)) ∈ evs \/
          ((forall j, ApiGet domain c (Ok (Some j)) ∉ evs) /\
           domain_meta !! c = Some json)).
Proof.
  induction 1 as [|c0 cs Hnotin Hnd IH]; intros dm0 s dm s'.
  - cbn. intros [= <- <-]. exists []. unfold after. rewrite app_nil_r.
    destruct s. split; [done|]. split.
    + intros d c x Hin. by apply elem_of_nil in Hin.
    + intros c json. split.
      * intros Hc. right. split; [|done]. intros j Hin. by apply elem_of_nil in Hin.
      * intros [Hin | [_ Hc]]; [by apply elem_of_nil in Hin | done].
  - cbn [fetch_categories]. unfold bind, call. cbn [index trace].
    set (r := api_response w (trace s) domain c0).
    fold (after s [ApiGet domain c0 r]).
    destruct r as [x|e]; [|done].
    set (s1 := after s [ApiGet domain c0 (Ok x)]).
    set (dm1 := match x with Some json => <[c0:=json]> dm0 | None => dm0 end).
    intros Hrun.
    assert (fetch_categories w domain cs dm1 s1 = (Ok dm, s')) as Hrun'.
    { unfold dm1. by destruct x. }
    clear Hrun. destruct (IH _ _ _ _ Hrun') as (evs & -> & Hev & Hdm).
    exists (ApiGet domain c0 (Ok x) :: evs). split.
    { unfold s1, after. cbn [index trace]. by rewrite <- app_assoc. }
    assert (forall y, ApiGet domain c0 y ∉ evs) as Hfresh.
    { intros y Hin. by destruct (Hev _ _ _ Hin) as (_ & Hc & _). }
    split.
    + intros d c y [[= -> -> ->] | Hin]%elem_of_cons.
      * split; [done|]. split; [by left | by eexists].
      * destruct (Hev _ _ _ Hin) as (-> & Hc & Hy).
        split; [done|]. split; [by right | done].
    + intros c json. rewrite Hdm. destruct (decide (c = c0)) as [-> | Hne].
      * split.
        -- intros [Hin | [_ Hc]]; [by apply Hfresh in Hin|].
           unfold dm1 in Hc. destruct x as [j|].
           ++ rewrite lookup_insert_eq in Hc. injection Hc as ->. left. by left.
           ++ right. split; [|done].
              intros j [[=] | Hin]%elem_of_cons. by apply Hfresh in Hin.
        -- intros [[[= <-] | Hin]%elem_of_cons | [Hno Hc]].
           ++ right. split; [intros j Hin; by apply Hfresh in Hin|].
              unfold dm1. by rewrite lookup_insert_eq.
           ++ by apply Hfresh in Hin.
           ++ right. split; [intros j Hin; by apply Hfresh in Hin|].
              unfold dm1. destruct x as [j|]; [|done].
              destruct (Hno j). by left.
      * assert (dm1 !! c = dm0 !! c) as ->.
        { unfold dm1. destruct x; [by rewrite lookup_insert_ne | done]. }
        split.
        -- intros [Hin | [Hno Hc]]; [left; by right|].
           right. split; [|done].
           intros j [[=] | Hin]%elem_of_cons; [done | by apply (Hno j)].
        -- intros [[[=] | Hin]%elem_of_cons | [Hno Hc]]; [done | by left |].
           right. split; [|done]. intros j Hin. apply (Hno j). by right.
Qed.

(** What the outer loop stores: one entry for each domain of the list. *)
Lemma fetch_domains_content w domains :
  NoDup domains ->
  forall metadata_combined s mc s',
    fetch_domains w domains metadata_combined s = (Ok mc, s') ->
    exists evs,
      s' = after s evs /\
      Forall quiet evs /\
      (forall d c x, ApiGet d c x ∈ evs ->
                     d ∈ domains /\ c ∈ CATEGORIES /\ exists y, x = Ok y) /\
      (forall d, d ∈ domains ->
                 exists dm, mc !! d = Some dm /\
                   forall c json, dm !! c = Some json <->
                                  ApiGet d c (Ok (Some json)) ∈ evs) /\
      (forall d, d ∉ domains -> mc !! d = metadata_combined !! d).
Proof.
  induction 1 as [|d0 ds Hnotin Hnd IH]; intros mc0 s mc s'.
  - cbn. intros [= <- <-]. exists []. unfold after. rewrite app_nil_r.
    destruct s. split; [done|]. split; [by apply Forall_nil|]. split.
    + intros d c x Hin. by apply elem_of_nil in Hin.
    + split; [|done]. intros d Hin. by apply elem_of_nil in Hin.
  - cbn [fetch_domains]. unfold bind at 1, log, emit.
    fold (fetching_log d0). fold (after s [fetching_log d0]).
    unfold bind at 1.
    destruct (fetch_categories w d0 CATEGORIES ∅ (after s [fetching_log d0]))
      as [[dm0|e] s1] eqn:Hcat; [|done].
    destruct (fetch_categories_content w d0 CATEGORIES CATEGORIES_NoDup _ _ _ _ Hcat)
      as (evs1 & -> & Hev1 & Hdm0).
    destruct (fetch_categories_run w d0 CATEGORIES ∅ (after s [fetching_log d0]))
      as (r1 & evs1' & Hr1 & Hq1 & _).
    rewrite Hcat in Hr1. injection Hr1 as _ Hevs.
    apply app_inv_head in Hevs. subst evs1'.
    intros Hrun. destruct (IH _ _ _ _ Hrun) as (evs2 & -> & Hq2 & Hev2 & Hin2 & Hout2).
    exists (fetching_log d0 :: evs1 ++ evs2). split.
    { unfold after. cbn [index trace]. by rewrite <- !app_assoc. }
    split.
    { apply Forall_cons. split; [done|]. by apply Forall_app. }
    assert (forall d c x, ApiGet d c x ∈ fetching_log d0 :: evs1 ++ evs2 <->
                          ApiGet d c x ∈ evs1 \/ ApiGet d c x ∈ evs2) as Hmem.
    { intros d c x. rewrite elem_of_cons, elem_of_app. split; [|tauto].
      intros [Hlog | H]; [done | tauto]. }
    split; [|split].
    + intros d c x [Hin | Hin]%Hmem.
      * destruct (Hev1 _ _ _ Hin) as (-> & Hc & Hy).
        split; [by left | done].
      * destruct (Hev2 _ _ _ Hin) as (Hd & Hc & Hy).
        split; [by right | done].
    + intros d [-> | Hd]%elem_of_cons.
      * exists dm0. split.
        { by rewrite (Hout2 d0 Hnotin), lookup_insert_eq. }
        intros c json. rewrite Hdm0, Hmem, lookup_empty. split.
        -- intros [Hin | [_ ?]]; [by left | done].
        -- intros [Hin | Hin]; [by left|].
           by destruct (Hev2 _ _ _ Hin) as (? & _).
      * destruct (Hin2 d Hd) as (dm & Hmc & Hdm). exists dm. split; [done|].
        intros c json. rewrite Hdm, Hmem. split; [by right|].
        intros [Hin | Hin]; [|done].
        destruct (Hev1 _ _ _ Hin) as (-> & _). done.
    + intros d Hd. rewrite not_elem_of_cons in Hd. destruct Hd as [Hne Hd].
      by rewrite (Hout2 d Hd), lookup_insert_ne.
Qed.

(** X6.  The snapshot that [_fetch_additional_metadata] returns has one
    entry for each enabled code and for nothing else, and the entry of a
    domain holds, under a category, exactly the body of the ok response
    the API gave for that domain and category during the call: a response
    that is not ok leaves the category out, and no body is stored that the
    API did not send.  The call leaves the index as it is and hands
    nothing to the catalog. *)
Theorem snapshot_holds_the_ok_responses (w : world) (s s' : state)
    (mc : gmap string (gmap string string)) :
  _fetch_additional_metadata w s = (Ok mc, s') ->
  exists evs,
    s' = after s evs /\
    records evs = [] /\
    api_calls evs = all_pairs INCLUDED_DATASETS_CODES /\
    (forall d, is_Some (mc !! d) <-> d ∈ INCLUDED_DATASETS_CODES) /\
    (forall d c json,
        (exists dm, mc !! d = Some dm /\ dm !! c = Some json) <->
        ApiGet d c (Ok (Some json)) ∈ evs).
Proof.
  unfold _fetch_additional_metadata. intros Hrun.
  destruct (fetch_domains_content w _ INCLUDED_DATASETS_CODES_NoDup _ _ _ _ Hrun)
    as (evs & -> & Hq & Hev & Hin & Hout).
  exists evs. split; [done|]. split.
  { by apply quiet_silent. }
  split.
  { destruct (fetch_domains_run w INCLUDED_DATASETS_CODES ∅ s)
      as (r & evs' & Hr & _ & Hok & _).
    rewrite Hrun in Hr. injection Hr as <- Hevs.
    apply app_inv_head in Hevs. subst evs'. by eapply Hok. }
  split.
  - intros d. split.
    + intros Hd. destruct (decide (d ∈ INCLUDED_DATASETS_CODES)) as [|Hn]; [done|].
      rewrite (Hout d Hn), lookup_empty in Hd. by destruct Hd.
    + intros Hd. destruct (Hin d Hd) as (dm & -> & _). by eexists.
  - intros d c json. split.
    + intros (dm & Hmc & Hc).
      destruct (decide (d ∈ INCLUDED_DATASETS_CODES)) as [Hd|Hn].
      * destruct (Hin d Hd) as (dm' & Hmc' & Hdm). rewrite Hmc in Hmc'.
        injection Hmc' as <-. by apply Hdm.
      * by rewrite (Hout d Hn), lookup_empty in Hmc.
    + intros Hev'. destruct (Hev _ _ _ Hev') as (Hd & _).
      destruct (Hin d Hd) as (dm & Hmc & Hdm). exists dm. split; [done|].
      by apply Hdm.
Qed.

(** X6 where the API has no [itemsgroup] list: the snapshot has the areas
    of [qcl]. *)
Lemma snapshot_holds_the_ok_responses_witness :
  exists dm,
    (match fst (_fetch_additional_metadata patchy_api_world
                  (initial patchy_api_world)) with
     | Ok mc => mc
     | Raise _ => ∅
     end) !! "qcl" = Some dm /\
    dm !! "area" = Some "[qcl]".
Proof.
  destruct (snapshot_holds_the_ok_responses patchy_api_world
              (initial patchy_api_world)
              (snd (_fetch_additional_metadata patchy_api_world
                      (initial patchy_api_world)))
              (match fst (_fetch_additional_metadata patchy_api_world
                            (initial patchy_api_world)) with
               | Ok mc => mc
               | Raise _ => ∅
               end))
    as (evs & Hs & _ & _ & _ & Hcontent); [by_computation|].
  apply Hcontent.
  assert (evs = trace (snd (_fetch_additional_metadata patchy_api_world
                              (initial patchy_api_world)))) as ->.
  { rewrite Hs. unfold after, initial. cbn [trace]. reflexivity. }
  by_computation.
Defined.

(** A request that raises ends the inner loop at once. *)
Lemma fetch_categories_raise w domain categories :
  forall domain_meta s e s',
    fetch_categories w domain categories domain_meta s = (Raise e, s') ->
    exists pre c rest,
      s' = after s (pre ++ [ApiGet domain c (Raise e)]) /\
      Forall quiet pre /\
      api_response w (trace s ++ pre) domain c = Raise e /\
      map (pair domain) categories = api_calls pre ++ (domain, c) :: rest.
Proof.
  induction categories as [|c0 cs IH]; intros dm0 s e s'; [done|].
  cbn [fetch_categories]. unfold bind, call. cbn [index trace].
  set (r := api_response w (trace s) domain c0).
  fold (after s [ApiGet domain c0 r]).
  destruct r as [x|e0] eqn:Hr.
  - set (s1 := after s [ApiGet domain c0 (Ok x)]).
    set (dm1 := match x with Some json => <[c0:=json]> dm0 | None => dm0 end).
    intros Hrun.
    assert (fetch_categories w domain cs dm1 s1 = (Raise e, s')) as Hrun'.
    { unfold dm1. by destruct x. }
    destruct (IH _ _ _ _ Hrun') as (pre & c & rest & -> & Hq & Hresp & Hcalls).
    exists (ApiGet domain c0 (Ok x) :: pre), c, rest. split_and!.
    + unfold s1, after. cbn [index trace]. f_equal.
      rewrite <- ?app_assoc. cbn [app]. by rewrite <- ?app_assoc.
    + by apply Forall_cons.
    + unfold s1, after in Hresp. cbn [trace] in Hresp.
      rewrite <- ?app_assoc in Hresp. cbn [app] in Hresp.
      by rewrite <- ?app_assoc in Hresp.
    + cbn. by rewrite Hcalls.
  - intros [= <- <-]. exists [], c0, (map (pair domain) cs). split_and!.
    + done.
    + by apply Forall_nil.
    + by rewrite app_nil_r.
    + done.
Qed.

Lemma fetch_domains_raise w domains :
  forall metadata_combined s e s',
    fetch_domains w domains metadata_combined s = (Raise e, s') ->
    exists pre d c rest,
      s' = after s (pre ++ [ApiGet d c (Raise e)]) /\
      Forall quiet pre /\
      api_response w (trace s ++ pre) d c = Raise e /\
      all_pairs domains = api_calls pre ++ (d, c) :: rest.
Proof.
  induction domains as [|d0 ds IH]; intros mc0 s e s'; [done|].
  cbn [fetch_domains]. unfold bind at 1, log, emit.
  fold (fetching_log d0). fold (after s [fetching_log d0]).
  unfold bind at 1.
  destruct (fetch_categories w d0 CATEGORIES ∅ (after s [fetching_log d0]))
    as [[dm0|e0] s1] eqn:Hcat.
  - destruct (fetch_categories_run w d0 CATEGORIES ∅ (after s [fetching_log d0]))
      as (r1 & evs1 & Hr1 & Hq1 & Hok1 & _).
    rewrite Hcat in Hr1. injection Hr1 as Hr1 Hs1. subst r1 s1.
    intros Hrun.
    destruct (IH _ _ _ _ Hrun) as (pre & d & c & rest & -> & Hq & Hresp & Hcalls).
    exists (fetching_log d0 :: evs1 ++ pre), d, c, rest. split_and!.
    + unfold after. cbn [index trace]. f_equal.
      rewrite <- ?app_assoc. cbn [app]. by rewrite <- ?app_assoc.
    + apply Forall_cons. split; [done|]. by apply Forall_app.
    + unfold after in Hresp. cbn [trace] in Hresp.
      rewrite <- ?app_assoc in Hresp. cbn [app] in Hresp.
      by rewrite <- ?app_assoc in Hresp.
    + unfold all_pairs. cbn [flat_map]. fold (all_pairs ds). rewrite Hcalls.
      cbn [api_calls flat_map fetching_log app]. fold (api_calls (evs1 ++ pre)).
      rewrite api_calls_app, (Hok1 dm0 eq_refl). by rewrite <- app_assoc.
  - intros [= <- <-].
    destruct (fetch_categories_raise _ _ _ _ _ _ _ Hcat)
      as (pre & c & rest & -> & Hq & Hresp & Hcalls).
    exists (fetching_log d0 :: pre), d0, c, (rest ++ all_pairs ds). split_and!.
    + unfold after. cbn [index trace]. f_equal.
      rewrite <- ?app_assoc. cbn [app]. by rewrite <- ?app_assoc.
    + by apply Forall_cons.
    + unfold after in Hresp. cbn [trace] in Hresp.
      rewrite <- ?app_assoc in Hresp. cbn [app] in Hresp.
      by rewrite <- ?app_assoc in Hresp.
    + unfold all_pairs. cbn [flat_map]. fold (all_pairs ds). rewrite Hcalls.
      cbn [api_calls flat_map fetching_log app]. fold (api_calls pre).
      by rewrite <- app_assoc.
Qed.

(** X7.  A request to the API that raises ends the refresh of the
    auxiliary metadata: [to_walden] raises the same exception right after
    that request, having asked the pairs before it in the order of the two
    loops and none after it; the snapshot taken so far is dropped, nothing
    is handed to [add_to_catalog] and the index stays as it was. *)
Theorem failed_request_drops_snapshot (w : world) (am : FAOAdditionalMetadata)
    (s : state) (e : exn) :
  fst (_fetch_additional_metadata w s) = Raise e ->
  exists pre d c rest,
    FAOAdditionalMetadata_to_walden w am s
    = (Raise e, after s (pre ++ [ApiGet d c (Raise e)])) /\
    api_response w (trace s ++ pre) d c = Raise e /\
    all_pairs INCLUDED_DATASETS_CODES = api_calls pre ++ (d, c) :: rest /\
    records (pre ++ [ApiGet d c (Raise e)]) = [] /\
    index (snd (FAOAdditionalMetadata_to_walden w am s)) = index s.
Proof.
  intros Hfst. unfold FAOAdditionalMetadata_to_walden, bind.
  destruct (_fetch_additional_metadata w s) as [r s1] eqn:Hrun.
  cbn [fst] in Hfst. subst r. cbn [snd].
  destruct (fetch_domains_raise _ _ _ _ _ _ Hrun)
    as (pre & d & c & rest & -> & Hq & Hresp & Hcalls).
  exists pre, d, c, rest. split_and!; try done.
  apply quiet_silent. apply Forall_app. split; [done|]. by apply Forall_singleton.
Qed.

(** X7 where the API cannot be reached for the areas of [ef]: the refresh
    ends with the connection error. *)
Lemma failed_request_drops_snapshot_witness :
  fst (FAOAdditionalMetadata_to_walden failing_api_world
         (mkFAOAdditionalMetadata (mkdate 2021 6 2) 2021)
         (initial failing_api_world))
  = Raise connection_error.
Proof.
  destruct (failed_request_drops_snapshot failing_api_world
              (mkFAOAdditionalMetadata (mkdate 2021 6 2) 2021)
              (initial failing_api_world) connection_error)
    as (pre & d & c & rest & Hrun & _); [by_computation|].
  by rewrite Hrun.
Defined.

(** ** The record of a dataset *)









(** ** Short names *)

Lemma short_name_inj_lower (a b : FAODataset) :
  short_name a = short_name b ->
  lower (DatasetCode (_dataset_metadata a)) = lower (DatasetCode (_dataset_metadata b)).
Proof. unfold short_name. cbv [String.append NAMESPACE]. by intros [= ->]. Qed.

(** X9.  The short name of a dataset record depends on the dataset code
    up to the case of its letters only: two entries get the same short
    name exactly when their codes differ in case at most.  It is written
    in lower case, it is [faostat_] followed by the code that was found in
    the list of enabled codes, and for an enabled entry it is never the
    short name of the auxiliary record. *)
Theorem short_name_identifies_code (a b : FAODataset) :
  (short_name a = short_name b <->
   lower (DatasetCode (_dataset_metadata a))
   = lower (DatasetCode (_dataset_metadata b))) /\
  lower (short_name a) = short_name a /\
  (listed (_dataset_metadata a) <->
   exists code, code ∈ INCLUDED_DATASETS_CODES /\
                short_name a = "faostat_" +:+ code) /\
  (listed (_dataset_metadata a) -> short_name a <> NAMESPACE +:+ "_metadata").
Proof.
  split; [|split; [|split]].
  - split; [apply short_name_inj_lower|]. unfold short_name. by intros ->.
  - unfold short_name. by rewrite !lower_app, lower_idemp.
  - unfold listed, short_name. split.
    + intros Hl. by exists (lower (DatasetCode (_dataset_metadata a))).
    + intros (code & Hc & Heq). cbv [String.append NAMESPACE] in Heq.
      injection Heq as ->. done.
  - unfold listed, short_name. intros Hl. cbv [String.append NAMESPACE].
    intros [= Heq]. rewrite Heq in Hl. revert Hl. by_computation.
Qed.

(** X9 for [QCL] and [qcl]. *)
Lemma short_name_identifies_code_witness :
  short_name (mkFAODataset d_qcl ∅)
  = short_name (mkFAODataset
                  (mkdescriptor "qcl" "" "" "" "https://fao.example/other.zip")
                  sample_headers) /\
  short_name (mkFAODataset d_qcl ∅) <> NAMESPACE +:+ "_metadata".
Proof.
  split.
  - by apply short_name_identifies_code.
  - apply (short_name_identifies_code (mkFAODataset d_qcl ∅)
             (mkFAODataset d_qcl ∅)).
    by_computation.
Defined.

(** ** One turn of the loop *)

Lemma metadata_unreadable_date w self :
  fromisoformat (DateUpdate (_dataset_metadata self)) = None ->
  metadata w self = Raise ValueError.
Proof.
  intros H. unfold metadata, publication_year, publication_date, rbind.
  by rewrite H.
Qed.

Lemma oracle_keeps_index url m s r s2 :
  is_dataset_already_up_to_date url m s = (r, s2) ->
  index s2 = index s /\
  exists evs, trace s2 = trace s ++ evs /\ downloads evs = [] /\ records evs = [].
Proof.
  intros Hrun. destruct (oracle_run url m s) as (r' & logs & Ho & Hlogs & _).
  rewrite Hrun in Ho. injection Ho as _ ->. split; [done|].
  eexists. split; [done|].
  destruct (logs_silent _ Hlogs) as (_ & _ & _ & Hr & Hd & _).
  cbn [downloads records flat_map app].
  fold (downloads logs) (records logs). by rewrite Hr, Hd.
Qed.

(** [to_walden] and a turn of the loop, call by call. *)
Lemma to_walden_eq w self s :
  to_walden w self s
  = match download_response w (trace s) (source_data_url self) with
    | Raise e => (Raise e, after s [Download (source_data_url self) (Raise e)])
    | Ok u =>
        match metadata w self with
        | Raise e => (Raise e, after s [Download (source_data_url self) (Ok u)])
        | Ok md =>
            let '(rc, idx) :=
              add_to_catalog_response w
                (trace s ++ [Download (source_data_url self) (Ok u)]) md (index s) in
            (rc, mkstate idx (trace s ++ [Download (source_data_url self) (Ok u);
                                          AddToCatalog md rc]))
        end
    end.
Proof.
  unfold to_walden, bind at 1, files_download, call. cbn [index trace].
  destruct (download_response w (trace s) (source_data_url self)) as [u|e];
    [|done].
  unfold bind at 1, lift. destruct (metadata w self) as [md|e]; [|done].
  unfold add_to_catalog. cbn [index trace].
  destruct (add_to_catalog_response w _ md (index s)) as [rc idx].
  by rewrite <- app_assoc.
Qed.

Lemma main_body_eq w any d s :
  main_body w any d s
  = if bool_decide (listed d) then
      match head_response w (trace s) (FileLocation d) with
      | Raise e => (Raise e, after s [Head (FileLocation d) (Raise e)])
      | Ok hs =>
          match modification_date w (mkFAODataset d hs) with
          | Raise e => (Raise e, after s [Head (FileLocation d) (Ok hs)])
          | Ok mdate =>
              match is_dataset_already_up_to_date (FileLocation d) mdate
                      (after s [Head (FileLocation d) (Ok hs)]) with
              | (Raise e, s2) => (Raise e, s2)
              | (Ok true, s2) => (Ok any, s2)
              | (Ok false, s2) =>
                  match to_walden w (mkFAODataset d hs) s2 with
                  | (Ok _, s3) => (Ok true, s3)
                  | (Raise e, s3) => (Raise e, s3)
                  end
              end
          end
      end
    else (Ok any, s).
Proof.
  unfold main_body. destruct (decide (listed d)) as [Hl|Hl].
  2: { rewrite (bool_decide_eq_false_2 (listed d)) by done.
       unfold listed in Hl. by rewrite bool_decide_eq_false_2 by done. }
  rewrite (bool_decide_eq_true_2 (listed d)) by done.
  unfold listed in Hl. rewrite bool_decide_eq_true_2 by done.
  unfold bind at 1, FAODataset_init, bind at 1, _load_dataset_server_metadata,
    call, source_data_url, ret. cbn [_dataset_metadata index trace].
  destruct (head_response w (trace s) (FileLocation d)) as [hs|e]; [|done].
  unfold bind at 1, lift.
  destruct (modification_date w (mkFAODataset d hs)) as [mdate|e]; [|done].
  unfold bind at 1. fold (after s [Head (FileLocation d) (Ok hs)]).
  destruct (is_dataset_already_up_to_date _ _ _) as [[[|]|e] s2]; [done | | done].
  unfold bind at 1. by destruct (to_walden w _ s2) as [[[]|e] s3].
Qed.

(** X10.  Until a download is attempted, a turn of the loop reads the
    dataset code and the file location of the catalog entry and nothing
    else: an entry with another name, description or update date, however
    malformed, goes through the same turn, whether it ends with a skip or
    with an exception of the probe or of the scan. *)
Theorem skipped_entry_text_is_not_read (w : world) (any : bool)
    (d d' : descriptor) (s : state) :
  DatasetCode d' = DatasetCode d ->
  FileLocation d' = FileLocation d ->
  downloads (trace (snd (main_body w any d s))) = downloads (trace s) ->
  main_body w any d' s = main_body w any d s.
Proof.
  intros Hcode Hloc. rewrite !main_body_eq.
  assert (bool_decide (listed d') = bool_decide (listed d)) as ->.
  { apply bool_decide_ext. unfold listed. by rewrite Hcode. }
  rewrite Hloc. case_bool_decide as Hl; [|done].
  destruct (head_response w (trace s) (FileLocation d)) as [hs|e]; [|done].
  change (modification_date w (mkFAODataset d' hs))
    with (modification_date w (mkFAODataset d hs)).
  destruct (modification_date w (mkFAODataset d hs)) as [mdate|e]; [|done].
  destruct (is_dataset_already_up_to_date _ _ _) as [[[|]|e] s2] eqn:Ho;
    [done | | done].
  destruct (oracle_keeps_index _ _ _ _ _ Ho) as (_ & evs & Ht & Hin & _).
  cbn [after trace] in Ht.
  intros Hno. exfalso.
  assert (forall x rest,
             downloads (trace s2 ++ Download (FileLocation d) x :: rest)
             <> downloads (trace s)) as Hne.
  { intros x rest Heq. rewrite Ht, !downloads_app in Heq.
    rewrite <- (app_nil_r (downloads (trace s))) in Heq at 2.
    rewrite <- !app_assoc in Heq. apply app_inv_head in Heq.
    cbn [downloads flat_map app] in Heq. fold (downloads evs) in Heq.
    rewrite Hin in Heq. done. }
  rewrite to_walden_eq in Hno. unfold source_data_url in Hno.
  cbn [_dataset_metadata] in Hno.
  destruct (download_response w (trace s2) (FileLocation d)) as [[]|e].
  - destruct (metadata w (mkFAODataset d hs)) as [md|e].
    + destruct (add_to_catalog_response w _ md (index s2)) as [[[]|e] idx];
        cbn [snd trace] in Hno; by apply Hne in Hno.
    + cbn [snd trace after] in Hno. by apply Hne in Hno.
  - cbn [snd trace after] in Hno. by apply Hne in Hno.
Qed.

(** X10 in a state where [QCL] is up to date: the turn for an entry with
    the same code and file but without a readable update date is the turn
    for [QCL]. *)
Lemma skipped_entry_text_is_not_read_witness :
  main_body calm_world false
    (mkdescriptor "QCL" "" "" "no date" (FileLocation d_qcl))
    (mkstate index_after_first_run [])
  = main_body calm_world false d_qcl (mkstate index_after_first_run []).
Proof.
  apply skipped_entry_text_is_not_read.
  - reflexivity.
  - reflexivity.
  - by_computation.
Defined.

(** X11.  The update date of a catalog entry is read only when its record
    is built, after the download.  A turn of the loop for an entry whose
    [DateUpdate] cannot be read hands nothing to the catalog and leaves
    the index as it is; it either skips the entry or raises; and when it
    gets as far as a download, the download is the last thing it does: the
    file is fetched, then [ValueError] is raised (or the exception of the
    download itself). *)
Theorem unreadable_update_date_fails_after_download (w : world) (any : bool)
    (d : descriptor) (s : state) (r : result bool) (s' : state) :
  fromisoformat (DateUpdate d) = None ->
  main_body w any d s = (r, s') ->
  index s' = index s /\
  records (trace s') = records (trace s) /\
  (r = Ok any \/ exists e, r = Raise e) /\
  (downloads (trace s') <> downloads (trace s) ->
   exists t x,
     trace s' = trace s ++ t ++ [Download (FileLocation d) x] /\
     downloads t = [] /\
     r = match x with Ok _ => Raise ValueError | Raise e => Raise e end).
Proof.
  intros Hbad. rewrite main_body_eq.
  case_bool_decide as Hl.
  2: { intros [= <- <-]. split_and!; [done | done | by left | done]. }
  destruct (head_response w (trace s) (FileLocation d)) as [hs|e].
  2: { intros [= <- <-]. cbn [after index trace].
       rewrite records_app, downloads_app, !app_nil_r.
       split_and!; [done | done | by right; eexists | done]. }
  destruct (modification_date w (mkFAODataset d hs)) as [mdate|e].
  2: { intros [= <- <-]. cbn [after index trace].
       rewrite records_app, downloads_app, !app_nil_r.
       split_and!; [done | done | by right; eexists | done]. }
  destruct (is_dataset_already_up_to_date _ _ _) as [ro s2] eqn:Ho.
  destruct (oracle_keeps_index _ _ _ _ _ Ho) as (Hidx & evs & Ht & Hd & Hr).
  cbn [after index trace] in Hidx, Ht.
  assert (records (trace s2) = records (trace s)) as Hrec.
  { by rewrite Ht, !records_app, Hr, !app_nil_r. }
  assert (downloads (trace s2) = downloads (trace s)) as Hdl.
  { by rewrite Ht, !downloads_app, Hd, !app_nil_r. }
  destruct ro as [[|]|e].
  - intros [= <- <-]. split_and!; [done | done | by left | done].
  - rewrite to_walden_eq, (metadata_unreadable_date w) by done.
    unfold source_data_url. cbn [_dataset_metadata].
    destruct (download_response w (trace s2) (FileLocation d)) as [[]|e];
      intros [= <- <-]; cbn [after index trace];
      rewrite records_app, Hrec, app_nil_r;
      (split_and!; [done | done | by right; eexists |]); intros _;
      eexists ([Head (FileLocation d) (Ok hs)] ++ evs), _;
      (split_and!; [by rewrite Ht, <- !app_assoc | by rewrite downloads_app, Hd
                   | done]).
  - intros [= <- <-]. split_and!; [done | done | by right; eexists | done].
Qed.

(** X11 for an entry of the calm world whose update date is free text:
    the turn ends with the download of the file. *)
Lemma unreadable_update_date_fails_after_download_witness :
  exists t x,
    trace (snd (main_body calm_world false
                  (mkdescriptor "QCL" "Production" "Crops." "March 2021"
                     (FileLocation d_qcl)) (initial calm_world)))
    = trace (initial calm_world) ++ t ++ [Download (FileLocation d_qcl) x] /\
    downloads t = [] /\
    fst (main_body calm_world false
           (mkdescriptor "QCL" "Production" "Crops." "March 2021"
              (FileLocation d_qcl)) (initial calm_world))
    = match x with Ok _ => Raise ValueError | Raise e => Raise e end.
Proof.
  destruct (unreadable_update_date_fails_after_download calm_world false
              (mkdescriptor "QCL" "Production" "Crops." "March 2021"
                 (FileLocation d_qcl)) (initial calm_world)
              (fst (main_body calm_world false
                      (mkdescriptor "QCL" "Production" "Crops." "March 2021"
                         (FileLocation d_qcl)) (initial calm_world)))
              (snd (main_body calm_world false
                      (mkdescriptor "QCL" "Production" "Crops." "March 2021"
                         (FileLocation d_qcl)) (initial calm_world))))
    as (_ & _ & _ & Hdl).
  - by_computation.
  - by destruct (main_body _ _ _ _).
  - apply Hdl. by_computation.
Defined.

(** ** The World Bank script: the check of the description *)

Lemma append_nil_r (s : string) : s +:+ "" = s.
Proof.
  induction s as [|c s IH]; [done|].
  cbv [String.append]. fold String.append. by rewrite IH.
Qed.

Lemma append_cons (c : ascii) (s t : string) :
  String c s +:+ t = String c (s +:+ t).
Proof. reflexivity. Qed.

Lemma append_assoc (s t u : string) : (s +:+ t) +:+ u = s +:+ t +:+ u.
Proof.
  induction s as [|c s IH]; [done|]. by rewrite !append_cons, IH.
Qed.

Lemma prefix_spec (needle : string) :
  forall haystack,
    String.prefix needle haystack = true <->
    exists post, haystack = needle +:+ post.
Proof.
  induction needle as [|a n IH]; intros h.
  - destruct h; (split; [intros _; by eexists | done]).
  - destruct h as [|b h].
    + split; [done|]. by intros [post Hp].
    + cbn [String.prefix]. destruct (ascii_dec a b) as [->|Hne].
      * rewrite IH. split.
        -- intros [post ->]. by exists post.
        -- intros [post Hp]. rewrite append_cons in Hp. injection Hp as ->.
           by exists post.
      * split; [done|]. intros [post Hp]. rewrite append_cons in Hp.
        by injection Hp as <-.
Qed.

(** [needle in haystack] finds the needle exactly when it stands somewhere
    in the haystack. *)
Lemma contains_spec (needle haystack : string) :
  contains needle haystack = true <->
  exists pre post, haystack = pre +:+ needle +:+ post.
Proof.
  induction haystack as [|c h IH].
  - cbn [contains]. rewrite orb_false_r, prefix_spec. split.
    + intros [post Hp]. by exists "", post.
    + intros (pre & post & Hp). destruct pre; [by exists post | done].
  - cbn [contains]. rewrite orb_true_iff, prefix_spec, IH. split.
    + intros [[post Hp] | (pre & post & ->)].
      * by exists "", post.
      * by exists (String c pre), post.
    + intros (pre & post & Hp). destruct pre as [|c' pre].
      * left. by exists post.
      * right. rewrite append_cons in Hp. injection Hp as _ ->.
        by exists pre, post.
Qed.

Lemma join_split (sep : string) (pre : list string) (x : string)
    (post : list string) :
  exists before after_x,
    wb_income_groups.join sep (pre ++ x :: post) = before +:+ x +:+ after_x.
Proof.
  induction pre as [|p pre IH].
  - destruct post as [|q post].
    + exists "", "". by rewrite append_nil_r.
    + by exists "", (sep +:+ wb_income_groups.join sep (q :: post)).
  - destruct IH as (before & after_x & IH).
    exists (p +:+ sep +:+ before), after_x.
    change ((p :: pre) ++ x :: post) with (p :: (pre ++ x :: post)).
    destruct (pre ++ x :: post) as [|y l] eqn:Hl.
    + by destruct pre.
    + change (wb_income_groups.join sep (p :: y :: l))
        with (p +:+ sep +:+ wb_income_groups.join sep (y :: l)).
      by rewrite IH, !append_assoc.
Qed.

Lemma check_date_ok_of_description (md : dict) (description : string) :
  md !! "description" = Some (VStr description) ->
  contains wb_income_groups.SENTENCE description = true ->
  wb_income_groups.check_date md = Ok tt.
Proof.
  intros Hd Hc. by rewrite (wb_check_date_description md description Hd), Hc.
Qed.

(** X12.  [check_date] passes exactly when the description of the record
    is a string in which the sentence on the income classifications of
    July 2021 stands word for word; it raises [ValueError] when the
    description is a string without the sentence, [KeyError] when the
    record has no description and [TypeError] when the description is not
    a string.  It reads no other field of the record. *)
Theorem check_date_passes_iff_sentence (md : dict) :
  (wb_income_groups.check_date md = Ok tt <->
   exists pre post,
     md !! "description"
     = Some (VStr (pre +:+ wb_income_groups.SENTENCE +:+ post))) /\
  (wb_income_groups.check_date md = Raise ValueError <->
   exists description,
     md !! "description" = Some (VStr description) /\
     forall pre post, description <> pre +:+ wb_income_groups.SENTENCE +:+ post) /\
  (wb_income_groups.check_date md = Raise (KeyError "description") <->
   md !! "description" = None) /\
  (wb_income_groups.check_date md = Raise TypeError <->
   exists v, md !! "description" = Some v /\ forall s, v <> VStr s) /\
  (forall md' : dict,
      md' !! "description" = md !! "description" ->
      wb_income_groups.check_date md' = wb_income_groups.check_date md).
Proof.
  unfold wb_income_groups.check_date, wb_income_groups.getitem_str, rbind.
  split_and!.
  - destruct (md !! "description") as [[descr| |]|] eqn:Hd;
      try (split; [done | by intros (? & ? & ?)]).
    destruct (contains wb_income_groups.SENTENCE descr) eqn:Hc; cbn [negb].
    + apply contains_spec in Hc as (pre & post & ->).
      split; [intros _; by exists pre, post | done].
    + split; [done|]. intros (pre & post & [= ->]).
      assert (contains wb_income_groups.SENTENCE
                (pre +:+ wb_income_groups.SENTENCE +:+ post) = true) as Hc'
        by (apply contains_spec; by exists pre, post).
      by rewrite Hc in Hc'.
  - destruct (md !! "description") as [[descr| |]|] eqn:Hd;
      try (split; [done | by intros (? & ? & ?)]).
    destruct (contains wb_income_groups.SENTENCE descr) eqn:Hc; cbn [negb].
    + apply contains_spec in Hc as (pre & post & ->).
      split; [done|]. intros (descr & [= <-] & Hno). by destruct (Hno pre post).
    + split; [|done]. intros _. exists descr. split; [done|].
      intros pre post ->.
      assert (contains wb_income_groups.SENTENCE
                (pre +:+ wb_income_groups.SENTENCE +:+ post) = true) as Hc'
        by (apply contains_spec; by exists pre, post).
      by rewrite Hc in Hc'.
  - destruct (md !! "description") as [[descr| |]|]; try done.
    by destruct (negb _).
  - destruct (md !! "description") as [[descr| |]|].
    + split; [by destruct (negb _)|]. intros (v & [= <-] & Hv). by destruct (Hv descr).
    + split; [|done]. intros _. eexists. split; [done|]. done.
    + split; [|done]. intros _. eexists. split; [done|]. done.
    + split; [done|]. by intros (v & ? & _).
  - by intros md' ->.
Qed.

(** ** The World Bank script: a run *)

(** X13.  When the Notes sheet can be read, one of its cells holds the
    sentence that [check_date] looks for, the normalisation leaves the
    joined text as it is and the download goes through, then [main] reads
    the sheet, downloads the file of [SOURCE_DATA_URL] and hands to
    [add_to_catalog] a record of the namespace [wb] whose description is
    the cells joined by blank lines; the result of [main] is the result of
    [add_to_catalog]. *)
Theorem wb_main_hands_record (w : world) (s : state)
    (pre : list string) (x : string) (post : list string) :
  let notes := pre ++ x :: post in
  let text := wb_income_groups.join
                (wb_income_groups.NEWLINE +:+ wb_income_groups.NEWLINE) notes in
  let s1 := after s [ReadExcel wb_income_groups.SOURCE_DATA_URL "Notes" (Ok notes)] in
  read_excel_response w (trace s) wb_income_groups.SOURCE_DATA_URL "Notes"
  = Ok notes ->
  contains wb_income_groups.SENTENCE x = true ->
  normalize_NFKD w text = text ->
  download_response w (trace s1) wb_income_groups.SOURCE_DATA_URL = Ok tt ->
  exists md rc idx,
    wb_income_groups.main w s
    = (rc, mkstate idx
             (trace s ++
              [ReadExcel wb_income_groups.SOURCE_DATA_URL "Notes" (Ok notes);
               Download wb_income_groups.SOURCE_DATA_URL (Ok tt);
               AddToCatalog md rc])) /\
    add_to_catalog_response w
      (trace s1 ++ [Download wb_income_groups.SOURCE_DATA_URL (Ok tt)])
      md (index s) = (rc, idx) /\
    md !! "description" = Some (VStr text) /\
    md !! "namespace" = Some (VStr "wb") /\
    md !! "date_accessed" = Some (VStr (date_str (clock w (trace s1)))).
Proof.
  intros notes text s1 Hread Hx Hnfkd Hdl.
  destruct (wb_income_groups.create_metadata_dict w s) as [r0 s0] eqn:Hmd.
  assert (exists md, r0 = Ok md /\ s0 = s1 /\
                     md !! "namespace" = Some (VStr "wb")) as (md & -> & -> & Hns).
  { revert Hmd.
    unfold wb_income_groups.create_metadata_dict, bind at 1,
      wb_income_groups.load_metadata_description, bind at 1, call.
    rewrite Hread. unfold ret, bind, wb_income_groups.date_accessed_now.
    intros [= <- <-]. eexists. split; [done|]. split; [done|].
    generalize (normalize_NFKD w). intros f. generalize (clock w). intros c.
    done. }
  destruct (wb_create_metadata_dict_ok _ _ _ _ Hmd)
    as (notes' & _ & Hdescr & Hurl & _ & Hdate).
  assert (md !! "description" = Some (VStr text)) as Hdescr'.
  { revert Hmd.
    unfold wb_income_groups.create_metadata_dict, bind at 1,
      wb_income_groups.load_metadata_description, bind at 1, call.
    rewrite Hread. unfold ret, bind, wb_income_groups.date_accessed_now.
    intros [= <-]. fold notes. fold text. rewrite Hnfkd.
    generalize (clock w). intros c. done. }
  assert (wb_income_groups.check_date md = Ok tt) as Hcheck.
  { apply check_date_ok_of_description with text; [done|].
    unfold text, notes.
    destruct (join_split (wb_income_groups.NEWLINE +:+ wb_income_groups.NEWLINE)
                pre x post) as (before & after_x & ->).
    apply contains_spec in Hx as (a & b & ->).
    apply contains_spec. exists (before +:+ a), (b +:+ after_x).
    by rewrite !append_assoc. }
  pose proof (wb_main_run w s) as Hrun. rewrite Hmd, Hcheck, Hdl in Hrun.
  destruct Hrun as (rc & idx & Hrun).
  exists md, rc, idx. split; [|split; [|done]].
  - rewrite Hrun. unfold s1, after. cbn [trace]. by rewrite <- app_assoc.
  - revert Hrun. unfold wb_income_groups.main, bind at 1. rewrite Hmd.
    unfold bind at 1, lift. rewrite Hcheck. unfold bind at 1.
    unfold wb_income_groups.getitem_str. rewrite Hurl.
    unfold bind at 1, files_download, call. rewrite Hdl.
    unfold add_to_catalog. intros Hrun. cbn [index trace] in Hrun.
    match type of Hrun with
    | context [add_to_catalog_response ?a ?b ?c ?d] =>
        change (add_to_catalog_response a b c d)
          with (add_to_catalog_response w
                  (trace s1 ++ [Download wb_income_groups.SOURCE_DATA_URL (Ok tt)])
                  md (index s)) in Hrun
    end.
    destruct (add_to_catalog_response w _ md (index s)) as [rc' idx'].
    by injection Hrun as -> -> _.
Qed.

(** X13 in the calm world, whose Notes sheet has the sentence in its
    second cell. *)
Lemma wb_main_hands_record_witness :
  exists md rc idx,
    wb_income_groups.main calm_world (initial calm_world)
    = (rc, mkstate idx
             ([] ++
              [ReadExcel wb_income_groups.SOURCE_DATA_URL "Notes" (Ok sample_notes);
               Download wb_income_groups.SOURCE_DATA_URL (Ok tt);
               AddToCatalog md rc])) /\
    md !! "namespace" = Some (VStr "wb").
Proof.
  pose proof (wb_main_hands_record calm_world (initial calm_world)
                ["This table classifies all World Bank member countries."]
                "Income classifications set on 1 July 2021 remain in effect until 1 July 2022."
                []) as H.
  cbv zeta in H.
  destruct H as (md & rc & idx & Hrun & _ & _ & Hns & _).
  - reflexivity.
  - by_computation.
  - reflexivity.
  - reflexivity.
  - by exists md, rc, idx.
Defined.

(** ** The index changes by commits only *)




















(** ** Runs of [main] *)

Lemma main_body_unlisted w any d s :
  ~ listed d -> main_body w any d s = (Ok any, s).
Proof.
  intros Hl. by rewrite main_body_eq, bool_decide_eq_false_2.
Qed.

Lemma main_loop_filter w cat :
  forall any s, main_loop w cat any s = main_loop w (filter listed cat) any s.
Proof.
  induction cat as [|d cat IH]; intros any s; [done|].
  destruct (decide (listed d)) as [Hl|Hl].
  - rewrite filter_cons_True by done. cbn [main_loop]. unfold bind.
    destruct (main_body w any d s) as [[any'|e] s1]; [apply IH | done].
  - rewrite filter_cons_False by done. cbn [main_loop]. unfold bind.
    rewrite main_body_unlisted by done. apply IH.
Qed.

(** X15.  The entries of the catalog whose code is not enabled leave no
    mark on a run: the loop over a catalog is the loop over its enabled
    entries, in their order.  When the catalog has no enabled entry, or no
    entry at all, [main] asks for the catalog, probes nothing, reads no
    index, and ends with the line that says there is no need to fetch the
    additional metadata. *)
Theorem unlisted_entries_are_invisible (w : world) :
  (forall cat any s,
      main_loop w cat any s = main_loop w (filter listed cat) any s) /\
  (forall s cat,
      catalog_response w (trace s) = Ok cat ->
      filter listed cat = [] ->
      main w s = (Ok tt, after s [CatalogGet FAO_CATALOG_URL (Ok cat);
                                  Log "INFO" NO_NEED])).
Proof.
  split; [intros; apply main_loop_filter|].
  intros s cat Hcat Hnone.
  unfold main, bind at 1, load_faostat_catalog, call. rewrite Hcat.
  unfold bind at 1. rewrite main_loop_filter, Hnone. cbn [main_loop].
  unfold ret, log, emit, after. cbn [index trace].
  by rewrite <- app_assoc.
Qed.

(** X15 for a catalog that lists [GT] twice. *)
Lemma unlisted_entries_are_invisible_witness :
  main foreign_catalog_world (initial foreign_catalog_world)
  = (Ok tt, after (initial foreign_catalog_world)
              [CatalogGet FAO_CATALOG_URL (Ok [d_gt; d_gt]); Log "INFO" NO_NEED]).
Proof.
  apply unlisted_entries_are_invisible.
  - reflexivity.
  - by_computation.
Defined.

(** The loop over entries that are all up to date. *)
Lemma up_to_date_loop w (idx : walden_index) (cat : list descriptor) :
  Forall (fun fd => is_Some (date_accessed_of (snd fd)))
    (default [] (idx !! NAMESPACE)) ->
  (forall d t, d ∈ cat -> listed d ->
     exists hs m f doc,
       head_response w t (FileLocation d) = Ok hs /\
       modification_date w (mkFAODataset d hs) = Ok m /\
       (f, doc) ∈ default [] (idx !! NAMESPACE) /\
       fresh_for (FileLocation d) m doc) ->
  forall any s,
    index s = idx ->
    exists evs,
      main_loop w cat any s = (Ok any, after s evs) /\
      probes evs = map FileLocation (filter listed cat) /\
      scans evs = map (fun _ => NAMESPACE) (filter listed cat) /\
      downloads evs = [] /\ records evs = [] /\ api_calls evs = [].
Proof.
  intros Hwf. induction cat as [|d cat IH]; intros Hall any s Hidx.
  - exists []. unfold after. rewrite app_nil_r. by destruct s.
  - destruct (IH (fun d' t Hin => Hall d' t (list_elem_of_further _ _ _ Hin)))
      with (any := any) (s := s) as (evs0 & Hloop0 & Hp0 & Hs0 & Hd0 & Hr0 & Ha0);
      [done|].
    cbn [main_loop]. unfold bind. rewrite main_body_eq.
    destruct (decide (listed d)) as [Hl|Hl].
    2: { rewrite bool_decide_eq_false_2, filter_cons_False by done.
         by exists evs0. }
    rewrite bool_decide_eq_true_2, filter_cons_True by done.
    destruct (Hall d (trace s) (list_elem_of_here _ _) Hl)
      as (hs & m & f & doc & Hhead & Hmod & Hin & Hfresh).
    rewrite Hhead, Hmod.
    set (s1 := after s [Head (FileLocation d) (Ok hs)]).
    assert (namespace_partition s1 = default [] (idx !! NAMESPACE)) as Hpart.
    { unfold namespace_partition, s1. cbn [after index]. by rewrite Hidx. }
    assert (fst (is_dataset_already_up_to_date (FileLocation d) m s1) = Ok true)
      as Hverdict.
    { apply verdict_true_iff; rewrite Hpart; [done|]. by exists f, doc. }
    destruct (oracle_run (FileLocation d) m s1) as (ro & logs & Ho & Hlogs & _).
    rewrite Ho in Hverdict. cbn [fst] in Hverdict. subst ro. rewrite Ho.
    destruct (logs_silent _ Hlogs) as (Hp & Ha & _ & Hr & Hd & Hs).
    set (evs1 := Head (FileLocation d) (Ok hs)
                   :: IterDocs NAMESPACE (default [] (index s1 !! NAMESPACE)) :: logs).
    destruct (IH (fun d' t Hin' => Hall d' t (list_elem_of_further _ _ _ Hin')))
      with (any := any) (s := after s evs1)
      as (evs & Hloop & Hp' & Hs' & Hd' & Hr' & Ha'); [done|].
    exists (evs1 ++ evs).
    replace (after s1 (IterDocs NAMESPACE (default [] (index s1 !! NAMESPACE))
                         :: logs)) with (after s evs1).
    2: { unfold s1, evs1, after. cbn [index trace]. by rewrite <- app_assoc. }
    rewrite Hloop. split.
    { unfold after. cbn [index trace]. by rewrite app_assoc. }
    rewrite probes_app, scans_app, downloads_app, records_app, api_calls_app.
    rewrite Hp', Hs', Hd', Hr', Ha'. unfold evs1.
    cbn [probes scans downloads records api_calls flat_map app map].
    fold (probes logs) (scans logs) (downloads logs) (records logs)
      (api_calls logs).
    by rewrite Hp, Ha, Hr, Hd, Hs.
Qed.

(** X16.  When the index has, for every enabled entry of the catalog, a
    record that is fresh for the file of the entry and the date in its
    headers, and no malformed record, a run of [main] fetches nothing: it
    ends well, it probes each enabled entry and reads the index once for
    each, it downloads no file, asks nothing from the API and hands
    nothing to the catalog, and its last line says that there is no need
    to fetch the additional metadata. *)
Theorem up_to_date_run_fetches_nothing (w : world) (s : state)
    (cat : list descriptor) :
  catalog_response w (trace s) = Ok cat ->
  Forall (fun fd => is_Some (date_accessed_of (snd fd))) (namespace_partition s) ->
  (forall d t, d ∈ cat -> listed d ->
     exists hs m f doc,
       head_response w t (FileLocation d) = Ok hs /\
       modification_date w (mkFAODataset d hs) = Ok m /\
       (f, doc) ∈ namespace_partition s /\
       fresh_for (FileLocation d) m doc) ->
  exists evs,
    main w s = (Ok tt, after s (CatalogGet FAO_CATALOG_URL (Ok cat)
                                  :: evs ++ [Log "INFO" NO_NEED])) /\
    probes evs = map FileLocation (filter listed cat) /\
    scans evs = map (fun _ => NAMESPACE) (filter listed cat) /\
    downloads evs = [] /\ records evs = [] /\ api_calls evs = [].
Proof.
  intros Hcat Hwf Hall.
  destruct (up_to_date_loop w (index s) cat Hwf Hall false
              (after s [CatalogGet FAO_CATALOG_URL (Ok cat)]) eq_refl)
    as (evs & Hloop & Hfacts).
  exists evs. split; [|done].
  unfold main, bind at 1, load_faostat_catalog, call. rewrite Hcat.
  unfold bind at 1. fold (after s [CatalogGet FAO_CATALOG_URL (Ok cat)]).
  rewrite Hloop. unfold log, emit, after. cbn [index trace].
  by rewrite <- !app_assoc.
Qed.

(** X16 for a second run in the calm world, on the index that the first
    run left. *)
Lemma up_to_date_run_fetches_nothing_witness :
  exists evs,
    main calm_world (mkstate index_after_first_run [])
    = (Ok tt, after (mkstate index_after_first_run [])
                (CatalogGet FAO_CATALOG_URL (Ok [d_qcl; d_gt; d_rl])
                   :: evs ++ [Log "INFO" NO_NEED])) /\
    downloads evs = [].
Proof.
  destruct (up_to_date_run_fetches_nothing calm_world
              (mkstate index_after_first_run []) [d_qcl; d_gt; d_rl])
    as (evs & Hrun & _ & _ & Hd & _).
  - reflexivity.
  - by_computation.
  - intros d t Hin Hl.
    exists sample_headers, (mkdate 2021 6 1).
    apply list_elem_of_In in Hin. cbn in Hin.
    destruct Hin as [<- | [<- | [<- | []]]].
    + exists "faostat_qcl.json",
        (match metadata calm_world (mkFAODataset d_qcl sample_headers) with
         | Ok md => md
         | Raise _ => ∅
         end).
      split; [reflexivity|]. split; [by_computation|].
      split; [by_computation|]. apply fresh_forb_spec. by_computation.
    + exfalso. revert Hl. by_computation.
    + exists "faostat_rl.json",
        (match metadata calm_world (mkFAODataset d_rl sample_headers) with
         | Ok md => md
         | Raise _ => ∅
         end).
      split; [reflexivity|]. split; [by_computation|].
      split; [by_computation|]. apply fresh_forb_spec. by_computation.
  - exists evs. split; [exact Hrun | exact Hd].
Defined.

(** The record of a turn, if any, is that of its entry. *)
Lemma main_body_record w any d s r s' :
  main_body w any d s = (r, s') ->
  exists evs,
    trace s' = trace s ++ evs /\
    (records evs = [] \/
     listed d /\
     exists hs md, records evs = [md] /\
                   Head (FileLocation d) (Ok hs) ∈ evs /\
                   metadata w (mkFAODataset d hs) = Ok md).
Proof.
  intros Hrun. apply main_body_run, body_run_events in Hrun as (evs & Ht & Hev).
  exists evs. split; [done|].
  inversion Hev as [Hl|e Hl|hs e Hl|hs docs logs e Hl Hlogs|hs docs logs Hl Hlogs
                   |hs docs e Hl|hs docs e Hl|hs docs md rc Hl Hmd]; subst;
    try (left; reflexivity);
    try (left; destruct (logs_silent _ Hlogs) as (_ & _ & _ & Hr & _);
         cbn [records flat_map app]; exact Hr).
  right. split; [done|]. exists hs, md.
  split; [done|]. split; [by left | done].
Qed.

Lemma main_loop_records w cat :
  forall any s r s',
    main_loop w cat any s = (r, s') ->
    exists evs (picks : list (descriptor * dict)),
      trace s' = trace s ++ evs /\
      records evs = map snd picks /\
      map fst picks `sublist_of` filter listed cat /\
      Forall (fun p => exists hs,
                  Head (FileLocation (fst p)) (Ok hs) ∈ evs /\
                  metadata w (mkFAODataset (fst p) hs) = Ok (snd p)) picks.
Proof.
  induction cat as [|d cat IH]; intros any s r s'.
  - intros [= <- <-]. exists [], []. rewrite app_nil_r.
    split_and!; [done | done | done | by apply Forall_nil].
  - cbn [main_loop]. unfold bind.
    destruct (main_body w any d s) as [r1 s1] eqn:Hbody.
    destruct (main_body_record _ _ _ _ _ _ Hbody) as (evs1 & Ht1 & Hrec1).
    assert (exists picks1 : list (descriptor * dict),
               records evs1 = map snd picks1 /\
               map fst picks1 `sublist_of` filter listed [d] /\
               Forall (fun p => exists hs,
                           Head (FileLocation (fst p)) (Ok hs) ∈ evs1 /\
                           metadata w (mkFAODataset (fst p) hs) = Ok (snd p))
                 picks1) as (picks1 & Hp1 & Hsub1 & Hall1).
    { destruct Hrec1 as [Hnone | (Hl & hs & md & Hone & Hhead & Hmd)].
      - exists []. split_and!; [done | apply sublist_nil_l | by apply Forall_nil].
      - exists [(d, md)]. split_and!; [done | |].
        + by rewrite filter_cons_True, filter_nil.
        + apply Forall_singleton. by exists hs. }
    destruct r1 as [any1|e].
    + intros Hloop. destruct (IH _ _ _ _ Hloop) as (evs2 & picks2 & Ht2 & Hp2 & Hsub2 & Hall2).
      exists (evs1 ++ evs2), (picks1 ++ picks2).
      split_and!.
      * by rewrite Ht2, Ht1, app_assoc.
      * by rewrite records_app, map_app, Hp1, Hp2.
      * change (d :: cat) with ([d] ++ cat).
        rewrite filter_app, map_app. by apply sublist_app.
      * apply Forall_app. split.
        -- eapply Forall_impl; [exact Hall1|]. intros p (hs & Hin & Hmd).
           exists hs. split; [|done]. apply elem_of_app. by left.
        -- eapply Forall_impl; [exact Hall2|]. intros p (hs & Hin & Hmd).
           exists hs. split; [|done]. apply elem_of_app. by right.
    + intros [= <- <-]. exists evs1, picks1.
      split_and!; [done | done | | done].
      change (d :: cat) with ([d] ++ cat). rewrite filter_app.
      etrans; [exact Hsub1|]. by apply sublist_inserts_r.
Qed.

(** X17.  The records that a run of [main] hands to the catalog are, in
    this order: for some of the enabled entries of the catalog, in the
    order of the catalog and at most once for each place in it, the
    metadata of the entry with the headers that its file location
    answered in this run; then at most one record, the auxiliary one.
    No record is handed over for an entry that is not in the listing that
    the run received, or that is not enabled. *)
Theorem one_record_per_enabled_entry (w : world) (s : state)
    (cat : list descriptor) (r : result unit) (s' : state) :
  catalog_response w (trace s) = Ok cat ->
  main w s = (r, s') ->
  exists (picks : list (descriptor * dict)) (aux : list dict),
    records (trace s') = records (trace s) ++ map snd picks ++ aux /\
    map fst picks `sublist_of` filter listed cat /\
    Forall (fun p => exists hs,
                Head (FileLocation (fst p)) (Ok hs) ∈ trace s' /\
                metadata w (mkFAODataset (fst p) hs) = Ok (snd p)) picks /\
    (aux = [] \/ exists am, aux = [create_metadata w am]).
Proof.
  intros Hcat. unfold main, bind at 1, load_faostat_catalog, call. rewrite Hcat.
  unfold bind at 1. fold (after s [CatalogGet FAO_CATALOG_URL (Ok cat)]).
  destruct (main_loop w cat false _) as [r1 s1] eqn:Hloop.
  destruct (main_loop_records _ _ _ _ _ _ Hloop)
    as (evs & picks & Ht & Hrec & Hsub & Hall).
  cbn [after trace] in Ht.
  assert (records (trace s1) = records (trace s) ++ map snd picks) as Hrec1.
  { by rewrite Ht, !records_app, Hrec, app_nil_r. }
  assert (forall tail,
             Forall (fun p => exists hs,
                         Head (FileLocation (fst p)) (Ok hs) ∈ trace s1 ++ tail /\
                         metadata w (mkFAODataset (fst p) hs) = Ok (snd p)) picks)
    as Hall'.
  { intros tail. eapply Forall_impl; [exact Hall|]. intros p (hs & Hin & Hmd).
    exists hs. split; [|done]. rewrite Ht.
    apply elem_of_app. left. apply elem_of_app. by right. }
  destruct r1 as [[|]|e].
  - unfold bind at 1, FAOAdditionalMetadata_init. intros Hrefresh.
    destruct (refresh_run _ _ _ _ _ Hrefresh)
      as (qs & tail & x & rest & Ht' & Hq & _ & Htail & _).
    destruct (quiet_silent _ Hq) as (_ & _ & Hrq & _).
    exists picks. destruct Htail as [-> | [rc ->]].
    + exists []. rewrite Ht', !records_app, Hrq, Hrec1, !app_nil_r.
      split_and!; [done | done | | by left].
      rewrite <- (app_nil_r (trace s1 ++ qs)), <- app_assoc. apply Hall'.
    + exists [create_metadata w
                (mkFAOAdditionalMetadata (clock w (trace s1))
                   (year (clock w (trace s1))))].
      rewrite Ht', !records_app, Hrq, Hrec1. cbn [records flat_map app].
      split_and!; [by rewrite <- app_assoc | done | apply Hall'
                  | right; by eexists].
  - unfold log, emit. intros [= <- <-]. cbn [trace]. exists picks, [].
    rewrite records_app, Hrec1, !app_nil_r.
    split_and!; [done | done | apply Hall' | by left].
  - intros [= <- <-]. exists picks, []. rewrite Hrec1, !app_nil_r.
    split_and!; [done | done | | by left].
    rewrite <- (app_nil_r (trace s1)). apply Hall'.
Qed.

(** X17 for the first run in the calm world: two primary records, for
    [QCL] and [RL], and the auxiliary record after them. *)
Lemma one_record_per_enabled_entry_witness :
  exists (picks : list (descriptor * dict)) (aux : list dict),
    records (trace (snd (main calm_world (initial calm_world))))
    = [] ++ map snd picks ++ aux /\
    map fst picks `sublist_of` [d_qcl; d_rl].
Proof.
  destruct (one_record_per_enabled_entry calm_world (initial calm_world)
              [d_qcl; d_gt; d_rl]
              (fst (main calm_world (initial calm_world)))
              (snd (main calm_world (initial calm_world))))
    as (picks & aux & Hrec & Hsub & _).
  - reflexivity.
  - by destruct (main _ _).
  - exists picks, aux. split; [exact Hrec|].
    replace [d_qcl; d_rl] with (filter listed [d_qcl; d_gt; d_rl]);
      [exact Hsub|].
    by_computation.
Defined.
